(** * Wolt markets scraper: catalog normalisation and crawl orchestration

    A shallow embedding of [scripts/markets.py] and
    [scripts/markets_baku.py].  JSON documents are Python values; Python
    exceptions are explicit results; the clock and the HTTP session are an
    explicit world threaded through the program.

    Numbers: Python [int] is [Z].  A Python [float] is a binary64 value:
    an infinity, the NaN, or a finite value, kept as the rational it
    denotes in reduced form; every operation rounds to the nearest
    binary64, ties to the even significand.

    Strings: a Python [str] is kept as the bytes of its UTF-8 encoding (a
    lone surrogate, which json.loads lets through, as the three bytes of
    its generalized encoding). *)

From Stdlib Require Import ZArith QArith Qround Qabs Qreduction Qpower.
From Stdlib Require Import String Ascii List Bool Lia Lqa DecimalString.
Import ListNotations.

Set Warnings "-register-all".
Open Scope string_scope.
Open Scope Z_scope.

(** ** Python values and primitives *)
Module Py.

(** A binary64 value.  The two zeros are not told apart: Python raises
    before it divides by either, both are falsy and both equal 0; the
    sign of a zero only shows when it is printed. *)
Inductive float : Type :=
| Finite (q : Q)
| Inf (negative : bool)
| NaN.

Inductive value : Type :=
| VNone
| VBool (b : bool)
| VInt (z : Z)
| VFloat (x : float)
| VStr (s : string)
| VList (l : list value)
| VDict (d : list (string * value)).

(** A dict with string keys, in insertion order; a parsed JSON object. *)
Definition dict := list (string * value).

Inductive exn : Type :=
| AttributeError | TypeError | KeyError | IndexError | ZeroDivisionError
| OverflowError
| ValueError
| UnicodeEncodeError         (* a ValueError *)
| OSError
| JSONDecodeError            (* json.JSONDecodeError *)
| ConnectionError | Timeout | HTTPError
| RequestsJSONDecodeError    (* requests.exceptions.JSONDecodeError *)
| OtherRequestException.

(** [isinstance(e, requests.exceptions.RequestException)] *)
Definition is_RequestException (e : exn) : bool :=
  match e with
  | ConnectionError | Timeout | HTTPError
  | RequestsJSONDecodeError | OtherRequestException => true
  | _ => false
  end.

(** [isinstance(e, json.JSONDecodeError)] *)
Definition is_JSONDecodeError (e : exn) : bool :=
  match e with
  | JSONDecodeError | RequestsJSONDecodeError => true
  | _ => false
  end.

Inductive res (A : Type) : Type :=
| Ok (a : A)
| Raise (e : exn).
Arguments Ok {A} a.
Arguments Raise {A} e.

Definition rbind {A B} (m : res A) (k : A -> res B) : res B :=
  match m with
  | Ok a => k a
  | Raise e => Raise e
  end.

Declare Scope res_scope.
Delimit Scope res_scope with res.
Notation "x <- m ;; k" := (rbind m (fun x => k))
  (at level 61, m at next level, right associativity) : res_scope.

(** *** dict and list access *)

Fixpoint lookup (k : string) (d : dict) : option value :=
  match d with
  | [] => None
  | (k', v) :: d' => if String.eqb k k' then Some v else lookup k d'
  end.

(** [d[k] = v] on a dict: replace in place, or append. *)
Fixpoint dict_set (k : string) (v : value) (d : dict) : dict :=
  match d with
  | [] => [(k, v)]
  | (k', v') :: d' =>
      if String.eqb k k' then (k, v) :: d' else (k', v') :: dict_set k v d'
  end.

(** [bool(v)] *)
Definition truthy (v : value) : bool :=
  match v with
  | VNone => false
  | VBool b => b
  | VInt z => negb (z =? 0)
  | VFloat (Finite q) => negb (Qeq_bool q 0)
  | VFloat _ => true
  | VStr s => negb (String.eqb s "")
  | VList l => match l with [] => false | _ => true end
  | VDict d => match d with [] => false | _ => true end
  end.

(** [v.get(k, dflt)]; only dicts have [get]. *)
Definition get (v : value) (k : string) (dflt : value) : res value :=
  match v with
  | VDict d => Ok (match lookup k d with Some x => x | None => dflt end)
  | _ => Raise AttributeError
  end.

(** [v.get(k)] *)
Definition get1 (v : value) (k : string) : res value := get v k VNone.

(** [v[k]] for a string key [k]. *)
Definition getitem_str (v : value) (k : string) : res value :=
  match v with
  | VDict d => match lookup k d with Some x => Ok x | None => Raise KeyError end
  | _ => Raise TypeError
  end.

(** *** characters *)

(** A byte that continues the encoding of a character: 10xxxxxx. *)
Definition continuation (c : ascii) : bool :=
  ((128 <=? nat_of_ascii c) && (nat_of_ascii c <? 192))%nat.

(** The characters of a string, in order: each first byte with the
    continuation bytes that follow it. *)
Fixpoint code_points (s : string) : list string :=
  match s with
  | EmptyString => []
  | String c s' =>
      match code_points s' with
      | g :: gs =>
          match g with
          | String c' _ =>
              if continuation c' then String c g :: gs
              else String c EmptyString :: g :: gs
          | EmptyString => String c EmptyString :: gs
          end
      | [] => [String c EmptyString]
      end
  end.

Definition is_ascii (s : string) : bool :=
  forallb (fun c => (nat_of_ascii c <? 128)%nat) (list_ascii_of_string s).

(** Whether [s.encode('utf-8')] succeeds: the string holds no surrogate,
    whose encoding is the byte 0xED followed by a byte from 0xA0 on. *)
Fixpoint encodable (s : string) : bool :=
  match s with
  | String c ((String c' _) as s') =>
      negb ((nat_of_ascii c =? 237) && (160 <=? nat_of_ascii c'))%nat
      && encodable s'
  | _ => true
  end.

(** [v[i]] for a natural index [i] (the source only uses 0 and 1). *)
Definition getitem_idx (v : value) (i : nat) : res value :=
  match v with
  | VList l => match nth_error l i with Some x => Ok x | None => Raise IndexError end
  | VStr s => match nth_error (code_points s) i with
              | Some c => Ok (VStr c)
              | None => Raise IndexError
              end
  | VDict _ => Raise KeyError
  | _ => Raise TypeError
  end.

(** [v[k] = x] for a string key. *)
Definition setitem_str (v : value) (k : string) (x : value) : res value :=
  match v with
  | VDict d => Ok (VDict (dict_set k x d))
  | _ => Raise TypeError
  end.

Definition chars (s : string) : list value := map VStr (code_points s).

(** [iter(v)]: the elements a [for] loop or a comprehension visits. *)
Definition iter (v : value) : res (list value) :=
  match v with
  | VList l => Ok l
  | VDict d => Ok (map (fun kv => VStr (fst kv)) d)
  | VStr s => Ok (chars s)
  | _ => Raise TypeError
  end.

(** *** numbers *)

Inductive num : Type := NInt (z : Z) | NFloat (x : float).

(** [bool] is a subclass of [int]. *)
Definition as_num (v : value) : option num :=
  match v with
  | VBool b => Some (NInt (if b then 1 else 0))
  | VInt z => Some (NInt z)
  | VFloat x => Some (NFloat x)
  | _ => None
  end.

(** Round to the nearest integer, ties to even. *)
Definition round_half_even (q : Q) : Z :=
  let f := Qfloor q in
  match Qcompare (q - inject_Z f) (1 # 2) with
  | Lt => f
  | Gt => f + 1
  | Eq => if Z.even f then f else f + 1
  end.

Definition pow2 (k : Z) : Q := (2 ^ k)%Q.

(** [floor (log2 |q|)], for [q] other than 0. *)
Definition ilog2 (q : Q) : Z :=
  let k := Z.log2 (Z.abs (Qnum q)) - Z.log2 (Z.pos (Qden q)) in
  if Qle_bool (pow2 k) (Qabs q) then k else k - 1.

(** The exponent of the last binary digit a binary64 keeps of [q]: 53
    digits from the leading one, and none below 2^-1074. *)
Definition last_place (q : Q) : Z := Z.max (ilog2 q) (-1022) - 52.

(** The multiple of [2 ^ last_place q] nearest to [q], ties to the even
    multiple. *)
Definition nearest (q : Q) : Q :=
  let e := last_place q in
  Qred (inject_Z (round_half_even (q / pow2 e)) * pow2 e).

(** [q] rounded to binary64: what rounds to 2^1024 or beyond is out of
    range and becomes an infinity. *)
Definition negative (q : Q) : bool := negb (Qle_bool 0 q).

Definition b64 (q : Q) : float :=
  let r := nearest q in
  if Qle_bool (pow2 1024) (Qabs r) then Inf (negative q) else Finite r.

(** IEEE 754 subtraction, multiplication and division (by a divisor
    other than zero). *)
Definition fsub (a b : float) : float :=
  match a, b with
  | NaN, _ | _, NaN => NaN
  | Inf s, Inf t => if Bool.eqb s t then NaN else Inf s
  | Inf s, Finite _ => Inf s
  | Finite _, Inf t => Inf (negb t)
  | Finite x, Finite y => b64 (x - y)
  end.

Definition fmul (a b : float) : float :=
  match a, b with
  | NaN, _ | _, NaN => NaN
  | Inf s, Inf t => Inf (xorb s t)
  | Inf s, Finite y | Finite y, Inf s =>
      if Qeq_bool y 0 then NaN else Inf (xorb s (negative y))
  | Finite x, Finite y => b64 (x * y)
  end.

Definition fdiv (a b : float) : float :=
  match a, b with
  | NaN, _ | _, NaN => NaN
  | Inf _, Inf _ => NaN
  | Inf s, Finite y => Inf (xorb s (negative y))
  | Finite _, Inf _ => Finite 0
  | Finite x, Finite y => b64 (x / y)
  end.

(** [x == 0.0] *)
Definition fzero (x : float) : bool :=
  match x with
  | Finite q => Qeq_bool q 0
  | _ => false
  end.

(** [float(z)]: an [int] too large for a binary64 raises. *)
Definition float_of_int (z : Z) : res float :=
  match b64 (inject_Z z) with
  | Inf _ => Raise OverflowError
  | x => Ok x
  end.

(** The conversion of an operand of mixed arithmetic. *)
Definition to_float (n : num) : res float :=
  match n with
  | NInt z => float_of_int z
  | NFloat x => Ok x
  end.

(** [x / y] on two [int]s: the quotient rounded once, [OverflowError]
    when out of range. *)
Definition int_truediv (x y : Z) : res float :=
  if y =? 0 then Raise ZeroDivisionError
  else match b64 (inject_Z x / inject_Z y) with
       | Inf _ => Raise OverflowError
       | r => Ok r
       end.

(** [a / b]: true division, always a float.  With a float operand both
    operands are converted before the divisor is tested. *)
Definition truediv (a b : value) : res float :=
  match as_num a, as_num b with
  | Some (NInt x), Some (NInt y) => int_truediv x y
  | Some x, Some y =>
      (fx <- to_float x ;;
       fy <- to_float y ;;
       if fzero fy then Raise ZeroDivisionError else Ok (fdiv fx fy))%res
  | _, _ => Raise TypeError
  end.

(** [a - b] on numbers; nothing else in a JSON document supports [-]. *)
Definition sub (a b : value) : res value :=
  match as_num a, as_num b with
  | Some (NInt x), Some (NInt y) => Ok (VInt (x - y))
  | Some x, Some y =>
      (fx <- to_float x ;; fy <- to_float y ;; Ok (VFloat (fsub fx fy)))%res
  | _, _ => Raise TypeError
  end.

(** [x * 100] on a float [x]. *)
Definition times100 (x : float) : float := fmul x (Finite 100).

(** [v > 0] *)
Definition gt0 (v : value) : res bool :=
  match as_num v with
  | Some (NInt z) => Ok (0 <? z)
  | Some (NFloat (Finite q)) => Ok (negb (Qle_bool q 0))
  | Some (NFloat (Inf s)) => Ok (negb s)
  | Some (NFloat NaN) => Ok false
  | None => Raise TypeError
  end.

(** [round(x, 2)] on a float: the decimal with two places nearest to the
    value [x] denotes, ties to the even last digit, as a binary64.  A
    binary64 of magnitude 2^52 or more is an integer and rounds to
    itself, as do an infinity and the NaN. *)
Definition round2 (x : float) : float :=
  match x with
  | Finite q =>
      if Qle_bool (pow2 52) (Qabs q) then x
      else b64 (round_half_even (q * 100) # 100)
  | _ => x
  end.

(** [x == y] on numbers. *)
Definition num_eqb (x y : num) : bool :=
  match x, y with
  | NInt a, NInt b => a =? b
  | NInt a, NFloat (Finite q) | NFloat (Finite q), NInt a =>
      Qeq_bool (inject_Z a) q
  | NFloat (Finite p), NFloat (Finite q) => Qeq_bool p q
  | NFloat (Inf s), NFloat (Inf t) => Bool.eqb s t
  | _, _ => false
  end.

(** *** strings *)

(** The case mappings of ASCII, letter by letter. *)
Definition upper_ascii (c : ascii) : ascii :=
  if (("a" <=? c) && (c <=? "z"))%char
  then ascii_of_nat (nat_of_ascii c - 32) else c.

Definition lower_ascii (c : ascii) : ascii :=
  if (("A" <=? c) && (c <=? "Z"))%char
  then ascii_of_nat (nat_of_ascii c + 32) else c.

Fixpoint ascii_upper (s : string) : string :=
  match s with
  | EmptyString => EmptyString
  | String c s' => String (upper_ascii c) (ascii_upper s')
  end.

Fixpoint ascii_lower (s : string) : string :=
  match s with
  | EmptyString => EmptyString
  | String c s' => String (lower_ascii c) (ascii_lower s')
  end.

(** [sep.join(l)] for a list of strings already checked. *)
Fixpoint join_strs (sep : string) (l : list string) : string :=
  match l with
  | [] => ""
  | [s] => s
  | s :: l' => s ++ sep ++ join_strs sep l'
  end.

Fixpoint all_strs (l : list value) : option (list string) :=
  match l with
  | [] => Some []
  | VStr s :: l' => option_map (cons s) (all_strs l')
  | _ => None
  end.

(** [','.join(v)]: [v] is iterated, every element must be a [str]. *)
Definition join_comma (v : value) : res value :=
  (l <- iter v ;;
   match all_strs l with
   | Some ss => Ok (VStr (join_strs "," ss))
   | None => Raise TypeError
   end)%res.

Fixpoint is_substring (p s : string) : bool :=
  prefix p s ||
  match s with
  | EmptyString => false
  | String _ s' => is_substring p s'
  end.

Definition is_str (k : string) (v : value) : bool :=
  match v with
  | VStr s => String.eqb s k
  | _ => false
  end.

(** [k in v] for a string [k]. *)
Definition contains_str (k : string) (v : value) : res bool :=
  match v with
  | VDict d => Ok (match lookup k d with Some _ => true | None => false end)
  | VList l => Ok (existsb (is_str k) l)
  | VStr s => Ok (is_substring k s)
  | _ => Raise TypeError
  end.

(** [len(v)] *)
Definition len (v : value) : res Z :=
  match v with
  | VList l => Ok (Z.of_nat (List.length l))
  | VDict d => Ok (Z.of_nat (List.length d))
  | VStr s => Ok (Z.of_nat (List.length (code_points s)))
  | _ => Raise TypeError
  end.

(** *** hashing and equality of dict keys of any hashable type *)

Definition hashable (v : value) : bool :=
  match v with
  | VList _ | VDict _ => false
  | _ => true
  end.

(** Whether a dict finds the key [b] for [a]: the two are equal, numbers
    comparing by value across [bool], [int] and [float], or they are the
    same object, which is the case of the NaN of a parsed document (the
    one constant of the json module; a NaN equals nothing). *)
Definition key_eqb (a b : value) : bool :=
  match a, b with
  | VNone, VNone => true
  | VStr s, VStr t => String.eqb s t
  | VFloat NaN, VFloat NaN => true
  | _, _ =>
      match as_num a, as_num b with
      | Some x, Some y => num_eqb x y
      | _, _ => false
      end
  end.

End Py.

(** ** The world: clock and HTTP session; the scraper object *)
Module Eff.
Import Py.

(** What [session.get] hands back: a status code and the outcome of
    [response.json()] on the body. *)
Record response : Type := mkResponse {
  status_code : Z;
  json_body : res value
}.

Record Env : Type := mkEnv {
  World : Type;
  (** [datetime.now().isoformat()] *)
  now : World -> string * World;
  (** [session.get(url)] and [session.post(url)] *)
  session_get : string -> World -> res response * World;
  session_post : string -> World -> res response * World;
  (** [str(v)] for floats and containers *)
  str_other : value -> string;
  (** [s.upper()], [s.lower()] and [s.capitalize()] for a string with a
      character outside ASCII: the case mappings of Unicode *)
  str_upper : string -> string;
  str_lower : string -> string;
  str_capitalize : string -> string;
  (** whether [open(path, 'w')] succeeds *)
  writable : string -> bool
}.

Section Monad.
Context {E : Env}.

(** The scraper object [self] together with the world. *)
Record state : Type := mkState {
  world : World E;
  self_cities : value;
  self_markets : list dict;
  self_items : list dict
}.

Definition M (A : Type) : Type := state -> res A * state.

Definition ret {A} (a : A) : M A := fun s => (Ok a, s).
Definition raise {A} (e : exn) : M A := fun s => (Raise e, s).
Definition bind {A B} (m : M A) (k : A -> M B) : M B :=
  fun s => match m s with
           | (Ok a, s') => k a s'
           | (Raise e, s') => (Raise e, s')
           end.
Definition lift {A} (r : res A) : M A := fun s => (r, s).

(** [try: m  except <classes accepted by h>: return dflt] *)
Definition try_except {A} (m : M A) (h : exn -> bool) (dflt : A) : M A :=
  fun s => match m s with
           | (Raise e, s') => if h e then (Ok dflt, s') else (Raise e, s')
           | r => r
           end.

Definition set_world (w : World E) (s : state) : state :=
  mkState w (self_cities s) (self_markets s) (self_items s).

Definition isoformat_now : M string :=
  fun s => let (t, w) := now E (world s) in (Ok t, set_world w s).

Definition http (f : string -> World E -> res response * World E)
    (url : string) : M response :=
  fun s => let (r, w) := f url (world s) in (r, set_world w s).

(** A [for] loop that appends to a local list: the results of the body
    on each element, concatenated, up to the first exception. *)
Fixpoint for_each {A B} (l : list A) (body : A -> M (list B)) : M (list B) :=
  match l with
  | [] => ret []
  | a :: l' =>
      bind (body a) (fun bs =>
      bind (for_each l' body) (fun rest => ret (bs ++ rest)%list))
  end.

(** A [for] loop run for its effect on [self]. *)
Fixpoint for_loop {A} (l : list A) (body : A -> M unit) : M unit :=
  match l with
  | [] => ret tt
  | a :: l' => bind (body a) (fun _ => for_loop l' body)
  end.

End Monad.

Arguments state E : clear implicits.
Arguments M E A : clear implicits.

Declare Scope eff_scope.
Delimit Scope eff_scope with eff.
Notation "x <- m ;; k" := (bind m (fun x => k))
  (at level 61, m at next level, right associativity) : eff_scope.

End Eff.

(** ** Code shared verbatim by the two scripts *)
Module Common.
Import Py Eff.

Definition BASE_URL : string := "https://restaurant-api.wolt.com".
Definition CONSUMER_API_URL : string := "https://consumer-api.wolt.com".
Definition DEFAULT_LAT : value :=
  VFloat (b64 (40373141313556964 # 1000000000000000)).
Definition DEFAULT_LON : value :=
  VFloat (b64 (4984575754727883 # 100000000000000)).

(** A dict display [{k1: e1, k2: e2, ...}]: the expressions are evaluated
    in order and the first exception wins. *)
Fixpoint eval_fields (fs : list (string * res value)) : res dict :=
  match fs with
  | [] => Ok []
  | (k, r) :: fs' =>
      (v <- r ;; d <- eval_fields fs' ;; Ok ((k, v) :: d))%res
  end.

Fixpoint field (k : string) (fs : list (string * res value)) : option (res value) :=
  match fs with
  | [] => None
  | (k', r) :: fs' => if String.eqb k k' then Some r else field k fs'
  end.

(** [f(x) for x in l] of a list comprehension. *)
Fixpoint map_res {A B} (f : A -> res B) (l : list A) : res (list B) :=
  match l with
  | [] => Ok []
  | a :: l' => (b <- f a ;; bs <- map_res f l' ;; Ok (b :: bs))%res
  end.

(** *** The derived fields of a product (markets.py 162-182,
        markets_baku.py 152-172) *)

Definition price_field (item : value) : res value :=
  (p <- get item "price" (VInt 0) ;;
   q <- truediv p (VInt 100) ;;
   Ok (VFloat q))%res.

Definition original_price_field (item : value) : res value :=
  (c <- get1 item "original_price" ;;
   if truthy c then
     o <- get item "original_price" (VInt 0) ;;
     q <- truediv o (VInt 100) ;;
     Ok (VFloat q)
   else Ok VNone)%res.

Definition discount_amount_field (item : value) : res value :=
  (c <- get1 item "original_price" ;;
   if truthy c then
     o <- get item "original_price" (VInt 0) ;;
     p <- get item "price" (VInt 0) ;;
     d <- sub o p ;;
     q <- truediv d (VInt 100) ;;
     Ok (VFloat q)
   else Ok (VInt 0))%res.

(** [item.get('original_price') and item.get('original_price') > 0] *)
Definition original_price_positive (item : value) : res bool :=
  (c <- get1 item "original_price" ;;
   if truthy c then
     c' <- get1 item "original_price" ;;
     gt0 c'
   else Ok false)%res.

Definition discount_percentage_field (item : value) : res value :=
  (b <- original_price_positive item ;;
   if b then
     o <- get item "original_price" (VInt 0) ;;
     p <- get item "price" (VInt 0) ;;
     d <- sub o p ;;
     o1 <- get item "original_price" (VInt 1) ;;
     q <- truediv d o1 ;;
     Ok (VFloat (round2 (times100 q)))
   else Ok (VInt 0))%res.

Definition unit_price_field (item : value) (k : string)
    (dflt absent : value) (conv : value -> res value) : res value :=
  (c <- get1 item "unit_price" ;;
   if truthy c then
     u <- get item "unit_price" (VDict []) ;;
     x <- get u k dflt ;;
     conv x
   else Ok absent)%res.

Definition div100 (x : value) : res value :=
  (q <- truediv x (VInt 100) ;; Ok (VFloat q))%res.

Definition image_field (item : value) (k : string) : res value :=
  (c <- get1 item "images" ;;
   if truthy c then
     im <- get item "images" (VList [VDict []]) ;;
     e <- getitem_idx im 0 ;;
     get e k (VStr "")
   else Ok (VStr ""))%res.

Definition is_available_field (item : value) : res value :=
  (c <- get1 item "disabled_info" ;; Ok (VBool (negb (truthy c))))%res.

(** The item dict display without its last entry, [scraped_at].  The two
    scripts differ in the [category_id] entry (markets.py only, passed as
    [category]) and in how [dietary_preferences] and [tags] are joined. *)
Definition item_fields (category : option value)
    (join_prefs join_tags : value -> res value)
    (venue_info section_name section_slug item_data : value)
    : list (string * res value) :=
  ([ ("item_id", get item_data "id" (VStr ""));
     ("venue_id", get venue_info "id" (VStr ""));
     ("venue_name", get venue_info "name" (VStr ""));
     ("venue_slug", get venue_info "slug" (VStr ""));
     ("city", get venue_info "city_name" (VStr ""));
     ("city_slug", get venue_info "city_slug" (VStr "")) ]
   ++ match category with
      | Some c => [ ("category_id", Ok c) ]
      | None => []
      end
   ++
   [ ("section_name", Ok section_name);
     ("section_slug", Ok section_slug);
     ("name", get item_data "name" (VStr ""));
     ("description", get item_data "description" (VStr ""));
     ("price", price_field item_data);
     ("original_price", original_price_field item_data);
     ("discount_amount", discount_amount_field item_data);
     ("discount_percentage", discount_percentage_field item_data);
     ("unit_info", get item_data "unit_info" (VStr ""));
     ("unit_price_value", unit_price_field item_data "price" (VInt 0) VNone div100);
     ("unit_price_base", unit_price_field item_data "base" (VInt 0) VNone Ok);
     ("unit_price_unit", unit_price_field item_data "unit" (VStr "") (VStr "") Ok);
     ("barcode_gtin", get item_data "barcode_gtin" (VStr ""));
     ("image_url", image_field item_data "url");
     ("image_blurhash", image_field item_data "blurhash");
     ("purchasable_balance", get item_data "purchasable_balance" VNone);
     ("quantity_left", get item_data "quantity_left" VNone);
     ("max_quantity_per_purchase", get item_data "max_quantity_per_purchase" VNone);
     ("min_quantity_per_purchase", get item_data "min_quantity_per_purchase" VNone);
     ("alcohol_permille", get item_data "alcohol_permille" (VInt 0));
     ("caffeine_info", get item_data "caffeine_info" (VStr ""));
     ("vat_percentage", get item_data "vat_percentage" (VInt 0));
     ("dietary_preferences",
        (v <- get item_data "dietary_preferences" (VList []) ;; join_prefs v)%res);
     ("tags", (v <- get item_data "tags" (VList []) ;; join_tags v)%res);
     ("is_available", is_available_field item_data);
     ("is_wolt_plus_only", get item_data "is_wolt_plus_only" (VBool false));
     ("is_cutlery", get item_data "is_cutlery" (VBool false));
     ("deposit", get item_data "deposit" VNone) ])%list.

(** The venue record of the orchestrators (markets.py 229-250,
    markets_baku.py 209-230), without [scraped_at]. *)
Definition market_fields (city_name city_slug market market_name market_slug : value)
    : list (string * res value) :=
  [ ("venue_id", get market "id" (VStr ""));
    ("name", Ok market_name);
    ("slug", Ok market_slug);
    ("address", get market "address" (VStr ""));
    ("city", Ok city_name);
    ("city_slug", Ok city_slug);
    ("country", get market "country" (VStr ""));
    ("latitude",
       (l <- get market "location" (VList [VInt 0; VInt 0]) ;; getitem_idx l 1)%res);
    ("longitude",
       (l <- get market "location" (VList [VInt 0; VInt 0]) ;; getitem_idx l 0)%res);
    ("rating_score",
       (r <- get market "rating" (VDict []) ;; get r "score" VNone)%res);
    ("rating_volume",
       (r <- get market "rating" (VDict []) ;; get r "volume" VNone)%res);
    ("price_range", get market "price_range" VNone);
    ("online", get market "online" (VBool false));
    ("delivers", get market "delivers" (VBool false));
    ("delivery_price",
       (p <- get market "delivery_price_int" (VInt 0) ;; div100 p)%res);
    ("estimate_minutes", get market "estimate" (VInt 0));
    ("estimate_range", get market "estimate_range" (VStr ""));
    ("short_description", get market "short_description" (VStr ""));
    ("tags", (t <- get market "tags" (VList []) ;; join_comma t)%res) ].

Section WithEnv.
Context {E : Env}.
Local Open Scope eff_scope.

(** [str(v)], as an f-string or [str()] formats a JSON value. *)
Definition str (v : value) : string :=
  match v with
  | VStr s => s
  | VNone => "None"
  | VBool true => "True"
  | VBool false => "False"
  | VInt z => NilZero.string_of_int (Z.to_int z)
  | _ => str_other E v
  end.

(** [s.upper()] and [s.lower()] *)
Definition upper (s : string) : string :=
  if is_ascii s then ascii_upper s else str_upper E s.

Definition lower (s : string) : string :=
  if is_ascii s then ascii_lower s else str_lower E s.

(** A dict display whose last entry is
    ['scraped_at': datetime.now().isoformat()]. *)
Definition stamped (fs : list (string * res value)) : M E dict :=
  d <- lift (eval_fields fs) ;;
  t <- isoformat_now ;;
  ret (d ++ [("scraped_at", VStr t)])%list.

Definition raise_for_status (r : response) : M E unit :=
  if (400 <=? status_code r) && (status_code r <? 600)
  then raise HTTPError else ret tt.

(** [make_request(url, method)]; [time.sleep] and the logger have no
    effect on the values computed. *)
Definition make_request (url method : string) : M E value :=
  try_except
    (response <-
       (if String.eqb (upper method) "GET" then http (session_get E) url
        else if String.eqb (upper method) "POST" then http (session_post E) url
        else raise ValueError) ;;
     _ <- raise_for_status response ;;
     lift (json_body response))
    (fun e => is_RequestException e || is_JSONDecodeError e)
    VNone.

Definition fetch_retail_markets (lat lon city_slug : value) : M E (list value) :=
  let url := (CONSUMER_API_URL ++ "/v1/pages/retail?lat=" ++ str lat
              ++ "&lon=" ++ str lon)%string in
  data <- make_request url "GET" ;;
  if negb (truthy data) then ret []
  else
    sections <- lift (get data "sections" (VList [])) ;;
    sections <- lift (iter sections) ;;
    for_each sections (fun section =>
      items <- lift (get section "items" (VList [])) ;;
      items <- lift (iter items) ;;
      for_each items (fun item =>
        has_venue <- lift (contains_str "venue" item) ;;
        if has_venue : bool then
          venue <- lift (getitem_str item "venue") ;;
          venue <- lift (setitem_str venue "city_slug" city_slug) ;;
          city <- lift (get data "city" (VStr "")) ;;
          venue <- lift (setitem_str venue "city_name" city) ;;
          ret [venue]
        else ret [])).

Definition venue_content_url (venue_slug : value) : string :=
  (CONSUMER_API_URL
   ++ "/consumer-api/venue-content-api/v3/web/venue-content/slug/"
   ++ str venue_slug)%string.

Definition append_market (m : dict) : M E unit :=
  fun s => (Ok tt, mkState (world s) (self_cities s)
                     (self_markets s ++ [m])%list (self_items s)).

Definition extend_items (l : list dict) : M E unit :=
  fun s => (Ok tt, mkState (world s) (self_cities s)
                     (self_markets s) (self_items s ++ l)%list).

(** The body of the loop over the discovered markets, the same in both
    orchestrators up to the two methods it calls. *)
Definition process_market
    (fetch_venue_details : value -> M E value)
    (extract_items_from_venue : value -> value -> M E (list dict))
    (city_name city_slug market : value) : M E unit :=
  market_slug <- lift (get market "slug" (VStr "")) ;;
  market_name <- lift (get market "name" (VStr "")) ;;
  market_data <- stamped (market_fields city_name city_slug market
                            market_name market_slug) ;;
  _ <- append_market market_data ;;
  venue_details <- fetch_venue_details market_slug ;;
  if truthy venue_details then
    venue_items <- extract_items_from_venue venue_details market ;;
    extend_items venue_items
  else ret tt.

End WithEnv.

Arguments str E v : clear implicits.
Arguments upper E s : clear implicits.
Arguments lower E s : clear implicits.
Arguments venue_content_url E venue_slug : clear implicits.

End Common.

(** ** Files: what [save_to_csv] writes *)
Module Persist.
Import Py Eff Common.

(** A file is what was written to it, in order: strings by [f.write] and
    rows by a csv writer.  How the csv module renders a row as text is
    the library's business; the cells are kept as the values handed to
    it.  The files are opened with [encoding='utf-8']: text that holds a
    surrogate cannot be written.  A file that was opened takes whatever
    encodes. *)
Inductive chunk : Type :=
| Text (s : string)
| Row (cells : list value).

Definition file : Type := list chunk.

(** Whether the text of a chunk encodes.  A cell that is a [str] is
    written as it is; every other cell goes through [str()], which gives
    ASCII for a number and escapes what is inside a container. *)
Definition encodes (x : chunk) : bool :=
  match x with
  | Text s => encodable s
  | Row cells => forallb (fun v => match v with
                                   | VStr s => encodable s
                                   | _ => true
                                   end) cells
  end.

(** The files on disk, by path. *)
Definition disk : Type := list (string * file).

Fixpoint read (path : string) (fs : disk) : option file :=
  match fs with
  | [] => None
  | (p, f) :: fs' => if String.eqb path p then Some f else read path fs'
  end.

Fixpoint store (path : string) (f : file) (fs : disk) : disk :=
  match fs with
  | [] => [(path, f)]
  | (p, g) :: fs' =>
      if String.eqb path p then (p, f) :: fs' else (p, g) :: store path f fs'
  end.

Definition nl : string := String (ascii_of_nat 10) EmptyString.

Fixpoint ends_with_slash (s : string) : bool :=
  match s with
  | EmptyString => false
  | String c EmptyString => Ascii.eqb c "/"
  | String _ s' => ends_with_slash s'
  end.

(** [os.path.join(a, b)] on POSIX. *)
Definition path_join (a b : string) : string :=
  if prefix "/" b then b
  else if String.eqb a "" || ends_with_slash a then a ++ b
  else a ++ "/" ++ b.

(** [c * n] for a one-character string [c]. *)
Fixpoint repeat_string (c : string) (n : nat) : string :=
  match n with
  | O => ""
  | S n' => c ++ repeat_string c n'
  end.

(** [str(len(l))] *)
Definition str_len {A} (l : list A) : string :=
  NilZero.string_of_uint (Nat.to_uint (List.length l)).

(** [rowdict.keys() - fieldnames] of [DictWriter._dict_to_list]. *)
Definition wrong_fields (fieldnames : list string) (rowdict : dict) : list string :=
  filter (fun k => negb (existsb (String.eqb k) fieldnames)) (map fst rowdict).

(** [DictWriter._dict_to_list] with [extrasaction='raise'] and
    [restval='']. *)
Definition dict_to_list (fieldnames : list string) (rowdict : dict)
    : res (list value) :=
  match wrong_fields fieldnames rowdict with
  | [] => Ok (map (fun k => match lookup k rowdict with
                            | Some v => v
                            | None => VStr ""
                            end) fieldnames)
  | _ => Raise ValueError
  end.

Section IO.
Context {E : Env}.

(** The scraper and the world, with the disk. *)
Definition IO (A : Type) : Type := state E * disk -> res A * (state E * disk).

Definition io_ret {A} (a : A) : IO A := fun sd => (Ok a, sd).

Definition io_bind {A B} (m : IO A) (k : A -> IO B) : IO B :=
  fun sd => match m sd with
            | (Ok a, sd') => k a sd'
            | (Raise e, sd') => (Raise e, sd')
            end.

(** A method that does not touch the disk. *)
Definition io_lift {A} (m : M E A) : IO A :=
  fun sd => let (r, s') := m (fst sd) in (r, (s', snd sd)).

Definition io_res {A} (r : res A) : IO A := fun sd => (r, sd).

Definition self : IO (state E) := fun sd => (Ok (fst sd), sd).

(** [open(path, 'w')]: the file is there and empty, or the system
    refuses. *)
Definition open_w (path : string) : IO unit :=
  fun sd =>
    if writable E path then (Ok tt, (fst sd, store path [] (snd sd)))
    else (Raise OSError, sd).

(** One [write] to an open file: the text is encoded whole, or not
    written at all. *)
Definition append (path : string) (x : chunk) : IO unit :=
  fun sd =>
    if encodes x then
      let f := match read path (snd sd) with Some f => f | None => [] end in
      (Ok tt, (fst sd, store path (f ++ [x])%list (snd sd)))
    else (Raise UnicodeEncodeError, sd).

Definition writeheader (path : string) (fieldnames : list string) : IO unit :=
  append path (Row (map VStr fieldnames)).

(** [writer.writerows(rowdicts)]: the rows go out one by one, and those
    before a row with a wrong field, or with text that does not encode,
    are written. *)
Fixpoint writerows (path : string) (fieldnames : list string)
    (rowdicts : list dict) : IO unit :=
  match rowdicts with
  | [] => io_ret tt
  | rowdict :: rest =>
      io_bind (io_res (dict_to_list fieldnames rowdict)) (fun cells =>
      io_bind (append path (Row cells)) (fun _ =>
      writerows path fieldnames rest))
  end.

(** [if records: with open(path, 'w') as f:
       writer = csv.DictWriter(f, fieldnames=records[0].keys())
       writer.writeheader(); writer.writerows(records)] *)
Definition write_csv (path : string) (records : list dict) : IO unit :=
  match records with
  | [] => io_ret tt
  | first :: _ =>
      io_bind (open_w path) (fun _ =>
      io_bind (writeheader path (map fst first)) (fun _ =>
      writerows path (map fst first) records))
  end.

(** [f.write(s)] for each [s], in order. *)
Fixpoint write_lines (path : string) (lines : list string) : IO unit :=
  match lines with
  | [] => io_ret tt
  | l :: rest => io_bind (append path (Text l)) (fun _ => write_lines path rest)
  end.

End IO.

Arguments IO E A : clear implicits.

Declare Scope io_scope.
Delimit Scope io_scope with io.
Notation "x <- m ;; k" := (io_bind m (fun x => k))
  (at level 61, m at next level, right associativity) : io_scope.

End Persist.

(** ** scripts/markets.py *)
Module Markets.
Import Py Eff Common Persist.

(** [items_dict]: a dict whose keys are arbitrary hashable values. *)
Definition kdict := list (value * value).

Fixpoint kdict_lookup (k : value) (d : kdict) : option value :=
  match d with
  | [] => None
  | (k', v) :: d' => if key_eqb k k' then Some v else kdict_lookup k d'
  end.

Fixpoint kdict_set (k v : value) (d : kdict) : kdict :=
  match d with
  | [] => [(k, v)]
  | (k', v') :: d' =>
      if key_eqb k k' then (k', v) :: d' else (k', v') :: kdict_set k v d'
  end.

(** [{item['id']: item for item in all_items_data}], entries added from
    left to right onto [acc]. *)
Fixpoint items_dict_from (l : list value) (acc : kdict) : res kdict :=
  match l with
  | [] => Ok acc
  | item :: l' =>
      (k <- getitem_str item "id" ;;
       if hashable k then items_dict_from l' (kdict_set k item acc)
       else Raise TypeError)%res
  end.

Definition build_items_dict (all_items_data : value) : res kdict :=
  (l <- iter all_items_data ;; items_dict_from l [])%res.

Section WithEnv.
Context {E : Env}.
Local Open Scope eff_scope.

Definition fetch_cities : M E value :=
  data <- make_request (BASE_URL ++ "/v1/cities")%string "GET" ;;
  has_results <-
    (if truthy data then lift (contains_str "results" data) else ret false) ;;
  if has_results : bool then
    cities <- lift (getitem_str data "results") ;;
    _ <- (fun s => (Ok tt, mkState (world s) cities (self_markets s) (self_items s))) ;;
    _ <- lift (len cities) ;;
    ret cities
  else ret (VList []).

Definition fetch_venue_details (venue_slug : value) : M E value :=
  make_request (venue_content_url E venue_slug) "GET".

(** The dict display of lines 150-187. *)
Definition item_record
    (venue_info category_id section_name section_slug item_data : value)
    : M E dict :=
  stamped (item_fields (Some category_id) join_comma join_comma
             venue_info section_name section_slug item_data).

Definition extract_items_from_venue (venue_data venue_info : value)
    : M E (list dict) :=
  if negb (truthy venue_data) then ret []
  else
    venue_sections <- lift (get venue_data "sections" (VList [])) ;;
    all_items_data <- lift (get venue_data "items" (VList [])) ;;
    items_dict <- lift (build_items_dict all_items_data) ;;
    venue_sections <- lift (iter venue_sections) ;;
    items <- for_each venue_sections (fun section =>
      section_name <- lift (get section "name" (VStr "")) ;;
      section_slug <- lift (get section "slug" (VStr "")) ;;
      categories <- lift (get section "categories" (VList [])) ;;
      categories <- lift (iter categories) ;;
      for_each categories (fun category =>
        category_id <- lift (get category "id" (VStr "")) ;;
        item_ids <- lift (get category "item_ids" (VList [])) ;;
        item_ids <- lift (iter item_ids) ;;
        for_each item_ids (fun item_id =>
          if hashable item_id then
            match kdict_lookup item_id items_dict with
            | Some item_data =>
                item <- item_record venue_info category_id
                          section_name section_slug item_data ;;
                ret [item]
            | None => ret []
            end
          else raise TypeError))) ;;
    _ <- lift (get venue_info "name" (VStr "unknown venue")) ;;
    ret items.

Definition default_city : value :=
  VDict [ ("slug", VStr "baku"); ("name", VStr "Baku");
          ("location", VDict [ ("coordinates", VList [DEFAULT_LON; DEFAULT_LAT]) ]) ].

(** Lines 224-258: the loop over the markets of one city. *)
Definition scrape_city_markets (city_name city_slug : value)
    (markets : list value) : M E unit :=
  for_loop markets
    (process_market fetch_venue_details extract_items_from_venue
       city_name city_slug).

Definition scrape_all_markets : M E unit :=
  cities <- fetch_cities ;;
  let cities := if truthy cities then cities else VList [default_city] in
  cities <- lift (iter cities) ;;
  for_loop cities (fun city =>
    city_slug <- lift (get city "slug" (VStr "")) ;;
    city_name <- lift (get city "name" (VStr "")) ;;
    location <- lift (get city "location" (VDict [])) ;;
    coords <- lift (get location "coordinates" (VList [DEFAULT_LON; DEFAULT_LAT])) ;;
    lon <- lift (getitem_idx coords 0) ;;
    lat <- lift (getitem_idx coords 1) ;;
    markets <- fetch_retail_markets lat lon city_slug ;;
    scrape_city_markets city_name city_slug markets).

(** [__init__]: a scraper with nothing collected. *)
Definition new (w : World E) : state E := mkState w (VList []) [] [].

Local Open Scope io_scope.

Definition save_to_csv (output_dir : string) : IO E unit :=
  s <- self ;;
  _ <- (match self_markets s with
        | [] => io_ret tt
        | _ => write_csv (path_join output_dir "markets.csv") (self_markets s)
        end) ;;
  _ <- (match self_items s with
        | [] => io_ret tt
        | _ => write_csv (path_join output_dir "items.csv") (self_items s)
        end) ;;
  let summary_file := path_join output_dir "scrape_summary.txt" in
  _ <- open_w summary_file ;;
  _ <- write_lines summary_file
         [ ("Wolt Markets Scraping Summary" ++ nl)%string;
           (repeat_string "=" 50 ++ nl)%string ] ;;
  t <- io_lift isoformat_now ;;
  _ <- write_lines summary_file [ ("Scraped at: " ++ t ++ nl)%string ] ;;
  n <- io_res (len (self_cities s)) ;;
  write_lines summary_file
    [ ("Total cities processed: " ++ str E (VInt n) ++ nl)%string;
      ("Total markets scraped: " ++ str_len (self_markets s) ++ nl)%string;
      ("Total items scraped: " ++ str_len (self_items s) ++ nl)%string;
      (nl ++ "Data saved to:" ++ nl)%string;
      ("  - " ++ path_join output_dir "markets.csv" ++ nl)%string;
      ("  - " ++ path_join output_dir "items.csv" ++ nl)%string ].

(** [run]: the handler logs and raises the exception again. *)
Definition run (output_dir : string) : IO E unit :=
  _ <- io_lift scrape_all_markets ;;
  save_to_csv output_dir.

(** [main] *)
Definition main (w : World E) (fs : disk) : res unit * (state E * disk) :=
  run "data" (new w, fs).

End WithEnv.
End Markets.

(** ** scripts/markets_baku.py *)
Module MarketsBaku.
Import Py Eff Common Persist.

(** [','.join([pref if isinstance(pref, str) else pref.get('id', '')
               for pref in v])] *)
Definition join_prefs (v : value) : res value :=
  (l <- iter v ;;
   ids <- map_res (fun pref => match pref with
                               | VStr _ => Ok pref
                               | _ => get pref "id" (VStr "")
                               end) l ;;
   join_comma (VList ids))%res.

Section WithEnv.
Context {E : Env}.
Local Open Scope eff_scope.

(** [s.capitalize()]: the first character in upper case, the rest in
    lower case. *)
Definition capitalize (s : string) : string :=
  if is_ascii s then
    match s with
    | EmptyString => EmptyString
    | String c s' => String (upper_ascii c) (ascii_lower s')
    end
  else str_capitalize E s.

(** [','.join([tag.get('id', '') if isinstance(tag, dict) else str(tag)
               for tag in v])] *)
Definition join_tags (v : value) : res value :=
  (l <- iter v ;;
   ids <- map_res (fun tag => match tag with
                              | VDict _ => get tag "id" (VStr "")
                              | _ => Ok (VStr (str E tag))
                              end) l ;;
   join_comma (VList ids))%res.

(** ['k' in data and len(data.get('k', [])) > 0] *)
Definition has_nonempty (data : value) (k : string) : res bool :=
  (b <- contains_str k data ;;
   if b : bool then
     v <- get data k (VList []) ;;
     n <- len v ;;
     Ok (0 <? n)
   else Ok false)%res.

Definition fetch_venue_details (venue_slug : value) : M E value :=
  data <- make_request (venue_content_url E venue_slug) "GET" ;;
  _ <- (if truthy data then
          has_items <- lift (has_nonempty data "items") ;;
          _ <- lift (has_nonempty data "sections") ;;
          if has_items : bool then
            v <- lift (get data "items" (VList [])) ;;
            _ <- lift (len v) ;;
            ret tt
          else ret tt
        else ret tt) ;;
  ret data.

(** The dict display of lines 141-177. *)
Definition item_record
    (venue_info section_name section_slug item_data : value) : M E dict :=
  stamped (item_fields None join_prefs join_tags
             venue_info section_name section_slug item_data).

Definition extract_items_from_venue (venue_data venue_info : value)
    : M E (list dict) :=
  if negb (truthy venue_data) then ret []
  else
    venue_sections <- lift (get venue_data "sections" (VList [])) ;;
    if negb (truthy venue_sections) then
      _ <- lift (get venue_info "name" (VStr "unknown")) ;;
      ret []
    else
      venue_sections <- lift (iter venue_sections) ;;
      items <- for_each venue_sections (fun section =>
        section_name <- lift (get section "name" (VStr "")) ;;
        section_slug <- lift (get section "slug" (VStr "")) ;;
        section_items <- lift (get section "items" (VList [])) ;;
        section_items <- lift (iter section_items) ;;
        for_each section_items (fun item_data =>
          item <- item_record venue_info section_name section_slug item_data ;;
          ret [item])) ;;
      _ <- lift (get venue_info "name" (VStr "unknown venue")) ;;
      ret items.

Definition scrape_market_list (city_name city_slug : value)
    (markets : list value) : M E unit :=
  for_loop markets
    (process_market fetch_venue_details extract_items_from_venue
       city_name city_slug).

Definition scrape_markets (target_city : string) : M E unit :=
  let city_slug := VStr target_city in
  let city_name := VStr (capitalize target_city) in
  markets <- fetch_retail_markets DEFAULT_LAT DEFAULT_LON city_slug ;;
  match markets with
  | [] => ret tt
  | _ => scrape_market_list city_name city_slug markets
  end.

(** [__init__]: a scraper with nothing collected ([self.cities] is not an
    attribute of this script and stays as it is). *)
Definition new (w : World E) : state E := mkState w (VList []) [] [].

Local Open Scope io_scope.

Definition markets_file (output_dir target_city : string) : string :=
  path_join output_dir ("markets_" ++ target_city ++ ".csv").

Definition items_file (output_dir target_city : string) : string :=
  path_join output_dir ("items_" ++ target_city ++ ".csv").

Definition summary_file (output_dir target_city : string) : string :=
  path_join output_dir ("scrape_summary_" ++ target_city ++ ".txt").

Definition save_to_csv (output_dir target_city : string) : IO E unit :=
  s <- self ;;
  _ <- (match self_markets s with
        | [] => io_ret tt
        | _ => write_csv (markets_file output_dir target_city) (self_markets s)
        end) ;;
  _ <- (match self_items s with
        | [] => io_ret tt
        | _ => write_csv (items_file output_dir target_city) (self_items s)
        end) ;;
  _ <- open_w (summary_file output_dir target_city) ;;
  _ <- write_lines (summary_file output_dir target_city)
         [ ("Wolt Markets Scraping Summary - " ++ capitalize target_city ++ nl)%string;
           (repeat_string "=" 50 ++ nl)%string ] ;;
  t <- io_lift isoformat_now ;;
  write_lines (summary_file output_dir target_city)
    [ ("Scraped at: " ++ t ++ nl)%string;
      ("Target city: " ++ target_city ++ nl)%string;
      ("Total markets scraped: " ++ str_len (self_markets s) ++ nl)%string;
      ("Total items scraped: " ++ str_len (self_items s) ++ nl)%string;
      (nl ++ "Data saved to:" ++ nl)%string;
      ("  - " ++ markets_file output_dir target_city ++ nl)%string;
      ("  - " ++ items_file output_dir target_city ++ nl)%string ].

(** [run]: the handler logs and raises the exception again. *)
Definition run (output_dir target_city : string) : IO E unit :=
  _ <- io_lift (scrape_markets target_city) ;;
  save_to_csv output_dir target_city.

(** [main]: the target city is [sys.argv[1]] when there is one. *)
Definition main (argv : list string) (w : World E) (fs : disk)
    : res unit * (state E * disk) :=
  let target_city := match argv with
                     | _ :: city :: _ => city
                     | _ => "baku"
                     end in
  run "data" target_city (new w, fs).

End WithEnv.
End MarketsBaku.

(** ** scripts/generate_charts.py: the two market categorizers *)
Module Charts.
Import Py Eff Common.

(** [categorize_market] of [analyze_market_categories].  [tags] is a cell
    of the markets table: [VNone] stands for the missing value that
    [pd.isna] detects.  [str.lower] is a parameter. *)
Module AnalyzeMarketCategories.
Section WithEnv.
Context {E : Env}.
Variable lower : string -> string.

Definition categorize_market (tags : value) : string :=
  match tags with
  | VNone => "Other"
  | _ =>
      let tags := lower (str E tags) in
      if is_substring "grocery" tags || is_substring "supermarket" tags
      then "Supermarket"
      else if is_substring "alcohol" tags || is_substring "beer" tags
              || is_substring "piv" tags
      then "Alcohol & Beverages"
      else if is_substring "zoo" tags || is_substring "pet" tags
      then "Pet Supplies"
      else if is_substring "aptek" tags || is_substring "pharm" tags
      then "Pharmacy"
      else if is_substring "flower" tags || is_substring "gul" tags
              || is_substring "cicek" tags
      then "Flowers"
      else if is_substring "cake" tags || is_substring "bakery" tags
              || is_substring "dessert" tags
      then "Bakery & Desserts"
      else if is_substring "vape" tags || is_substring "smoke" tags
              || is_substring "tobacco" tags
      then "Tobacco & Vape"
      else if is_substring "baby" tags || is_substring "toy" tags
      then "Baby & Kids"
      else if is_substring "phone" tags || is_substring "mobile" tags
              || is_substring "telekom" tags || is_substring "aksesuar" tags
      then "Electronics & Accessories"
      else "Other"
  end.

End WithEnv.
End AnalyzeMarketCategories.

(** [categorize_market] of [analyze_price_by_category]. *)
Module AnalyzePriceByCategory.
Section WithEnv.
Context {E : Env}.
Variable lower : string -> string.

Definition categorize_market (tags : value) : string :=
  match tags with
  | VNone => "Other"
  | _ =>
      let tags := lower (str E tags) in
      if is_substring "grocery" tags || is_substring "supermarket" tags
      then "Supermarket"
      else if is_substring "alcohol" tags || is_substring "beer" tags
      then "Alcohol & Beverages"
      else if is_substring "zoo" tags || is_substring "pet" tags
      then "Pet Supplies"
      else if is_substring "aptek" tags || is_substring "pharm" tags
      then "Pharmacy"
      else if is_substring "flower" tags || is_substring "gul" tags
      then "Flowers"
      else if is_substring "cake" tags || is_substring "bakery" tags
              || is_substring "dessert" tags
      then "Bakery & Desserts"
      else "Other"
  end.

End WithEnv.
End AnalyzePriceByCategory.

End Charts.

(** * Vocabulary of the properties *)

Import Py Eff Common.

(** [normalized item p]: one of the two scripts built the product [p]
    from the catalog item [item]. *)
Inductive normalized (item_data : value) (p : dict) : Prop :=
| normalized_markets (E : Env) venue_info category_id section_name section_slug
    (s s' : state E) :
    Markets.item_record venue_info category_id section_name section_slug
      item_data s = (Ok p, s') ->
    normalized item_data p
| normalized_baku (E : Env) venue_info section_name section_slug
    (s s' : state E) :
    MarketsBaku.item_record venue_info section_name section_slug
      item_data s = (Ok p, s') ->
    normalized item_data p.

(** The entries both scripts compute in the same way. *)
Definition shared_field (k : string) (item_data : value) : option (res value) :=
  if String.eqb k "price" then Some (price_field item_data)
  else if String.eqb k "original_price" then Some (original_price_field item_data)
  else if String.eqb k "discount_amount" then Some (discount_amount_field item_data)
  else if String.eqb k "discount_percentage"
       then Some (discount_percentage_field item_data)
  else if String.eqb k "is_available" then Some (is_available_field item_data)
  else if String.eqb k "item_id" then Some (get item_data "id" (VStr ""))
  else None.

(** [item_data.get('price', 0)], the price in minor units. *)
Definition price_minor (d : dict) : value :=
  match lookup "price" d with Some v => v | None => VInt 0 end.

(** A field is absent when the key is missing or holds JSON [null]. *)
Definition absent (k : string) (d : dict) : Prop :=
  lookup k d = None \/ lookup k d = Some VNone.

(** [v == 0] on Python numbers. *)
Definition is_zero (v : value) : bool :=
  match as_num v with
  | Some x => num_eqb x (NInt 0)
  | None => false
  end.

(** [round(((op - pr) / op) * 100, 2)] on two [int]s, as Python
    evaluates it: the quotient, the product and the decimal are each
    rounded to binary64. *)
Definition percentage (op pr : Z) : res float :=
  (q <- int_truediv (op - pr) op ;; Ok (round2 (times100 q)))%res.

(** The same quotient in exact arithmetic, not rounded. *)
Definition exact_percentage (op pr : Z) : Q :=
  (inject_Z (op - pr) / inject_Z op * 100)%Q.

(** A small object carrying the identifier [i] in its ['id'] field. *)
Definition carries_id (o : value) (i : string) : Prop :=
  exists d, o = VDict d /\ lookup "id" d = Some (VStr i).

(** A product without its [scraped_at] entry. *)
Definition strip (p : dict) : dict :=
  filter (fun kv => negb (String.eqb (fst kv) "scraped_at")) p.

Definition erase (r : res (list dict)) : res (list dict) :=
  match r with
  | Ok ps => Ok (map strip ps)
  | Raise e => Raise e
  end.

(** [d.get(k, '')] on a dict. *)
Definition get_str (k : string) (d : dict) : value :=
  match lookup k d with Some x => x | None => VStr "" end.

Section Vocabulary.
Context {E : Env}.

(** The result of [m], timestamps apart, is the same from every state. *)
Definition clock_free (m : M E (list dict)) : Prop :=
  forall s1 s2, erase (fst (m s1)) = erase (fst (m s2)).

(** The session method [make_request] calls for [method]. *)
Definition session_call (method : string)
    : string -> World E -> res response * World E :=
  if String.eqb (upper E method) "GET" then session_get E else session_post E.

Definition error_status (r : response) : bool :=
  (400 <=? status_code r) && (status_code r <? 600).

(** What [make_request] makes of the outcome of the session call. *)
Definition absorbed (r : res response) : res value :=
  match r with
  | Raise e =>
      if is_RequestException e || is_JSONDecodeError e then Ok VNone else Raise e
  | Ok resp =>
      if error_status resp then Ok VNone
      else match json_body resp with
           | Ok v => Ok v
           | Raise e =>
               if is_RequestException e || is_JSONDecodeError e
               then Ok VNone else Raise e
           end
  end.

(** The venue record of the market [m], as the orchestrators build it:
    the dict display with [market_name] and [market_slug] read from [m]. *)
Definition market_record (city_name city_slug : value) (m : dict) : M E dict :=
  stamped (market_fields city_name city_slug (VDict m)
             (get_str "name" m) (get_str "slug" m)).

(** The URL [fetch_venue_details] requests for the market [m]. *)
Definition venue_url (m : dict) : string :=
  venue_content_url E (get_str "slug" m).

End Vocabulary.

Arguments venue_url E m : clear implicits.

(** *** Shape B: sections with their items embedded *)

(** A section: its other entries, and the list under ['items']. *)
Definition sectionB : Type := dict * list value.

Definition enc_sectionB (sec : sectionB) : value :=
  VDict (("items", VList (snd sec)) :: fst sec).

(** A document with sections of Shape B; [extra] is whatever else the
    document holds, a top-level item pool included. *)
Definition documentB (secs : list sectionB) (extra : dict) : value :=
  VDict (("sections", VList (map enc_sectionB secs)) :: extra).

(** Every embedded item with the section it is found under, in order. *)
Definition inline_items (secs : list sectionB) : list (dict * value) :=
  flat_map (fun sec => map (pair (fst sec)) (snd sec)) secs.

(** *** Shape A: an item pool, and categories naming items by id *)

Inductive ident : Type := IStr (s : string) | IInt (z : Z).

Definition enc_ident (i : ident) : value :=
  match i with
  | IStr s => VStr s
  | IInt z => VInt z
  end.

(** A pool entry: its id and its other entries. *)
Definition entry : Type := ident * dict.

Definition enc_entry (e : entry) : value :=
  VDict (("id", enc_ident (fst e)) :: snd e).

(** A category: its other entries and the list under ['item_ids']. *)
Definition category : Type := dict * list ident.

Definition enc_category (c : category) : value :=
  VDict (("item_ids", VList (map enc_ident (snd c))) :: fst c).

Definition sectionA : Type := dict * list category.

Definition enc_sectionA (sec : sectionA) : value :=
  VDict (("categories", VList (map enc_category (snd sec))) :: fst sec).

Definition documentA (pool : list entry) (secs : list sectionA) (extra : dict)
    : value :=
  VDict (("items", VList (map enc_entry pool))
         :: ("sections", VList (map enc_sectionA secs)) :: extra).

(** The id-to-item lookup table of a pool. *)
Definition index_from (pool : list entry) (acc : Markets.kdict) : Markets.kdict :=
  fold_left (fun acc e => Markets.kdict_set (enc_ident (fst e)) (enc_entry e) acc)
    pool acc.

Definition index (pool : list entry) : Markets.kdict := index_from pool [].

(** Every item id of every category, resolved against the table; ids
    without a match are left out. *)
Definition resolved_items (idx : Markets.kdict) (secs : list sectionA)
    : list (dict * dict * value) :=
  flat_map (fun sec =>
    flat_map (fun cat =>
      flat_map (fun i =>
        match Markets.kdict_lookup (enc_ident i) idx with
        | Some item => [(fst sec, fst cat, item)]
        | None => []
        end) (snd cat)) (snd sec)) secs.

Definition ident_eqb (i j : ident) : bool :=
  match i, j with
  | IStr a, IStr b => String.eqb a b
  | IInt a, IInt b => Z.eqb a b
  | _, _ => false
  end.


(** A table whose keys are ids. *)
Definition enc_table (t : list (ident * value)) : Markets.kdict :=
  map (fun iv => (enc_ident (fst iv), snd iv)) t.

Fixpoint table_lookup (i : ident) (t : list (ident * value)) : option value :=
  match t with
  | [] => None
  | (j, v) :: t' => if ident_eqb i j then Some v else table_lookup i t'
  end.

Fixpoint table_set (i : ident) (v : value) (t : list (ident * value))
    : list (ident * value) :=
  match t with
  | [] => [(i, v)]
  | (j, w) :: t' =>
      if ident_eqb i j then (j, v) :: t' else (j, w) :: table_set i v t'
  end.


(** *** Items with missing fields *)

(** A number: a float, or an [int] (a [bool] included) of magnitude at
    most [2 ^ k]. *)
Definition in_range (k : Z) (v : value) : Prop :=
  exists x, as_num v = Some x
            /\ match x with
               | NInt z => Z.abs z <= 2 ^ k
               | NFloat _ => True
               end.

(** A number the derivations can compute with: an [int] of magnitude at
    most 2^1000 converts to binary64, and so do its differences and
    quotients. *)
Definition numeric : value -> Prop := in_range 1000.

Definition is_string (v : value) : Prop := exists i, v = VStr i.

(** The field [k] of [d] is missing, or its value satisfies [P]. *)
Definition missing_or (P : value -> Prop) (k : string) (d : dict) : Prop :=
  match lookup k d with
  | None => True
  | Some v => P v
  end.

(** The value is falsy ([null], an empty container, ...) or satisfies [P]. *)
Definition falsy_or (P : value -> Prop) (v : value) : Prop :=
  truthy v = false \/ P v.

(** A plain string, or a small object whose ['id'], when there, is a
    string. *)
Definition label (o : value) : Prop :=
  is_string o \/ exists d, o = VDict d /\ missing_or is_string "id" d.

(** The fields the derivations compute with are missing or of the type
    the code expects; every other field is arbitrary. *)
Record sparse_item (d : dict) : Prop := mkSparse {
  sparse_price : missing_or numeric "price" d;
  sparse_original_price : missing_or (falsy_or numeric) "original_price" d;
  sparse_unit_price :
    missing_or (falsy_or (fun v => exists u, v = VDict u
                                   /\ missing_or numeric "price" u))
      "unit_price" d;
  sparse_images :
    missing_or (falsy_or (fun v => exists e l, v = VList (VDict e :: l)))
      "images" d
}.

(** [tags] and [dietary_preferences] as markets.py can join them. *)
Definition string_lists (d : dict) : Prop :=
  missing_or (fun v => exists l, v = VList l /\ Forall is_string l) "tags" d
  /\ missing_or (fun v => exists l, v = VList l /\ Forall is_string l)
       "dietary_preferences" d.

(** [tags] and [dietary_preferences] as markets_baku.py can join them. *)
Definition label_lists (d : dict) : Prop :=
  missing_or (fun v => exists l, v = VList l /\ Forall label l) "tags" d
  /\ missing_or (fun v => exists l, v = VList l /\ Forall label l)
       "dietary_preferences" d.

(** An item of a Shape B document markets_baku.py normalizes. *)
Definition baku_item (item : value) : Prop :=
  exists d, item = VDict d /\ sparse_item d /\ label_lists d.

(** A pool entry markets.py normalizes: it carries a hashable ['id']. *)
Definition markets_item (item : value) : Prop :=
  exists d, item = VDict d
            /\ (exists i, lookup "id" d = Some i /\ hashable i = true)
            /\ sparse_item d /\ string_lists d.

(** [v] is a list whose elements satisfy [P]. *)
Definition list_of (P : value -> Prop) (v : value) : Prop :=
  exists l, v = VList l /\ Forall P l.

(** [v] is an object, and [P] holds of it. *)
Definition object_with (P : dict -> Prop) (v : value) : Prop :=
  exists d, v = VDict d /\ P d.

(** A catalog as markets.py reads it: ['sections'], when there, is a list
    of objects whose ['categories'], when there, is a list of objects
    whose ['item_ids'], when there, is a list of hashable ids; ['items'],
    when there, is a list of pool entries. *)
Definition markets_catalog (doc : dict) : Prop :=
  missing_or
    (list_of (object_with
       (missing_or
          (list_of (object_with
             (missing_or (list_of (fun i => hashable i = true)) "item_ids")))
          "categories")))
    "sections" doc
  /\ missing_or (list_of markets_item) "items" doc.

(** A catalog as markets_baku.py reads it: ['sections'], when there and
    not falsy, is a list of objects whose ['items'], when there, is a list
    of items. *)
Definition baku_catalog (doc : dict) : Prop :=
  missing_or
    (falsy_or (list_of (object_with (missing_or (list_of baku_item) "items"))))
    "sections" doc.

(** *** The scraper object across a method call *)

(** What [self] holds besides the world. *)
Definition self_part {E : Env} (s : state E) : value * list dict * list dict :=
  (self_cities s, self_markets s, self_items s).

(** [m] may use the clock and the session, and leaves [self] as it is. *)
Definition world_only {E : Env} {A} (m : M E A) : Prop :=
  forall s, self_part (snd (m s)) = self_part s.

(** [len(v)] is defined. *)
Definition sized (v : value) : Prop := exists n, len v = Ok n.

(** Every request of the session fails with a [RequestException]. *)
Definition outage (E : Env) : Prop :=
  forall url w,
    exists e w', session_get E url w = (Raise e, w')
                 /\ is_RequestException e = true.

(** The URL [fetch_retail_markets] requests. *)
Definition retail_url (E : Env) (lat lon : value) : string :=
  (CONSUMER_API_URL ++ "/v1/pages/retail?lat=" ++ str E lat
   ++ "&lon=" ++ str E lon)%string.

(** *** The columns of the two record sets, in the order of the source *)

Definition market_columns : list string :=
  [ "venue_id"; "name"; "slug"; "address"; "city"; "city_slug"; "country";
    "latitude"; "longitude"; "rating_score"; "rating_volume"; "price_range";
    "online"; "delivers"; "delivery_price"; "estimate_minutes";
    "estimate_range"; "short_description"; "tags"; "scraped_at" ].

Definition item_columns_tail : list string :=
  [ "section_name"; "section_slug"; "name"; "description"; "price";
    "original_price"; "discount_amount"; "discount_percentage"; "unit_info";
    "unit_price_value"; "unit_price_base"; "unit_price_unit"; "barcode_gtin";
    "image_url"; "image_blurhash"; "purchasable_balance"; "quantity_left";
    "max_quantity_per_purchase"; "min_quantity_per_purchase";
    "alcohol_permille"; "caffeine_info"; "vat_percentage";
    "dietary_preferences"; "tags"; "is_available"; "is_wolt_plus_only";
    "is_cutlery"; "deposit"; "scraped_at" ].

Definition item_columns_head : list string :=
  [ "item_id"; "venue_id"; "venue_name"; "venue_slug"; "city"; "city_slug" ].

(** markets.py has [category_id] after [city_slug]; markets_baku.py has
    no such column. *)
Definition markets_item_columns : list string :=
  (item_columns_head ++ ["category_id"] ++ item_columns_tail)%list.

Definition baku_item_columns : list string :=
  (item_columns_head ++ item_columns_tail)%list.

(** *** What a crawl adds *)

(** [rec] is the venue record of the discovered venue [market]. *)
Definition recorded (market : value) (rec : dict) : Prop :=
  exists vm, market = VDict vm
             /\ map fst rec = market_columns
             /\ lookup "venue_id" rec = Some (get_str "id" vm).

(** The product [p] names a venue that has a record among [recs]. *)
Definition references (recs : list dict) (p : dict) : Prop :=
  exists rec, In rec recs /\ lookup "venue_id" p = lookup "venue_id" rec
              /\ lookup "venue_id" p <> None.

(** What one crawl of a list of venues adds to the scraper: the records
    of the venues [done] it got to, and products that reference them. *)
Definition crawl_effect {E : Env} (cols : list string) (markets : list value)
    (r : res unit) (s s' : state E) : Prop :=
  self_cities s' = self_cities s
  /\ exists recs items done rest,
       self_markets s' = (self_markets s ++ recs)%list
       /\ self_items s' = (self_items s ++ items)%list
       /\ markets = (done ++ rest)%list
       /\ Forall2 recorded done recs
       /\ Forall (fun p => map fst p = cols /\ references recs p) items
       /\ (r = Ok tt -> rest = []).

(** *** What is saved *)

(** The file a csv writer leaves for records that all have the columns
    [cols]: the header row, then one row of values per record. *)
Definition table (cols : list string) (records : list dict) : Persist.file :=
  Persist.Row (map VStr cols)
  :: map (fun r : dict => Persist.Row (map snd r)) records.

(** What is under a table's path after [save_to_csv]: the table, or what
    was there before when there is no record to save. *)
Definition saved (cols : list string) (records : list dict)
    (before : option Persist.file) : option Persist.file :=
  match records with
  | [] => before
  | _ => Some (table cols records)
  end.

(** The records of the scraper have the columns of its script. *)
Definition tidy {E : Env} (cols : list string) (s : state E) : Prop :=
  Forall (fun r => map fst r = market_columns) (self_markets s)
  /\ Forall (fun p => map fst p = cols) (self_items s).

(** The summary of markets_baku.py. *)
Definition baku_summary (E : Env) (output_dir target_city t : string)
    (markets items : list dict) : Persist.file :=
  map Persist.Text
    [ ("Wolt Markets Scraping Summary - "
       ++ MarketsBaku.capitalize (E := E) target_city
       ++ Persist.nl)%string;
      (Persist.repeat_string "=" 50 ++ Persist.nl)%string;
      ("Scraped at: " ++ t ++ Persist.nl)%string;
      ("Target city: " ++ target_city ++ Persist.nl)%string;
      ("Total markets scraped: " ++ Persist.str_len markets ++ Persist.nl)%string;
      ("Total items scraped: " ++ Persist.str_len items ++ Persist.nl)%string;
      (Persist.nl ++ "Data saved to:" ++ Persist.nl)%string;
      ("  - " ++ MarketsBaku.markets_file output_dir target_city
       ++ Persist.nl)%string;
      ("  - " ++ MarketsBaku.items_file output_dir target_city
       ++ Persist.nl)%string ].

(** The summary of markets.py, for [n] cities. *)
Definition markets_summary (E : Env) (output_dir t : string) (n : Z)
    (markets items : list dict) : Persist.file :=
  map Persist.Text
    [ ("Wolt Markets Scraping Summary" ++ Persist.nl)%string;
      (Persist.repeat_string "=" 50 ++ Persist.nl)%string;
      ("Scraped at: " ++ t ++ Persist.nl)%string;
      ("Total cities processed: " ++ str E (VInt n) ++ Persist.nl)%string;
      ("Total markets scraped: " ++ Persist.str_len markets ++ Persist.nl)%string;
      ("Total items scraped: " ++ Persist.str_len items ++ Persist.nl)%string;
      (Persist.nl ++ "Data saved to:" ++ Persist.nl)%string;
      ("  - " ++ Persist.path_join output_dir "markets.csv" ++ Persist.nl)%string;
      ("  - " ++ Persist.path_join output_dir "items.csv" ++ Persist.nl)%string ].

(** Every chunk of the file encodes. *)
Definition encodes_all (f : Persist.file) : Prop :=
  Forall (fun x => Persist.encodes x = true) f.

(** What [save_to_csv] sets out to write, by path: of markets_baku.py,
    and of markets.py with [n] cities. *)
Definition baku_output {E : Env} (dir t : string) (s : state E)
    : list (string * Persist.file) :=
  [ (MarketsBaku.markets_file dir t, table market_columns (self_markets s));
    (MarketsBaku.items_file dir t, table baku_item_columns (self_items s));
    (MarketsBaku.summary_file dir t,
     baku_summary E dir t (fst (now E (world s)))
       (self_markets s) (self_items s)) ].

Definition markets_output {E : Env} (dir : string) (n : Z) (s : state E)
    : list (string * Persist.file) :=
  [ (Persist.path_join dir "markets.csv",
     table market_columns (self_markets s));
    (Persist.path_join dir "items.csv",
     table markets_item_columns (self_items s));
    (Persist.path_join dir "scrape_summary.txt",
     markets_summary E dir (fst (now E (world s))) n
       (self_markets s) (self_items s)) ].

(** The system opens every path, and every text encodes. *)
Definition accepted (E : Env) (out : list (string * Persist.file)) : Prop :=
  Forall (fun pf => writable E (fst pf) = true /\ encodes_all (snd pf)) out.

(** The same, as a test. *)
Definition acceptedb (E : Env) (out : list (string * Persist.file)) : bool :=
  forallb (fun pf => writable E (fst pf) && forallb Persist.encodes (snd pf))
    out.

(** [m] leaves every file outside [paths] as it is, however it ends. *)
Definition confined {E : Env} {A} (paths : list string)
    (m : Persist.IO E A) : Prop :=
  forall sd q, ~ In q paths ->
               Persist.read q (snd (snd (m sd))) = Persist.read q (snd sd).

(** *** A retail listing *)

(** A wrapper item of a listing section: one that carries a venue (the
    venue and the wrapper's other entries), or another one. *)
Inductive wrapper : Type :=
| VenueWrapper (venue : dict) (rest : dict)
| OtherWrapper (d : dict).

Definition enc_wrapper (x : wrapper) : value :=
  match x with
  | VenueWrapper venue rest => VDict (("venue", VDict venue) :: rest)
  | OtherWrapper d => VDict d
  end.

(** A wrapper of the second kind has no ['venue'] key. *)
Definition plain_wrapper (x : wrapper) : Prop :=
  match x with
  | VenueWrapper _ _ => True
  | OtherWrapper d => lookup "venue" d = None
  end.

(** A listing section: its other entries and its wrapper items. *)
Definition listing_section : Type := dict * list wrapper.

Definition enc_listing_section (sec : listing_section) : value :=
  VDict (("items", VList (map enc_wrapper (snd sec))) :: fst sec).

Definition listing_doc (secs : list listing_section) (extra : dict) : value :=
  VDict (("sections", VList (map enc_listing_section secs)) :: extra).

(** The venues of a listing, in order, stamped as discovery stamps them. *)
Definition stamp (city_slug city : value) (venue : dict) : value :=
  VDict (dict_set "city_name" city (dict_set "city_slug" city_slug venue)).

Definition listed_venues (secs : list listing_section) : list dict :=
  flat_map (fun sec =>
    flat_map (fun x => match x with
                       | VenueWrapper venue _ => [venue]
                       | OtherWrapper _ => []
                       end) (snd sec)) secs.

(** The item ids the categories of a Shape A document list, in order. *)
Definition listed_ids (secs : list sectionA) : list ident :=
  flat_map (fun sec => flat_map (fun cat => snd cat) (snd sec)) secs.

(** *** Keywords only the first categorizer knows *)

Definition extra_keyword (tags : string) : bool :=
  is_substring "piv" tags || is_substring "cicek" tags
  || is_substring "vape" tags || is_substring "smoke" tags
  || is_substring "tobacco" tags || is_substring "baby" tags
  || is_substring "toy" tags || is_substring "phone" tags
  || is_substring "mobile" tags || is_substring "telekom" tags
  || is_substring "aksesuar" tags.

(** ** A concrete world for examples: a counting clock and a scripted server *)
Module Fixture.
Import Py Eff Common Persist.

Definition tick (n : nat) : string * nat :=
  ("t" ++ NilZero.string_of_uint (Nat.to_uint n), S n)%string.

(** The clock counts its readings; the server answers by URL only; every
    path can be opened.  The examples hold ASCII text only: the case
    mappings of this world leave other text as it is. *)
Definition env (server : string -> res response) : Env :=
  mkEnv nat tick (fun url w => (server url, w)) (fun url w => (server url, w))
        (fun _ => "?") (fun s => s) (fun s => s) (fun s => s) (fun _ => true).

Definition down : string -> res response := fun _ => Raise ConnectionError.

(** A server that answers 300 Multiple Choices, with a JSON body. *)
Definition choices : string -> res response :=
  fun _ => Ok (mkResponse 300 (Ok (VDict [("choices", VList [])]))).

Definition init {E : Env} (w : World E) : state E := mkState w VNone [] [].

Definition venue : value :=
  VDict [ ("id", VStr "v1"); ("name", VStr "Bazar"); ("slug", VStr "bazar") ].

(** A Shape A document: an item pool and categories naming items by id. *)
Definition docA : value :=
  VDict [ ("items", VList [ VDict [ ("id", VStr "i1"); ("name", VStr "Tea");
                                    ("price", VInt 250) ];
                            VDict [ ("id", VStr "i2"); ("name", VStr "Milk");
                                    ("price", VInt 180) ] ]);
          ("sections", VList [ VDict [ ("name", VStr "Drinks"); ("slug", VStr "drinks");
             ("categories", VList [ VDict [ ("id", VStr "c1");
                                            ("item_ids", VList [VStr "i1"; VStr "zz"]) ] ]) ] ]) ].

(** A Shape B document: items embedded in their section. *)
Definition docB : value :=
  VDict [ ("sections", VList [ VDict [ ("name", VStr "Drinks"); ("slug", VStr "drinks");
             ("items", VList [ VDict [ ("id", VStr "i1"); ("name", VStr "Tea");
                                       ("price", VInt 250) ] ]) ] ]) ].

(** The two shapes around a single item. *)
Definition docA_with (item item_id : value) : value :=
  VDict [ ("items", VList [item]);
          ("sections", VList [ VDict [ ("name", VStr "Drinks"); ("slug", VStr "drinks");
             ("categories", VList [ VDict [ ("id", VStr "c1");
                                            ("item_ids", VList [item_id]) ] ]) ] ]) ].

Definition docB_with (item : value) : value :=
  VDict [ ("sections", VList [ VDict [ ("name", VStr "Drinks"); ("slug", VStr "drinks");
             ("items", VList [item]) ] ]) ].

(** The normalizers run on a document, from the initial state, with the clock
    at [w]. *)
Definition run_markets (w : nat) (doc : value) : res (list dict) :=
  fst (Markets.extract_items_from_venue (E := env down) doc venue (init (E := env down) w)).

Definition run_baku (w : nat) (doc : value) : res (list dict) :=
  fst (MarketsBaku.extract_items_from_venue (E := env down) doc venue (init (E := env down) w)).

(** One entry of every product of a result. *)
Definition column (k : string) (r : res (list dict)) : res (list (option value)) :=
  match r with
  | Ok ps => Ok (map (lookup k) ps)
  | Raise e => Raise e
  end.

(** On sale: 2.00 down to 1.50. *)
Definition sale_item : dict :=
  [ ("id", VStr "i1"); ("name", VStr "Tea");
    ("price", VInt 150); ("original_price", VInt 200) ].

(** Original price below the current price. *)
Definition markup_item : dict :=
  [ ("id", VStr "i1"); ("name", VStr "Tea");
    ("price", VInt 150); ("original_price", VInt 100) ].

Definition plain_item : dict :=
  [ ("id", VStr "i1"); ("name", VStr "Tea"); ("price", VInt 250) ].

(** A negative original price. *)
Definition refund_item : dict :=
  [ ("id", VStr "i1"); ("name", VStr "Tea");
    ("price", VInt 150); ("original_price", VInt (-100)) ].

Definition negative_item : dict :=
  [ ("id", VStr "i1"); ("name", VStr "Refund"); ("price", VInt (-250)) ].

(** Catalogs whose items lack most fields. *)
Definition sparse_docA : dict :=
  [ ("items", VList [ VDict [ ("id", VStr "i1"); ("name", VStr "Tea") ] ]);
    ("sections",
       VList [ VDict [ ("name", VStr "Drinks");
                       ("categories",
                          VList [ VDict [ ("id", VStr "c1");
                                          ("item_ids",
                                             VList [VStr "i1"; VStr "zz"]) ] ]) ] ]) ].

Definition sparse_docB : dict :=
  [ ("sections",
       VList [ VDict [ ("name", VStr "Drinks");
                       ("items", VList [VDict []; VDict plain_item]) ] ]) ].

(** A price too large for a float. *)
Definition huge_price_item : dict :=
  [ ("id", VStr "i1"); ("price", VInt (10 ^ 400)) ].

(** A marker that is there but empty. *)
Definition empty_marker_item : dict :=
  [ ("id", VStr "i1"); ("price", VInt 250); ("disabled_info", VDict []) ].

Definition disabled_item : dict :=
  [ ("id", VStr "i1"); ("price", VInt 250);
    ("disabled_info", VDict [ ("disable_text", VStr "sold out") ]) ].

Definition str_tags_item : dict :=
  [ ("id", VStr "i1"); ("price", VInt 250);
    ("tags", VList [VStr "beer"; VStr "local"]);
    ("dietary_preferences", VList [VStr "vegan"; VStr "halal"]) ].

Definition obj_tags_item : dict :=
  [ ("id", VStr "i1"); ("price", VInt 250);
    ("tags", VList [ VDict [("id", VStr "beer")]; VDict [("id", VStr "local")] ]) ].

Definition obj_prefs_item : dict :=
  [ ("id", VStr "i1"); ("price", VInt 250);
    ("dietary_preferences",
       VList [ VDict [("id", VStr "vegan")]; VDict [("id", VStr "halal")] ]) ].

(** A pool whose only entry has no ['id'] key. *)
Definition doc_pool_without_id : value :=
  VDict [ ("items", VList [ VDict [ ("name", VStr "Tea"); ("price", VInt 250) ] ]);
          ("sections", VList []) ].

(** The image list holds URLs, not objects. *)
Definition url_images_item : dict :=
  [ ("id", VStr "i1"); ("price", VInt 250);
    ("images", VList [VStr "https://img.example/tea.png"]) ].

Definition null_price_item : dict :=
  [ ("id", VStr "i1"); ("price", VNone) ].

(** A city with two venues; the catalog of the second one is down. *)
Definition listing : value :=
  VDict [ ("city", VStr "Baku");
          ("sections", VList [ VDict [ ("items", VList [
             VDict [ ("venue", VDict [ ("id", VStr "v1"); ("name", VStr "Bazar");
                                       ("slug", VStr "bazar") ]) ];
             VDict [ ("banner", VStr "ad") ];
             VDict [ ("venue", VDict [ ("id", VStr "v2"); ("name", VStr "Kiosk");
                                       ("slug", VStr "kiosk") ]) ] ]) ] ]) ].

Definition shop (url : string) : res response :=
  if prefix (CONSUMER_API_URL ++ "/v1/pages/retail") url
  then Ok (mkResponse 200 (Ok listing))
  else if String.eqb url (venue_content_url (env down) (VStr "bazar"))
  then Ok (mkResponse 200 (Ok docB))
  else Ok (mkResponse 503 (Raise RequestsJSONDecodeError)).

(** The venue whose catalog is down, as discovery returns it. *)
Definition kiosk : dict :=
  [ ("id", VStr "v2"); ("name", VStr "Kiosk"); ("slug", VStr "kiosk");
    ("city_slug", VStr "baku"); ("city_name", VStr "Baku") ].

(** The product markets_baku.py builds from an item under section Drinks. *)
Definition baku_product (item : dict) : dict :=
  match fst (MarketsBaku.item_record (E := env down) venue (VStr "Drinks")
               (VStr "drinks") (VDict item) (init (E := env down) 0%nat)) with
  | Ok p => p
  | Raise _ => []
  end.

(** The state after the venue record of [kiosk] is built and its catalog
    fetch has failed, in a run started at [init 0]. *)
Definition kiosk_record : dict :=
  match fst (market_record (E := env shop) (VStr "Baku") (VStr "baku") kiosk
               (init (E := env shop) 0%nat)) with
  | Ok r => r
  | Raise _ => []
  end.

Definition after_kiosk : state (env shop) :=
  snd (make_request (E := env shop) (venue_url (env shop) kiosk) "GET"
         (snd (append_market kiosk_record
                 (snd (market_record (E := env shop) (VStr "Baku") (VStr "baku")
                         kiosk (init (E := env shop) 0%nat)))))).

(** Discovery against [shop], from the initial state. *)
Definition shop_discovery : res (list value) * state (env shop) :=
  fetch_retail_markets (E := env shop) DEFAULT_LAT DEFAULT_LON (VStr "baku")
    (init (E := env shop) 0%nat).

Definition shop_venues : list value :=
  match fst shop_discovery with
  | Ok l => l
  | Raise _ => []
  end.

(** The listing of [shop], section by section. *)
Definition shop_listing : list listing_section :=
  [ ([], [ VenueWrapper [ ("id", VStr "v1"); ("name", VStr "Bazar");
                          ("slug", VStr "bazar") ] [];
           OtherWrapper [ ("banner", VStr "ad") ];
           VenueWrapper [ ("id", VStr "v2"); ("name", VStr "Kiosk");
                          ("slug", VStr "kiosk") ] [] ]) ].

(** A server that answers every request with the listing of [shop]. *)
Definition listing_only (url : string) : res response :=
  Ok (mkResponse 200 (Ok (listing_doc shop_listing [("city", VStr "Baku")]))).

(** A catalog whose ['items'] entry has no length. *)
Definition unsized_items_doc : value := VDict [ ("items", VInt 3) ].

(** The normalizers on the two sample documents, for the venue [kiosk]. *)
Definition kiosk_A : res (list dict) * state (env down) :=
  Markets.extract_items_from_venue (E := env down) docA (VDict kiosk)
    (init (E := env down) 0%nat).

Definition kiosk_B : res (list dict) * state (env down) :=
  MarketsBaku.extract_items_from_venue (E := env down) docB (VDict kiosk)
    (init (E := env down) 0%nat).

Definition products_of (r : res (list dict)) : list dict :=
  match r with
  | Ok ps => ps
  | Raise _ => []
  end.

(** [docA] and [docB], part by part. *)
Definition poolA : list entry :=
  [ (IStr "i1", [ ("name", VStr "Tea"); ("price", VInt 250) ]);
    (IStr "i2", [ ("name", VStr "Milk"); ("price", VInt 180) ]) ].

Definition sectionsA : list sectionA :=
  [ ([ ("name", VStr "Drinks"); ("slug", VStr "drinks") ],
     [ ([ ("id", VStr "c1") ], [IStr "i1"; IStr "zz"]) ]) ].

Definition sectionsB : list sectionB :=
  [ ([ ("name", VStr "Drinks"); ("slug", VStr "drinks") ],
     [ VDict [ ("id", VStr "i1"); ("name", VStr "Tea"); ("price", VInt 250) ] ]) ].

(** The crawl of the venues of [shop], by each script. *)
Definition shop_crawl_markets : res unit * state (env shop) :=
  Markets.scrape_city_markets (E := env shop) (VStr "Baku") (VStr "baku")
    shop_venues (init (E := env shop) 0%nat).

Definition shop_crawl_baku : res unit * state (env shop) :=
  MarketsBaku.scrape_market_list (E := env shop) (VStr "Baku") (VStr "baku")
    shop_venues (init (E := env shop) 0%nat).

(** A venue with a single coordinate. *)
Definition lost_venue : dict :=
  [ ("id", VStr "v3"); ("name", VStr "Nowhere"); ("slug", VStr "nowhere");
    ("location", VList [VFloat (b64 (4984 # 100))]) ].

(** A disk that holds tables of an earlier run. *)
Definition old_disk : disk :=
  [ ("data/items_baku.csv", [Row [VStr "item_id"]; Row [VStr "old"]]);
    ("data/items.csv", [Row [VStr "item_id"]; Row [VStr "old"]]) ].

(** The scraper of markets_baku.py after the crawl of [shop]. *)
Definition shop_state : state (env shop) := snd shop_crawl_baku.

(** The scraper of markets_baku.py after [scrape_markets] against
    [shop]. *)
Definition shop_run : state (env shop) :=
  snd (MarketsBaku.scrape_markets (E := env shop) "baku"
         (MarketsBaku.new (E := env shop) 0%nat)).

(** A city whose second venue has a single coordinate. *)
Definition lost_listing : value :=
  VDict [ ("city", VStr "Baku");
          ("sections", VList [ VDict [ ("items", VList [
             VDict [ ("venue", VDict [ ("id", VStr "v1"); ("name", VStr "Bazar");
                                       ("slug", VStr "bazar") ]) ];
             VDict [ ("venue", VDict lost_venue) ] ]) ] ]) ].

Definition lost_shop (url : string) : res response :=
  if prefix (CONSUMER_API_URL ++ "/v1/pages/retail") url
  then Ok (mkResponse 200 (Ok lost_listing))
  else if String.eqb url (venue_content_url (env down) (VStr "bazar"))
  then Ok (mkResponse 200 (Ok docB))
  else Ok (mkResponse 503 (Raise RequestsJSONDecodeError)).

End Fixture.

(** * Properties *)

Import Py Eff Common Fixture.

(** ** Rounding: to an integer, and to binary64 *)

Lemma round_half_even_comp (p q : Q) :
  (p == q)%Q -> round_half_even p = round_half_even q.
Proof.
  intros H. unfold round_half_even.
  rewrite (Qfloor_comp _ _ H).
  rewrite (Qcompare_comp (p - inject_Z (Qfloor q))%Q (q - inject_Z (Qfloor q))%Q
             ltac:(rewrite H; reflexivity) (1 # 2) (1 # 2) ltac:(reflexivity)).
  reflexivity.
Qed.

Lemma round_half_even_near (x : Q) :
  (Qabs (inject_Z (round_half_even x) - x) <= 1 # 2)%Q.
Proof.
  unfold round_half_even.
  pose proof (Qfloor_le x) as Hlo.
  pose proof (Qlt_floor x) as Hhi.
  rewrite inject_Z_plus in Hhi.
  change (inject_Z 1) with 1%Q in Hhi.
  set (f := Qfloor x) in *.
  apply Qabs_Qle_condition.
  destruct (Qcompare (x - inject_Z f)%Q (1 # 2)) eqn:C.
  - apply Qeq_alt in C.
    destruct (Z.even f);
      [|rewrite inject_Z_plus; change (inject_Z 1) with 1%Q]; split; lra.
  - apply Qlt_alt in C. split; lra.
  - apply Qgt_alt in C. rewrite inject_Z_plus.
    change (inject_Z 1) with 1%Q. split; lra.
Qed.

Lemma round_half_even_nonneg (x : Q) : (0 <= x)%Q -> 0 <= round_half_even x.
Proof.
  intros H. unfold round_half_even.
  assert (Hf : 0 <= Qfloor x).
  { change 0 with (Qfloor 0). apply Qfloor_resp_le. exact H. }
  destruct (Qcompare _ _); [destruct (Z.even _)| |]; lia.
Qed.

Lemma pow2_pos (k : Z) : (0 < pow2 k)%Q.
Proof. apply Qpower_0_lt. reflexivity. Qed.

Lemma pow2_le (a b : Z) : a <= b -> (pow2 a <= pow2 b)%Q.
Proof. intros H. apply Qpower_le_compat_l; [exact H | discriminate]. Qed.

Lemma pow2_inject (k : Z) : 0 <= k -> (pow2 k == inject_Z (2 ^ k))%Q.
Proof. intros H. unfold pow2. rewrite Zpower_Qpower by exact H. reflexivity. Qed.

(** The first guess of [ilog2] is at most [k] when [|q| <= 2^k]. *)
Lemma ilog2_le (q : Q) (k : Z) :
  0 <= k -> (Qabs q <= pow2 k)%Q -> ilog2 q <= k.
Proof.
  intros Hk H. rewrite (pow2_inject k Hk) in H.
  destruct q as [n d]. unfold ilog2. cbn [Qnum Qden].
  unfold Qabs, Qle, inject_Z in H. cbn [Qnum Qden] in H.
  assert (Hlog : Z.log2 (Z.abs n) <= k + Z.log2 (Z.pos d)).
  { destruct (Z.eq_dec (Z.abs n) 0) as [->|Hn].
    - pose proof (Z.log2_nonneg (Z.pos d)). change (Z.log2 0) with 0. lia.
    - rewrite <- Z.log2_mul_pow2 by lia.
      apply Z.log2_le_mono. rewrite Z.mul_1_r in H.
      rewrite (Z.mul_comm (Z.pos d)). exact H. }
  destruct (Qle_bool _ _); lia.
Qed.

Lemma last_place_le (q : Q) (k : Z) :
  0 <= k -> (Qabs q <= pow2 k)%Q -> last_place q <= k - 52.
Proof.
  intros Hk H. unfold last_place. pose proof (ilog2_le q k Hk H). lia.
Qed.

Lemma nearest_eq (q : Q) :
  (nearest q
   == inject_Z (round_half_even (q / pow2 (last_place q))) * pow2 (last_place q))%Q.
Proof. unfold nearest. apply Qred_correct. Qed.

Lemma Qabs_scale (a b P : Q) :
  (0 < P)%Q -> (Qabs (a * P - b * P) == Qabs (a - b) * P)%Q.
Proof.
  intros HP.
  setoid_replace (a * P - b * P)%Q with ((a - b) * P)%Q by ring.
  rewrite Qabs_Qmult. rewrite (Qabs_pos P); [reflexivity | apply Qlt_le_weak, HP].
Qed.

(** Rounding to binary64 moves a value of magnitude at most [2^k] by at
    most half a unit in the last place, [2^(k-53)]. *)
Lemma nearest_near (q : Q) (k : Z) :
  0 <= k -> (Qabs q <= pow2 k)%Q ->
  (Qabs (nearest q - q) <= pow2 (k - 52) * (1 # 2))%Q.
Proof.
  intros Hk H.
  pose proof (last_place_le q k Hk H) as He.
  set (e := last_place q) in *.
  pose proof (pow2_pos e) as HP.
  pose proof (pow2_le e (k - 52) He) as HPk.
  pose proof (round_half_even_near (q / pow2 e)) as Hr.
  rewrite nearest_eq. fold e.
  set (P := pow2 e) in *. set (m := inject_Z (round_half_even (q / P))) in *.
  assert (Hq : (q == (q / P) * P)%Q) by (field; lra).
  setoid_replace (m * P - q)%Q with (m * P - (q / P) * P)%Q
    by (rewrite <- Hq; reflexivity).
  rewrite (Qabs_scale _ _ _ HP).
  set (a := Qabs (m - q / P)) in *.
  assert (Ha : (0 <= a)%Q) by apply Qabs_nonneg.
  clearbody a P. nra.
Qed.

Lemma nearest_nonneg (q : Q) : (0 <= q)%Q -> (0 <= nearest q)%Q.
Proof.
  intros H. rewrite nearest_eq.
  pose proof (pow2_pos (last_place q)) as HP.
  apply Qmult_le_0_compat; [|lra].
  change 0%Q with (inject_Z 0). rewrite <- Zle_Qle.
  apply round_half_even_nonneg.
  apply Qle_shift_div_l; [exact HP | lra].
Qed.

(** Within the range of binary64 the rounding is finite. *)
Lemma b64_finite (q : Q) (k : Z) :
  0 <= k <= 1022 -> (Qabs q <= pow2 k)%Q ->
  b64 q = Finite (nearest q)
  /\ (Qabs (nearest q - q) <= pow2 (k - 52) * (1 # 2))%Q
  /\ (Qabs (nearest q) <= pow2 (k + 1))%Q.
Proof.
  intros [Hk Hk'] H.
  pose proof (nearest_near q k Hk H) as Hn.
  assert (Hb : (Qabs (nearest q) <= pow2 (k + 1))%Q).
  { assert (H1 : (pow2 (k - 52) <= pow2 k)%Q) by (apply pow2_le; lia).
    assert (H2 : (pow2 (k + 1) == pow2 k * 2)%Q).
    { unfold pow2. rewrite Qpower_plus by discriminate. reflexivity. }
    pose proof (pow2_pos k) as H3.
    pose proof (Qabs_triangle (nearest q - q) q) as T.
    setoid_replace (nearest q - q + q)%Q with (nearest q) in T by ring.
    rewrite H2. lra. }
  split; [|split; assumption].
  unfold b64.
  destruct (Qle_bool (pow2 1024) (Qabs (nearest q))) eqn:Ht; [|reflexivity].
  apply Qle_bool_iff in Ht.
  assert (H4 : (pow2 (k + 1) < pow2 1024)%Q).
  { apply Qpower_lt_compat_l; [lia | reflexivity]. }
  lra.
Qed.

(** ** Dict displays *)

Lemma rbind_ok {A B} (m : res A) (k : A -> res B) (b : B) :
  rbind m k = Ok b -> exists a, m = Ok a /\ k a = Ok b.
Proof. destruct m as [a|e]; simpl; [eauto | discriminate]. Qed.

Lemma eval_fields_field fs : forall d k r,
  eval_fields fs = Ok d -> field k fs = Some r ->
  exists v, r = Ok v /\ lookup k d = Some v.
Proof.
  induction fs as [|[k' r'] fs IH]; intros d k r Hev Hf; simpl in *.
  - discriminate.
  - apply rbind_ok in Hev as (v & Hv & Hev).
    apply rbind_ok in Hev as (d' & Hd' & Hev).
    injection Hev as <-. simpl.
    destruct (String.eqb k k').
    + injection Hf as <-. eauto.
    + eauto.
Qed.

Lemma lookup_app_some k (d d' : dict) v :
  lookup k d = Some v -> lookup k (d ++ d')%list = Some v.
Proof.
  induction d as [|[k' v'] d IH]; simpl; [discriminate|].
  destruct (String.eqb k k'); auto.
Qed.

Lemma stamped_inv {E : Env} fs (s s' : state E) p :
  stamped fs s = (Ok p, s') ->
  exists d, eval_fields fs = Ok d
    /\ p = (d ++ [("scraped_at", VStr (fst (now E (world s))))])%list
    /\ s' = set_world (snd (now E (world s))) s.
Proof.
  unfold stamped, bind, lift, isoformat_now, ret.
  destruct (eval_fields fs) as [d|e]; [|discriminate].
  destruct (now E (world s)) as [t w]. simpl.
  intros H. injection H as <- <-. eauto.
Qed.

Lemma shared_field_item_fields k item_data r cat jp jt vi sn ss :
  shared_field k item_data = Some r ->
  field k (item_fields cat jp jt vi sn ss item_data) = Some r.
Proof.
  unfold shared_field.
  repeat match goal with
  | |- context [String.eqb k ?c] =>
      destruct (String.eqb_spec k c) as [->|_];
      [ intros H; injection H as <-; destruct cat; reflexivity |]
  end.
  discriminate.
Qed.

Lemma normalized_field item_data p k r :
  normalized item_data p -> shared_field k item_data = Some r ->
  exists v, r = Ok v /\ lookup k p = Some v.
Proof.
  intros [E vi cid sn ss s s' H | E vi sn ss s s' H] Hk;
    apply stamped_inv in H as (d & Hd & -> & _);
    eapply shared_field_item_fields in Hk;
    destruct (eval_fields_field _ _ _ _ Hd Hk) as (v & Hv & Hl);
    exists v; split; auto using lookup_app_some.
Qed.

Lemma normalized_dict item_data p :
  normalized item_data p -> exists d, item_data = VDict d.
Proof.
  intros H.
  destruct (normalized_field item_data p "item_id" _ H eq_refl) as (v & Hv & _).
  destruct item_data; try discriminate. eauto.
Qed.

(** ** Prices and discounts *)

#[local] Arguments Qred : simpl never.
#[local] Arguments Qmult : simpl never.
#[local] Arguments Qdiv : simpl never.
#[local] Arguments Qminus : simpl never.
#[local] Arguments inject_Z : simpl never.
#[local] Arguments b64 : simpl never.
#[local] Arguments int_truediv : simpl never.
#[local] Arguments round2 : simpl never.
#[local] Arguments times100 : simpl never.

Lemma nearest_zero (q : Q) : (q == 0)%Q -> nearest q = 0%Q.
Proof.
  intros H. unfold nearest.
  change 0%Q with (Qred 0). apply Qred_complete.
  generalize (pow2 (last_place q)). intros P.
  rewrite (round_half_even_comp (q / P) 0).
  - change (round_half_even 0) with 0. change (inject_Z 0) with 0%Q. ring.
  - rewrite H. unfold Qdiv. ring.
Qed.

Lemma b64_zero (q : Q) : (q == 0)%Q -> b64 q = Finite 0.
Proof. intros H. unfold b64. rewrite (nearest_zero q H). reflexivity. Qed.

(** What [b64] returns is finite and rounded, or an infinity. *)
Lemma b64_cases (q : Q) :
  b64 q = Finite (nearest q) \/ exists s, b64 q = Inf s.
Proof. unfold b64. destruct (Qle_bool _ _); eauto. Qed.

Lemma int_truediv_inv (x y : Z) (r : float) :
  int_truediv x y = Ok r ->
  y <> 0 /\ r = Finite (nearest (inject_Z x / inject_Z y))
  /\ b64 (inject_Z x / inject_Z y) = r.
Proof.
  unfold int_truediv. destruct (Z.eqb_spec y 0) as [|Hy]; [discriminate|].
  destruct (b64_cases (inject_Z x / inject_Z y)) as [H|[s H]]; rewrite H;
    [|discriminate].
  intros E. injection E as <-. auto.
Qed.

Lemma discount_percentage_positive (d : dict) (op pr : Z) :
  lookup "original_price" d = Some (VInt op) -> 0 < op ->
  price_minor d = VInt pr ->
  discount_percentage_field (VDict d)
  = (x <- percentage op pr ;; Ok (VFloat x))%res.
Proof.
  intros Ho Hpos Hp.
  unfold discount_percentage_field, original_price_positive, get1, get.
  fold (price_minor d). rewrite Ho, Hp. simpl.
  assert (Hne : (op =? 0) = false) by (apply Z.eqb_neq; lia).
  rewrite Hne. simpl.
  assert (Hgt : (0 <? op) = true) by (apply Z.ltb_lt; exact Hpos).
  unfold gt0. simpl. rewrite Hgt. simpl.
  unfold truediv, percentage. simpl.
  destruct (int_truediv (op - pr) op) as [q|e]; reflexivity.
Qed.

Lemma Qabs_quotient_le (a b c : Z) :
  0 < b -> Z.abs a <= c * b ->
  (Qabs (inject_Z a / inject_Z b) <= inject_Z c)%Q.
Proof.
  intros Hb H.
  assert (Hb' : (0 < inject_Z b)%Q) by (change 0%Q with (inject_Z 0);
                                        rewrite <- Zlt_Qlt; exact Hb).
  apply Qabs_Qle_condition. split.
  - apply Qle_shift_div_l; [exact Hb'|].
    setoid_replace (- inject_Z c * inject_Z b)%Q with (inject_Z (- c * b))
      by (rewrite inject_Z_mult, inject_Z_opp; reflexivity).
    rewrite <- Zle_Qle. lia.
  - apply Qle_shift_div_r; [exact Hb'|].
    rewrite <- inject_Z_mult, <- Zle_Qle. lia.
Qed.

(** The three roundings of the percentage, on a quotient of magnitude at
    most 10^6, stay within 1e-2 of the exact value. *)
Lemma percentage_close (op pr : Z) :
  0 < op -> Z.abs (op - pr) <= 1000000 * op ->
  exists q, percentage op pr = Ok (Finite q)
            /\ (Qabs (q - exact_percentage op pr) < 1 # 100)%Q.
Proof.
  intros Hpos Hb. unfold percentage, exact_percentage, int_truediv.
  assert (Hne : (op =? 0) = false) by (apply Z.eqb_neq; lia).
  rewrite Hne.
  set (t := (inject_Z (op - pr) / inject_Z op)%Q).
  assert (Ht : (Qabs t <= pow2 20)%Q).
  { eapply Qle_trans; [apply (Qabs_quotient_le _ _ 1000000 Hpos Hb)|].
    vm_compute. discriminate. }
  destruct (b64_finite t 20 ltac:(lia) Ht) as (B1 & E1 & M1).
  rewrite B1. cbn [rbind]. unfold times100, fmul.
  set (q1 := nearest t) in *.
  assert (Hq1 : (Qabs (q1 * 100) <= pow2 28)%Q).
  { rewrite Qabs_Qmult. change (Qabs 100) with 100%Q.
    change (pow2 (20 + 1)) with (2097152 # 1) in M1.
    change (pow2 28) with (268435456 # 1).
    pose proof (Qabs_nonneg q1). lra. }
  destruct (b64_finite (q1 * 100) 28 ltac:(lia) Hq1) as (B2 & E2 & M2).
  rewrite B2. unfold round2.
  set (q2 := nearest (q1 * 100)) in *.
  assert (Hsmall : Qle_bool (pow2 52) (Qabs q2) = false).
  { destruct (Qle_bool (pow2 52) (Qabs q2)) eqn:Hb'; [|reflexivity].
    apply Qle_bool_iff in Hb'.
    change (pow2 (28 + 1)) with (536870912 # 1) in M2.
    change (pow2 52) with (4503599627370496 # 1) in Hb'. lra. }
  rewrite Hsmall.
  pose proof (round_half_even_near (q2 * 100)) as R.
  set (n := round_half_even (q2 * 100)) in *.
  assert (Hn : (n # 100 == inject_Z n / 100)%Q) by apply Qmake_Qdiv.
  assert (Hq2 : (Qabs (n # 100) <= pow2 30)%Q).
  { rewrite Hn.
    change (pow2 (28 + 1)) with (536870912 # 1) in M2.
    change (pow2 30) with (1073741824 # 1).
    apply Qabs_Qle_condition in R, M2. apply Qabs_Qle_condition.
    set (z := inject_Z n) in *. clearbody z.
    destruct R, M2. split.
    - apply Qle_shift_div_l; [reflexivity | lra].
    - apply Qle_shift_div_r; [reflexivity | lra]. }
  destruct (b64_finite (n # 100) 30 ltac:(lia) Hq2) as (B3 & E3 & _).
  rewrite B3. eexists. split; [reflexivity|].
  set (v := nearest (n # 100)) in *.
  change (pow2 (20 - 52)) with (1 # 4294967296) in E1.
  change (pow2 (28 - 52)) with (1 # 16777216) in E2.
  change (pow2 (30 - 52)) with (1 # 4194304) in E3.
  apply Qabs_Qle_condition in E1, E2, E3, R.
  rewrite Hn in E3.
  assert (Hz : (inject_Z n == inject_Z n / 100 * 100)%Q) by field.
  set (z := (inject_Z n / 100)%Q) in *. clearbody z v q2 q1 t.
  rewrite Hz in R. clear Hz Hn.
  destruct E1, E2, E3, R.
  apply Qabs_Qlt_condition. split; lra.
Qed.

(** C2. For an item whose original price in minor units is present and
    strictly positive, the discount percentage is
    round(((original - price) / original) * 100, 2) as Python evaluates
    it in binary64: it is the entry of every product either script
    builds from the item; and when the quotient is at most 10^6 in
    magnitude, it lies within 1e-2 of the exact value of
    ((original - price) / original) * 100. *)
Theorem discount_percentage_formula (d : dict) (op pr : Z) :
  lookup "original_price" d = Some (VInt op) -> 0 < op ->
  price_minor d = VInt pr ->
  discount_percentage_field (VDict d)
  = (x <- percentage op pr ;; Ok (VFloat x))%res
  /\ (forall p, normalized (VDict d) p ->
        exists x, percentage op pr = Ok x
                  /\ lookup "discount_percentage" p = Some (VFloat x))
  /\ (Z.abs (op - pr) <= 1000000 * op ->
        exists q, percentage op pr = Ok (Finite q)
                  /\ (Qabs (q - exact_percentage op pr) < 1 # 100)%Q).
Proof.
  intros Ho Hpos Hp.
  pose proof (discount_percentage_positive d op pr Ho Hpos Hp) as Hf.
  split; [exact Hf | split].
  - intros p Hn.
    destruct (normalized_field _ p "discount_percentage" _ Hn eq_refl)
      as (v & Hv & Hl).
    rewrite Hf in Hv.
    destruct (percentage op pr) as [x|e]; [|discriminate].
    injection Hv as <-. eauto.
  - apply percentage_close. exact Hpos.
Qed.

Lemma normalized_baku_product (item : dict) :
  baku_product item <> [] -> normalized (VDict item) (baku_product item).
Proof.
  unfold baku_product. intros H.
  destruct (MarketsBaku.item_record (E := env down) venue (VStr "Drinks")
              (VStr "drinks") (VDict item) (init (E := env down) 0%nat)) as [[p|e] s'] eqn:R;
    simpl in *; [|congruence].
  exact (normalized_baku _ _ _ _ _ _ _ _ R).
Qed.

Lemma discount_percentage_formula_witness :
  discount_percentage_field (VDict sale_item) = Ok (VFloat (Finite 25))
  /\ (exists x, percentage 200 150 = Ok x
                /\ lookup "discount_percentage" (baku_product sale_item)
                   = Some (VFloat x))
  /\ exists q, percentage 200 150 = Ok (Finite q)
               /\ (Qabs (q - exact_percentage 200 150) < 1 # 100)%Q.
Proof.
  destruct (discount_percentage_formula sale_item 200 150
              eq_refl ltac:(lia) eq_refl) as (H1 & H2 & H3).
  split; [exact H1 | split].
  - apply H2. apply normalized_baku_product. vm_compute. discriminate.
  - apply H3. vm_compute. discriminate.
Defined.

(** An original price of 1.60 and a price of 0.67: the product of the
    rounded quotient and 100 lies just above 58.125, and the entry is the
    binary64 nearest to 58.13. *)
Example percentage_160_67 :
  percentage 160 67 = Ok (Finite (8181070198095217 # 140737488355328))
  /\ b64 (5813 # 100) = Finite (8181070198095217 # 140737488355328)
  /\ (exact_percentage 160 67 == 58125 # 1000)%Q.
Proof. repeat split; vm_compute; reflexivity. Qed.

Lemma discount_fields_absent (d : dict) :
  absent "original_price" d ->
  discount_percentage_field (VDict d) = Ok (VInt 0)
  /\ discount_amount_field (VDict d) = Ok (VInt 0).
Proof.
  unfold discount_percentage_field, original_price_positive,
    discount_amount_field, get1, get.
  intros [H|H]; rewrite H; simpl; auto.
Qed.

Lemma discount_percentage_not_positive (d : dict) (o : Z) :
  lookup "original_price" d = Some (VInt o) -> o <= 0 ->
  discount_percentage_field (VDict d) = Ok (VInt 0).
Proof.
  intros Ho Hle.
  unfold discount_percentage_field, original_price_positive, get1, get.
  rewrite Ho. simpl.
  destruct (Z.eqb_spec o 0) as [->|Hne]; [reflexivity|]. simpl.
  unfold gt0. simpl.
  assert (Hgt : (0 <? o) = false) by (apply Z.ltb_ge; exact Hle).
  rewrite Hgt. reflexivity.
Qed.

Lemma percentage_equal (o : Z) : 0 < o -> percentage o o = Ok (Finite 0).
Proof.
  intros Hpos. unfold percentage, int_truediv.
  assert (Hne : (o =? 0) = false) by (apply Z.eqb_neq; lia).
  rewrite Hne, Z.sub_diag.
  rewrite (b64_zero (inject_Z 0 / inject_Z o)).
  - cbn [rbind]. unfold times100, fmul.
    rewrite (b64_zero (0 * 100)) by reflexivity.
    reflexivity.
  - unfold Qdiv. change (inject_Z 0) with 0%Q. ring.
Qed.

Lemma discount_percentage_equal_prices (d : dict) (o : Z) :
  lookup "original_price" d = Some (VInt o) -> price_minor d = VInt o ->
  exists v, discount_percentage_field (VDict d) = Ok v /\ is_zero v = true.
Proof.
  intros Ho Hp.
  destruct (Z.le_gt_cases o 0) as [Hle | Hpos].
  - exists (VInt 0). split; [|reflexivity].
    apply (discount_percentage_not_positive d o Ho Hle).
  - rewrite (discount_percentage_positive d o o Ho Hpos Hp).
    rewrite (percentage_equal o Hpos).
    eexists. split; reflexivity.
Qed.

(** C3, as the code has it.  The discount percentage is 0 when the
    original price is absent, when it is zero or negative, and when it
    equals the price; the discount amount is 0 when the original price is
    absent. *)
Theorem discount_zero_cases (d p : dict) :
  normalized (VDict d) p ->
  (absent "original_price" d ->
     lookup "discount_percentage" p = Some (VInt 0)
     /\ lookup "discount_amount" p = Some (VInt 0))
  /\ (forall o, lookup "original_price" d = Some (VInt o) -> o <= 0 ->
        lookup "discount_percentage" p = Some (VInt 0))
  /\ (forall o, lookup "original_price" d = Some (VInt o) ->
        price_minor d = VInt o ->
        exists v, lookup "discount_percentage" p = Some v /\ is_zero v = true).
Proof.
  intros Hn.
  destruct (normalized_field _ p "discount_percentage" _ Hn eq_refl)
    as (v & Hv & Hl).
  destruct (normalized_field _ p "discount_amount" _ Hn eq_refl)
    as (a & Ha & Hla).
  split; [|split].
  - intros Habs. destruct (discount_fields_absent d Habs) as [H1 H2].
    rewrite H1 in Hv. rewrite H2 in Ha.
    injection Hv as <-. injection Ha as <-. auto.
  - intros o Ho Hle.
    rewrite (discount_percentage_not_positive d o Ho Hle) in Hv.
    injection Hv as <-. exact Hl.
  - intros o Ho Hp.
    destruct (discount_percentage_equal_prices d o Ho Hp) as (v' & Hv' & Hz).
    rewrite Hv' in Hv. injection Hv as <-. eauto.
Qed.

Lemma discount_zero_cases_witness :
  (absent "original_price" plain_item
   /\ lookup "discount_percentage" (baku_product plain_item) = Some (VInt 0)
   /\ lookup "discount_amount" (baku_product plain_item) = Some (VInt 0))
  /\ (lookup "original_price" refund_item = Some (VInt (-100))
      /\ lookup "discount_percentage" (baku_product refund_item)
         = Some (VInt 0)).
Proof.
  assert (A : absent "original_price" plain_item) by (left; reflexivity).
  split; (split; [first [exact A | reflexivity]|]).
  - apply (discount_zero_cases plain_item (baku_product plain_item));
      [apply normalized_baku_product; vm_compute; discriminate | exact A].
  - apply (proj1 (proj2 (discount_zero_cases refund_item
                           (baku_product refund_item)
                           (normalized_baku_product refund_item
                              ltac:(vm_compute; discriminate))))
             (-100) eq_refl ltac:(lia)).
Defined.

(** C3 as stated fails: an original price of 1.00 not greater than the
    price 1.50 gives a discount percentage of -50, in both scripts. *)
Lemma discount_percentage_below_price :
  lookup "original_price" markup_item = Some (VInt 100)
  /\ price_minor markup_item = VInt 150
  /\ column "discount_percentage" (run_baku 0 (docB_with (VDict markup_item)))
     = Ok [Some (VFloat (Finite (-50)))]
  /\ column "discount_percentage"
       (run_markets 0 (docA_with (VDict markup_item) (VStr "i1")))
     = Ok [Some (VFloat (Finite (-50)))]
  /\ is_zero (VFloat (Finite (-50))) = false.
Proof. repeat split; vm_compute; reflexivity. Qed.

Lemma price_field_int (d : dict) (pr : Z) :
  price_minor d = VInt pr ->
  price_field (VDict d) = (x <- int_truediv pr 100 ;; Ok (VFloat x))%res.
Proof.
  intros Hp. unfold price_field, get. fold (price_minor d). rewrite Hp.
  reflexivity.
Qed.

(** C8, as the code has it.  The price is the minor-unit value divided by
    100, rounded to binary64, and it is non-negative whenever that value
    is absent or a non-negative integer. *)
Theorem price_nonneg_of_minor (d p : dict) (pr : Z) :
  normalized (VDict d) p ->
  price_minor d = VInt pr -> 0 <= pr ->
  exists q, lookup "price" p = Some (VFloat (Finite q))
    /\ b64 (inject_Z pr / 100) = Finite q /\ (0 <= q)%Q.
Proof.
  intros Hn Hp Hpr.
  destruct (normalized_field _ p "price" _ Hn eq_refl) as (v & Hv & Hl).
  rewrite (price_field_int d pr Hp) in Hv.
  destruct (int_truediv pr 100) as [x|e] eqn:Hx; [|discriminate].
  injection Hv as <-.
  apply int_truediv_inv in Hx as (_ & -> & Hb).
  eexists. split; [exact Hl|]. split; [exact Hb|].
  apply nearest_nonneg. apply Qle_shift_div_l; [reflexivity|].
  rewrite Qmult_0_l. change 0%Q with (inject_Z 0). rewrite <- Zle_Qle. exact Hpr.
Qed.

Lemma price_nonneg_of_minor_witness :
  price_minor plain_item = VInt 250 /\ 0 <= 250
  /\ exists q, lookup "price" (baku_product plain_item) = Some (VFloat (Finite q))
       /\ b64 (inject_Z 250 / 100) = Finite q /\ (0 <= q)%Q.
Proof.
  split; [reflexivity | split; [lia|]].
  apply (price_nonneg_of_minor plain_item (baku_product plain_item) 250);
    [apply normalized_baku_product; vm_compute; discriminate | reflexivity | lia].
Defined.

(** C8 as stated fails: a minor-unit price of -250 is normalized to the
    price -2.50, in both scripts. *)
Lemma price_negative :
  column "price" (run_baku 0 (docB_with (VDict negative_item)))
  = Ok [Some (VFloat (Finite (-5 # 2)))]
  /\ column "price" (run_markets 0 (docA_with (VDict negative_item) (VStr "i1")))
     = Ok [Some (VFloat (Finite (-5 # 2)))]
  /\ ~ (0 <= -5 # 2)%Q.
Proof.
  split; [vm_compute; reflexivity | split; [vm_compute; reflexivity|]].
  unfold Qle. simpl. lia.
Qed.

(** ** Availability *)

(** C9, as the code has it.  The availability flag is the negation of the
    truth value of the disabled-info field: true exactly when the field is
    missing or holds a falsy value (null, false, zero, an empty string,
    list or object). *)
Theorem is_available_iff_marker_falsy (d p : dict) :
  normalized (VDict d) p ->
  exists b, lookup "is_available" p = Some (VBool b)
    /\ (b = true <->
        forall v, lookup "disabled_info" d = Some v -> truthy v = false).
Proof.
  intros Hn.
  destruct (normalized_field _ p "is_available" _ Hn eq_refl) as (v & Hv & Hl).
  unfold is_available_field, get1, get in Hv. simpl in Hv.
  injection Hv as <-. eexists. split; [exact Hl|].
  destruct (lookup "disabled_info" d) as [m|]; simpl.
  - split.
    + intros Hb v Hv. injection Hv as <-.
      destruct (truthy m); [discriminate | reflexivity].
    + intros H. rewrite (H m eq_refl). reflexivity.
  - split; [intros _ v Hv; discriminate | reflexivity].
Qed.

Lemma is_available_iff_marker_falsy_witness :
  exists b, lookup "is_available" (baku_product disabled_item) = Some (VBool b)
    /\ (b = true <->
        forall v, lookup "disabled_info" disabled_item = Some v ->
                  truthy v = false).
Proof.
  apply (is_available_iff_marker_falsy disabled_item (baku_product disabled_item)).
  apply normalized_baku_product. vm_compute. discriminate.
Defined.

(** C9 as stated fails: an item that carries a disabled-info marker, the
    empty object, is normalized as available, in both scripts. *)
Lemma available_with_empty_marker :
  lookup "disabled_info" empty_marker_item = Some (VDict [])
  /\ column "is_available" (run_baku 0 (docB_with (VDict empty_marker_item)))
     = Ok [Some (VBool true)]
  /\ column "is_available"
       (run_markets 0 (docA_with (VDict empty_marker_item) (VStr "i1")))
     = Ok [Some (VBool true)].
Proof. repeat split; vm_compute; reflexivity. Qed.

(** ** List-like fields *)

Section Joins.
Context {E : Env}.

Lemma all_strs_map_VStr (ids : list string) : all_strs (map VStr ids) = Some ids.
Proof. induction ids as [|i ids IH]; simpl; [|rewrite IH]; reflexivity. Qed.

Lemma join_comma_strings (ids : list string) :
  join_comma (VList (map VStr ids)) = Ok (VStr (join_strs "," ids)).
Proof. unfold join_comma. simpl. rewrite all_strs_map_VStr. reflexivity. Qed.

Lemma baku_tags_strings (ids : list string) :
  MarketsBaku.join_tags (E := E) (VList (map VStr ids))
  = Ok (VStr (join_strs "," ids)).
Proof.
  unfold MarketsBaku.join_tags. simpl.
  assert (H : map_res (fun tag => match tag with
                                  | VDict _ => get tag "id" (VStr "")
                                  | _ => Ok (VStr (str E tag))
                                  end) (map VStr ids) = Ok (map VStr ids)).
  { induction ids as [|i ids IH]; simpl; [|rewrite IH]; reflexivity. }
  rewrite H. simpl. apply join_comma_strings.
Qed.

Lemma baku_tags_objects (objs : list value) (ids : list string) :
  Forall2 carries_id objs ids ->
  MarketsBaku.join_tags (E := E) (VList objs) = Ok (VStr (join_strs "," ids)).
Proof.
  intros H. unfold MarketsBaku.join_tags. simpl.
  assert (H' : map_res (fun tag => match tag with
                                   | VDict _ => get tag "id" (VStr "")
                                   | _ => Ok (VStr (str E tag))
                                   end) objs = Ok (map VStr ids)).
  { induction H as [|o i objs ids (d & -> & Hd) _ IH]; simpl; [reflexivity|].
    rewrite Hd, IH. reflexivity. }
  rewrite H'. simpl. apply join_comma_strings.
Qed.

Lemma baku_prefs_strings (ids : list string) :
  MarketsBaku.join_prefs (VList (map VStr ids)) = Ok (VStr (join_strs "," ids)).
Proof.
  unfold MarketsBaku.join_prefs. simpl.
  assert (H : map_res (fun pref => match pref with
                                   | VStr _ => Ok pref
                                   | _ => get pref "id" (VStr "")
                                   end) (map VStr ids) = Ok (map VStr ids)).
  { induction ids as [|i ids IH]; simpl; [|rewrite IH]; reflexivity. }
  rewrite H. simpl. apply join_comma_strings.
Qed.

Lemma baku_prefs_objects (objs : list value) (ids : list string) :
  Forall2 carries_id objs ids ->
  MarketsBaku.join_prefs (VList objs) = Ok (VStr (join_strs "," ids)).
Proof.
  intros H. unfold MarketsBaku.join_prefs. simpl.
  assert (H' : map_res (fun pref => match pref with
                                    | VStr _ => Ok pref
                                    | _ => get pref "id" (VStr "")
                                    end) objs = Ok (map VStr ids)).
  { induction H as [|o i objs ids (d & -> & Hd) _ IH]; simpl; [reflexivity|].
    rewrite Hd, IH. reflexivity. }
  rewrite H'. simpl. apply join_comma_strings.
Qed.

(** markets.py joins the list as it is: an object in it is a [TypeError]. *)
Lemma markets_join_object (d : dict) (l : list value) :
  join_comma (VList (VDict d :: l)) = Raise TypeError.
Proof. reflexivity. Qed.

End Joins.

(** C4.  markets_baku.py coerces both representations of [tags] and
    [dietary_preferences] to the same comma-joined string; markets.py
    joins a list of strings but raises [TypeError] on the list of objects
    [[{"id":"beer"},{"id":"local"}]]. *)
Theorem tags_coercion_by_script :
  column "tags" (run_baku 0 (docB_with (VDict str_tags_item)))
    = Ok [Some (VStr "beer,local")]
  /\ column "tags" (run_baku 0 (docB_with (VDict obj_tags_item)))
    = Ok [Some (VStr "beer,local")]
  /\ column "dietary_preferences" (run_baku 0 (docB_with (VDict str_tags_item)))
    = Ok [Some (VStr "vegan,halal")]
  /\ column "dietary_preferences" (run_baku 0 (docB_with (VDict obj_prefs_item)))
    = Ok [Some (VStr "vegan,halal")]
  /\ column "tags" (run_markets 0 (docA_with (VDict str_tags_item) (VStr "i1")))
    = Ok [Some (VStr "beer,local")]
  /\ run_markets 0 (docA_with (VDict obj_tags_item) (VStr "i1")) = Raise TypeError
  /\ run_markets 0 (docA_with (VDict obj_prefs_item) (VStr "i1")) = Raise TypeError.
Proof. repeat split; vm_compute; reflexivity. Qed.

(** ** Malformed documents *)


(** ** Dependence on the clock *)

Section ClockFree.
Context {E : Env}.
Local Abbreviation clock_free := (clock_free (E := E)).

Lemma clock_free_ret l : clock_free (ret l).
Proof. intros s1 s2. reflexivity. Qed.

Lemma clock_free_raise e : clock_free (raise e).
Proof. intros s1 s2. reflexivity. Qed.

Lemma clock_free_lift_bind {A} (r : res A) (k : A -> M E (list dict)) :
  (forall a, clock_free (k a)) -> clock_free (bind (lift r) k).
Proof.
  intros H s1 s2. unfold bind, lift. destruct r as [a|e]; [apply H | reflexivity].
Qed.

Lemma clock_free_for_each {A} (body : A -> M E (list dict)) :
  (forall a, clock_free (body a)) -> forall l, clock_free (for_each l body).
Proof.
  intros H l. induction l as [|a l IH]; intros s1 s2; [reflexivity|].
  simpl. unfold bind at 1 3.
  pose proof (H a s1 s2) as Ha.
  destruct (body a s1) as [[bs1|e1] t1], (body a s2) as [[bs2|e2] t2];
    simpl in Ha; try discriminate; [|exact Ha].
  unfold bind. pose proof (IH t1 t2) as Hl.
  destruct (for_each l body t1) as [[r1|e1] u1],
           (for_each l body t2) as [[r2|e2] u2];
    simpl in Hl |- *; try discriminate; [|exact Hl].
  injection Ha as Ha. injection Hl as Hl.
  rewrite !map_app, Ha, Hl. reflexivity.
Qed.

Lemma clock_free_then_lift {A} (m : M E (list dict)) (r : res A) :
  clock_free m ->
  clock_free (bind m (fun items => bind (lift r) (fun _ => ret items))).
Proof.
  intros H s1 s2. unfold bind, lift, ret.
  pose proof (H s1 s2) as Hm.
  destruct (m s1) as [[l1|e1] t1], (m s2) as [[l2|e2] t2];
    simpl in Hm; try discriminate; [|exact Hm].
  destruct r; [exact Hm | reflexivity].
Qed.

Lemma strip_stamp (d : dict) (t : string) :
  strip (d ++ [("scraped_at", VStr t)])%list = strip d.
Proof. unfold strip. rewrite filter_app. simpl. apply app_nil_r. Qed.

Lemma clock_free_stamped fs :
  clock_free (bind (stamped fs) (fun item => ret [item])).
Proof.
  intros s1 s2. unfold stamped, bind, lift, isoformat_now, ret.
  destruct (eval_fields fs) as [d|e]; [|reflexivity].
  destruct (now E (world s1)), (now E (world s2)). simpl.
  rewrite !strip_stamp. reflexivity.
Qed.

Lemma markets_extract_clock_free venue_data venue_info :
  clock_free (Markets.extract_items_from_venue venue_data venue_info).
Proof.
  unfold Markets.extract_items_from_venue.
  destruct (negb (truthy venue_data)); [apply clock_free_ret|].
  repeat (apply clock_free_lift_bind; intros ?).
  apply clock_free_then_lift.
  apply clock_free_for_each. intros section.
  repeat (apply clock_free_lift_bind; intros ?).
  apply clock_free_for_each. intros category.
  repeat (apply clock_free_lift_bind; intros ?).
  apply clock_free_for_each. intros item_id.
  destruct (hashable item_id); [|apply clock_free_raise].
  destruct (Markets.kdict_lookup item_id _); [|apply clock_free_ret].
  apply clock_free_stamped.
Qed.

Lemma baku_extract_clock_free venue_data venue_info :
  clock_free (MarketsBaku.extract_items_from_venue venue_data venue_info).
Proof.
  unfold MarketsBaku.extract_items_from_venue.
  destruct (negb (truthy venue_data)); [apply clock_free_ret|].
  apply clock_free_lift_bind; intros venue_sections.
  destruct (negb (truthy venue_sections)).
  - apply clock_free_lift_bind; intros _. apply clock_free_ret.
  - apply clock_free_lift_bind; intros sections.
    apply clock_free_then_lift.
    apply clock_free_for_each. intros section.
    repeat (apply clock_free_lift_bind; intros ?).
    apply clock_free_for_each. intros item_data.
    apply clock_free_stamped.
Qed.

End ClockFree.

(** C7, as the code has it.  The same catalog document with the same
    venue context yields, from any two states of the clock and of the
    scraper, the same outcome record for record, the [scraped_at] entry
    apart: that entry is the clock reading taken when the record is
    built. *)
Theorem normalization_pure_up_to_timestamp (E : Env)
    (venue_data venue_info : value) (s1 s2 : state E) :
  erase (fst (Markets.extract_items_from_venue venue_data venue_info s1))
  = erase (fst (Markets.extract_items_from_venue venue_data venue_info s2))
  /\ erase (fst (MarketsBaku.extract_items_from_venue venue_data venue_info s1))
     = erase (fst (MarketsBaku.extract_items_from_venue venue_data venue_info s2)).
Proof.
  split; [apply markets_extract_clock_free | apply baku_extract_clock_free].
Qed.

(** C7 as stated fails: feeding the same document twice in a row gives
    records that differ in [scraped_at], the clock having moved on. *)
Lemma normalization_twice_differs :
  let s0 := init (E := env down) 0%nat in
  let r1 := MarketsBaku.extract_items_from_venue docB venue s0 in
  let r2 := MarketsBaku.extract_items_from_venue docB venue (snd r1) in
  let q1 := Markets.extract_items_from_venue docA venue s0 in
  let q2 := Markets.extract_items_from_venue docA venue (snd q1) in
  column "scraped_at" (fst r1) = Ok [Some (VStr "t0")]
  /\ column "scraped_at" (fst r2) = Ok [Some (VStr "t1")]
  /\ fst r1 <> fst r2
  /\ column "scraped_at" (fst q1) = Ok [Some (VStr "t0")]
  /\ column "scraped_at" (fst q2) = Ok [Some (VStr "t1")]
  /\ fst q1 <> fst q2.
Proof.
  cbv zeta.
  assert (H1 : column "scraped_at"
                 (fst (MarketsBaku.extract_items_from_venue docB venue
                         (init (E := env down) 0%nat)))
               = Ok [Some (VStr "t0")]) by (vm_compute; reflexivity).
  assert (H2 : column "scraped_at"
                 (fst (MarketsBaku.extract_items_from_venue docB venue
                    (snd (MarketsBaku.extract_items_from_venue docB venue
                         (init (E := env down) 0%nat)))))
               = Ok [Some (VStr "t1")]) by (vm_compute; reflexivity).
  assert (H3 : column "scraped_at"
                 (fst (Markets.extract_items_from_venue docA venue
                         (init (E := env down) 0%nat)))
               = Ok [Some (VStr "t0")]) by (vm_compute; reflexivity).
  assert (H4 : column "scraped_at"
                 (fst (Markets.extract_items_from_venue docA venue
                    (snd (Markets.extract_items_from_venue docA venue
                         (init (E := env down) 0%nat)))))
               = Ok [Some (VStr "t1")]) by (vm_compute; reflexivity).
  repeat split; auto.
  - intros H. rewrite H in H1. rewrite H1 in H2. discriminate H2.
  - intros H. rewrite H in H3. rewrite H3 in H4. discriminate H4.
Qed.

(** ** The fetch gateway *)

Section Gateway.
Context {E : Env}.

Lemma make_request_run (url method : string) (s : state E) :
  upper E method = "GET" \/ upper E method = "POST" ->
  make_request url method s
  = (absorbed (fst (session_call method url (world s))),
     set_world (snd (session_call method url (world s))) s).
Proof.
  intros Hm. unfold make_request, session_call, try_except, bind, http,
    raise_for_status, absorbed, error_status, lift, ret, raise.
  assert (Hcall :
    (if String.eqb (upper E method) "GET" then http (session_get E) url
     else if String.eqb (upper E method) "POST" then http (session_post E) url
     else raise ValueError) s
    = http (if String.eqb (upper E method) "GET"
            then session_get E else session_post E) url s).
  { destruct Hm as [-> | ->]; reflexivity. }
  unfold http, raise in Hcall. rewrite Hcall. clear Hcall.
  destruct ((if String.eqb (upper E method) "GET"
             then session_get E else session_post E) url (world s))
    as [[resp|e] w]; simpl.
  - destruct ((400 <=? status_code resp) && (status_code resp <? 600)); simpl;
      [reflexivity|].
    destruct (json_body resp) as [v|e]; [reflexivity|].
    destruct (is_RequestException e || is_JSONDecodeError e); reflexivity.
  - destruct (is_RequestException e || is_JSONDecodeError e); reflexivity.
Qed.

Lemma error_status_spec (r : response) :
  error_status r = true <-> 400 <= status_code r < 600.
Proof.
  unfold error_status. rewrite andb_true_iff, Z.leb_le, Z.ltb_lt. tauto.
Qed.

End Gateway.

(** C5, as the code has it.  For every URL and a method that is GET or
    POST, [make_request] returns [None] on a transport failure, on an HTTP
    error status (400 to 599, where [raise_for_status] raises) and on a
    JSON decode failure, returns the decoded document otherwise, whatever
    the status, returns nothing but a decoded document or [None], and
    never raises a [RequestException] or a [JSONDecodeError]. *)
Theorem make_request_absorbs_failures (E : Env) (url method : string)
    (s : state E) :
  upper E method = "GET" \/ upper E method = "POST" ->
  let r := fst (session_call method url (world s)) in
  let out := fst (make_request url method s) in
  (forall e, r = Raise e -> is_RequestException e = true -> out = Ok VNone)
  /\ (forall resp, r = Ok resp -> 400 <= status_code resp < 600 ->
        out = Ok VNone)
  /\ (forall resp e, r = Ok resp -> json_body resp = Raise e ->
        is_JSONDecodeError e = true -> out = Ok VNone)
  /\ (forall resp v, r = Ok resp -> ~ 400 <= status_code resp < 600 ->
        json_body resp = Ok v -> out = Ok v)
  /\ (forall v, out = Ok v ->
        v = VNone \/ exists resp, r = Ok resp /\ json_body resp = Ok v)
  /\ (forall e, out = Raise e ->
        is_RequestException e = false /\ is_JSONDecodeError e = false).
Proof.
  intros Hm r out. subst out. rewrite (make_request_run url method s Hm).
  simpl. fold r. clearbody r. unfold absorbed.
  refine (conj _ (conj _ (conj _ (conj _ (conj _ _))))).
  - intros e -> He. rewrite He. reflexivity.
  - intros resp -> Hs. apply error_status_spec in Hs. rewrite Hs. reflexivity.
  - intros resp e -> Hj He. rewrite Hj, He, orb_true_r.
    destruct (error_status resp); reflexivity.
  - intros resp v -> Hs Hj. rewrite Hj.
    destruct (error_status resp) eqn:Hes; [|reflexivity].
    apply error_status_spec in Hes. contradiction.
  - intros v. destruct r as [resp|e].
    + destruct (error_status resp); [intros H; injection H as <-; auto|].
      destruct (json_body resp) as [v'|e] eqn:Hj.
      * intros H. injection H as <-. right. eauto.
      * destruct (is_RequestException e || is_JSONDecodeError e);
          [intros H; injection H as <-; auto | discriminate].
    + destruct (is_RequestException e || is_JSONDecodeError e);
        [intros H; injection H as <-; auto | discriminate].
  - intros e. destruct r as [resp|e0].
    + destruct (error_status resp); [discriminate|].
      destruct (json_body resp) as [v'|e1]; [discriminate|].
      destruct (is_RequestException e1 || is_JSONDecodeError e1) eqn:Hh;
        [discriminate|].
      intros H. injection H as <-. apply orb_false_iff in Hh. exact Hh.
    + destruct (is_RequestException e0 || is_JSONDecodeError e0) eqn:Hh;
        [discriminate|].
      intros H. injection H as <-. apply orb_false_iff in Hh. exact Hh.
Qed.

Lemma make_request_absorbs_failures_witness :
  upper (env down) "get" = "GET"
  /\ fst (make_request (E := env down) "https://consumer-api.wolt.com/x" "get"
            (init (E := env down) 0%nat)) = Ok VNone.
Proof.
  split; [reflexivity|].
  apply (proj1 (make_request_absorbs_failures (env down)
                  "https://consumer-api.wolt.com/x" "get"
                  (init (E := env down) 0%nat) (or_introl eq_refl))
           ConnectionError);
    reflexivity.
Defined.

(** C5 as stated fails: a response with status 300 is not a 2xx response,
    and [make_request] returns its decoded body, not [None]. *)
Lemma non_2xx_body_returned :
  fst (session_get (env choices) "https://consumer-api.wolt.com/x" 0%nat)
  = Ok (mkResponse 300 (Ok (VDict [("choices", VList [])])))
  /\ ~ 200 <= 300 < 300
  /\ fst (make_request (E := env choices) "https://consumer-api.wolt.com/x"
            "GET" (init (E := env choices) 0%nat))
     = Ok (VDict [("choices", VList [])])
  /\ VDict [("choices", VList [])] <> VNone.
Proof.
  split; [reflexivity | split; [lia | split; [reflexivity | discriminate]]].
Qed.

(** ** The orchestrators *)

Section Orchestrator.
Context {E : Env}.

Lemma make_request_self (url method : string) (s : state E) :
  self_markets (snd (make_request url method s)) = self_markets s
  /\ self_items (snd (make_request url method s)) = self_items s.
Proof.
  unfold make_request, try_except, bind, http, raise_for_status, lift, ret, raise.
  destruct (String.eqb (upper E method) "GET");
    [destruct (session_get E url (world s)) as [[resp|e] w]
    |destruct (String.eqb (upper E method) "POST");
       [destruct (session_post E url (world s)) as [[resp|e] w]|]];
    simpl;
    repeat match goal with
    | |- context [if ?b then _ else _] => destruct b; simpl
    | |- context [match json_body ?r with _ => _ end] => destruct (json_body r); simpl
    end; auto.
Qed.

Lemma process_market_failed_markets city_name city_slug (m : dict)
    (s s1 s2 : state E) (rec : dict) :
  market_record city_name city_slug m s = (Ok rec, s1) ->
  make_request (venue_url E m) "GET" (snd (append_market rec s1)) = (Ok VNone, s2) ->
  process_market Markets.fetch_venue_details Markets.extract_items_from_venue
    city_name city_slug (VDict m) s = (Ok tt, s2).
Proof.
  unfold market_record, venue_url, get_str. intros Hrec Hreq.
  unfold process_market, Markets.fetch_venue_details, bind, lift. simpl.
  rewrite Hrec. unfold append_market in *. simpl in *.
  rewrite Hreq. reflexivity.
Qed.

Lemma process_market_failed_baku city_name city_slug (m : dict)
    (s s1 s2 : state E) (rec : dict) :
  market_record city_name city_slug m s = (Ok rec, s1) ->
  make_request (venue_url E m) "GET" (snd (append_market rec s1)) = (Ok VNone, s2) ->
  process_market MarketsBaku.fetch_venue_details
    MarketsBaku.extract_items_from_venue
    city_name city_slug (VDict m) s = (Ok tt, s2).
Proof.
  unfold market_record, venue_url, get_str. intros Hrec Hreq.
  unfold process_market, MarketsBaku.fetch_venue_details, bind, lift. simpl.
  rewrite Hrec. unfold append_market in *. simpl in *.
  rewrite Hreq. reflexivity.
Qed.

End Orchestrator.

(** C6.  When the venue record of a discovered venue has been built and
    the gateway returns absence for its catalog, the venue's record is
    appended once to the venue output, no product is added, and both
    orchestrators go on with the remaining venues. *)
Theorem failed_catalog_keeps_venue (E : Env) (city_name city_slug : value)
    (m : dict) (rest : list value) (s s1 s2 : state E) (rec : dict) :
  market_record city_name city_slug m s = (Ok rec, s1) ->
  make_request (venue_url E m) "GET" (snd (append_market rec s1)) = (Ok VNone, s2) ->
  self_markets s2 = (self_markets s ++ [rec])%list
  /\ self_items s2 = self_items s
  /\ Markets.scrape_city_markets city_name city_slug (VDict m :: rest) s
     = Markets.scrape_city_markets city_name city_slug rest s2
  /\ MarketsBaku.scrape_market_list city_name city_slug (VDict m :: rest) s
     = MarketsBaku.scrape_market_list city_name city_slug rest s2.
Proof.
  intros Hrec Hreq.
  pose proof (make_request_self (venue_url E m) "GET" (snd (append_market rec s1)))
    as [Hm Hi].
  rewrite Hreq in Hm, Hi. simpl in Hm, Hi.
  unfold market_record in Hrec.
  pose proof Hrec as Hinv. apply stamped_inv in Hinv as (d & _ & _ & ->).
  simpl in Hm, Hi.
  refine (conj Hm (conj Hi (conj _ _))).
  - unfold Markets.scrape_city_markets. simpl. unfold bind at 1.
    rewrite (process_market_failed_markets _ _ m s _ s2 rec Hrec Hreq).
    reflexivity.
  - unfold MarketsBaku.scrape_market_list. simpl. unfold bind at 1.
    rewrite (process_market_failed_baku _ _ m s _ s2 rec Hrec Hreq).
    reflexivity.
Qed.

Lemma failed_catalog_keeps_venue_witness :
  self_markets after_kiosk = [kiosk_record]
  /\ self_items after_kiosk = []
  /\ Markets.scrape_city_markets (VStr "Baku") (VStr "baku")
       [VDict kiosk; venue] (init (E := env shop) 0%nat)
     = Markets.scrape_city_markets (VStr "Baku") (VStr "baku")
         [venue] after_kiosk
  /\ MarketsBaku.scrape_market_list (VStr "Baku") (VStr "baku")
       [VDict kiosk; venue] (init (E := env shop) 0%nat)
     = MarketsBaku.scrape_market_list (VStr "Baku") (VStr "baku")
         [venue] after_kiosk.
Proof.
  apply (failed_catalog_keeps_venue (env shop) (VStr "Baku") (VStr "baku")
           kiosk [venue] (init (E := env shop) 0%nat)
           (snd (market_record (E := env shop) (VStr "Baku") (VStr "baku") kiosk
                   (init (E := env shop) 0%nat)))
           after_kiosk kiosk_record);
    vm_compute; reflexivity.
Defined.

(** A whole run of markets_baku.py against [shop]: both venues are in the
    venue output, in order, and only the first contributes products. *)
Example scrape_markets_shop :
  let r := MarketsBaku.scrape_markets (E := env shop) "baku"
             (init (E := env shop) 0%nat) in
  fst r = Ok tt
  /\ map (lookup "venue_id") (self_markets (snd r))
     = [Some (VStr "v1"); Some (VStr "v2")]
  /\ map (lookup "venue_id") (self_items (snd r)) = [Some (VStr "v1")]
  /\ map (lookup "item_id") (self_items (snd r)) = [Some (VStr "i1")].
Proof. vm_compute. repeat split. Qed.

(** ** The two document shapes *)

Section Loops.
Context {E : Env} {A B : Type}.

Lemma bind_ret_r {C} (m : M E C) (s : state E) : bind m ret s = m s.
Proof. unfold bind, ret. destruct (m s) as [[c|e] s']; reflexivity. Qed.

Lemma for_each_ext (f g : A -> M E (list B)) :
  (forall a s, f a s = g a s) ->
  forall l s, for_each l f s = for_each l g s.
Proof.
  intros H l. induction l as [|a l IH]; intros s; [reflexivity|].
  simpl. unfold bind. rewrite H.
  destruct (g a s) as [[bs|e] s1]; [|reflexivity].
  rewrite IH. reflexivity.
Qed.

Lemma for_each_app (f : A -> M E (list B)) (l1 l2 : list A) (s : state E) :
  for_each (l1 ++ l2) f s
  = bind (for_each l1 f) (fun b1 =>
    bind (for_each l2 f) (fun b2 => ret (b1 ++ b2)%list)) s.
Proof.
  revert s. induction l1 as [|a l1 IH]; intros s; simpl.
  - unfold bind, ret.
    destruct (for_each l2 f s) as [[b2|e] s2]; reflexivity.
  - unfold bind at 1 3 4. destruct (f a s) as [[bs|e] s1]; [|reflexivity].
    unfold bind at 1. rewrite IH. unfold bind, ret.
    destruct (for_each l1 f s1) as [[b1|e] s2]; [|reflexivity].
    destruct (for_each l2 f s2) as [[b2|e] s3]; [|reflexivity].
    rewrite app_assoc. reflexivity.
Qed.

End Loops.

Section Flatten.
Context {E : Env} {A B C : Type}.

Lemma for_each_flat_map (g : A -> list B) (f : B -> M E (list C))
    (l : list A) (s : state E) :
  for_each (flat_map g l) f s = for_each l (fun a => for_each (g a) f) s.
Proof.
  revert s. induction l as [|a l IH]; intros s; simpl; [reflexivity|].
  rewrite for_each_app. unfold bind.
  destruct (for_each (g a) f s) as [[b1|e] s1]; [|reflexivity].
  rewrite IH. reflexivity.
Qed.

Lemma for_each_map (h : A -> B) (f : B -> M E (list C)) (l : list A)
    (s : state E) :
  for_each (map h l) f s = for_each l (fun a => f (h a)) s.
Proof.
  revert s. induction l as [|a l IH]; intros s; simpl; [reflexivity|].
  unfold bind. destruct (f (h a) s) as [[bs|e] s1]; [|reflexivity].
  rewrite IH. reflexivity.
Qed.

End Flatten.

Lemma for_each_one {E : Env} {A B} (f : A -> M E B) (a : A) (s : state E) :
  for_each [a] (fun x => bind (f x) (fun b => ret [b])) s
  = bind (f a) (fun b => ret [b]) s.
Proof.
  simpl. unfold bind, ret. destruct (f a s) as [[b|e] s1]; reflexivity.
Qed.

Lemma items_dict_from_pool (pool : list entry) : forall acc,
  Markets.items_dict_from (map enc_entry pool) acc = Ok (index_from pool acc).
Proof.
  induction pool as [|[i d] pool IH]; intros acc; simpl; [reflexivity|].
  destruct i; simpl; apply IH.
Qed.

Section Shapes.
Context {E : Env}.
Local Open Scope eff_scope.

Lemma bind_lift_ok {A B} (a : A) (k : A -> M E B) (s : state E) :
  bind (lift (Ok a)) k s = k a s.
Proof. reflexivity. Qed.

Lemma get_head (k : string) (x dflt : value) (d : dict) :
  get (VDict ((k, x) :: d)) k dflt = Ok x.
Proof. simpl. rewrite String.eqb_refl. reflexivity. Qed.

Lemma get_skip (k' k : string) (x dflt : value) (d : dict) :
  String.eqb k k' = false ->
  get (VDict ((k', x) :: d)) k dflt = get (VDict d) k dflt.
Proof. intros H. simpl. rewrite H. reflexivity. Qed.

Lemma get_get_str (k : string) (d : dict) :
  get (VDict d) k (VStr "") = Ok (get_str k d).
Proof. reflexivity. Qed.

(** The closing log line reads the venue name and changes nothing. *)
Lemma bind_then_log {A} (m : M E A) (v : dict) (k : string) (dflt : value)
    (s : state E) :
  bind m (fun items => bind (lift (get (VDict v) k dflt)) (fun _ => ret items)) s
  = m s.
Proof. unfold bind, lift, ret. simpl. destruct (m s) as [[a|e] s1]; reflexivity. Qed.

Lemma baku_walks_inline (secs : list sectionB) (extra v : dict) (s : state E) :
  MarketsBaku.extract_items_from_venue (documentB secs extra) (VDict v) s
  = for_each (inline_items secs) (fun si =>
      item <- MarketsBaku.item_record (VDict v)
                (get_str "name" (fst si)) (get_str "slug" (fst si)) (snd si) ;;
      ret [item]) s.
Proof.
  unfold MarketsBaku.extract_items_from_venue, documentB, inline_items.
  destruct secs as [|sec secs]; [reflexivity|].
  remember (sec :: secs) as l eqn:Hl.
  change (negb (truthy (VDict (("sections", VList (map enc_sectionB l)) :: extra))))
    with false.
  cbv iota. rewrite get_head, bind_lift_ok.
  assert (Ht : negb (truthy (VList (map enc_sectionB l))) = false)
    by (subst l; reflexivity).
  rewrite Ht. clear Ht Hl sec secs.
  change (iter (VList (map enc_sectionB l))) with (Ok (map enc_sectionB l)).
  rewrite bind_lift_ok, bind_then_log.
  rewrite for_each_flat_map, for_each_map.
  apply for_each_ext. intros [sd its] s0.
  unfold enc_sectionB. cbn [fst snd].
  rewrite !(get_skip "items"), !get_get_str by reflexivity.
  rewrite get_head, !bind_lift_ok.
  change (iter (VList its)) with (Ok its).
  rewrite bind_lift_ok, for_each_map. reflexivity.
Qed.

Lemma markets_walks_index (pool : list entry) (secs : list sectionA)
    (extra v : dict) (s : state E) :
  Markets.extract_items_from_venue (documentA pool secs extra) (VDict v) s
  = for_each (resolved_items (index pool) secs) (fun t =>
      item <- Markets.item_record (VDict v)
                (get_str "id" (snd (fst t)))
                (get_str "name" (fst (fst t))) (get_str "slug" (fst (fst t)))
                (snd t) ;;
      ret [item]) s.
Proof.
  unfold Markets.extract_items_from_venue, documentA, resolved_items.
  change (negb (truthy (VDict (("items", VList (map enc_entry pool))
            :: ("sections", VList (map enc_sectionA secs)) :: extra))))
    with false.
  cbv iota.
  rewrite (get_skip "items") by reflexivity.
  rewrite !get_head, !bind_lift_ok.
  unfold Markets.build_items_dict.
  change (iter (VList (map enc_entry pool))) with (Ok (map enc_entry pool)).
  unfold rbind at 1. rewrite items_dict_from_pool. fold (index pool).
  change (iter (VList (map enc_sectionA secs))) with (Ok (map enc_sectionA secs)).
  rewrite !bind_lift_ok, bind_then_log.
  rewrite for_each_flat_map, for_each_map.
  apply for_each_ext. intros [sd cats] s0.
  unfold enc_sectionA. cbn [fst snd].
  rewrite !(get_skip "categories"), !get_get_str by reflexivity.
  rewrite get_head, !bind_lift_ok.
  change (iter (VList (map enc_category cats))) with (Ok (map enc_category cats)).
  rewrite bind_lift_ok, for_each_flat_map, for_each_map.
  apply for_each_ext. intros [cd ids] s1.
  unfold enc_category. cbn [fst snd].
  rewrite !(get_skip "item_ids"), !get_get_str by reflexivity.
  rewrite get_head, !bind_lift_ok.
  change (iter (VList (map enc_ident ids))) with (Ok (map enc_ident ids)).
  rewrite bind_lift_ok, for_each_flat_map, for_each_map.
  apply for_each_ext. intros i s2.
  replace (hashable (enc_ident i)) with true by (destruct i; reflexivity).
  destruct (Markets.kdict_lookup (enc_ident i) (index pool)) as [item|].
  - rewrite (for_each_one (fun t : dict * dict * value =>
               Markets.item_record (VDict v) (get_str "id" (snd (fst t)))
                 (get_str "name" (fst (fst t))) (get_str "slug" (fst (fst t)))
                 (snd t))).
    reflexivity.
  - reflexivity.
Qed.

Lemma for_each_nothing {A B} (body : A -> M E (list B)) (l : list A) :
  (forall a, In a l -> forall s, body a s = (Ok [], s)) ->
  forall s, for_each l body s = (Ok [], s).
Proof.
  induction l as [|a l IH]; intros H s; simpl; [reflexivity|].
  unfold bind. rewrite (H a (or_introl eq_refl)).
  rewrite IH by (intros; apply H; right; assumption).
  reflexivity.
Qed.

Lemma get_absent (k : string) (dflt : value) (d : dict) :
  lookup k d = None -> get (VDict d) k dflt = Ok dflt.
Proof. intros Hd. unfold get. rewrite Hd. reflexivity. Qed.

(** markets.py on sections with embedded items and no categories, without
    a pool: nothing to resolve. *)
Lemma markets_skips_inline (secs : list sectionB) (extra v : dict)
    (s : state E) :
  lookup "items" extra = None ->
  Forall (fun sec => lookup "categories" (fst sec) = None) secs ->
  Markets.extract_items_from_venue (documentB secs extra) (VDict v) s
  = (Ok [], s).
Proof.
  intros Hpool Hsecs.
  unfold Markets.extract_items_from_venue, documentB.
  change (negb (truthy (VDict (("sections", VList (map enc_sectionB secs))
            :: extra)))) with false.
  cbv iota. rewrite get_head, bind_lift_ok.
  rewrite (get_skip "sections") by reflexivity.
  rewrite (get_absent "items" _ extra Hpool), bind_lift_ok.
  change (Markets.build_items_dict (VList [])) with (Ok ([] : Markets.kdict)).
  change (iter (VList (map enc_sectionB secs))) with (Ok (map enc_sectionB secs)).
  rewrite !bind_lift_ok, bind_then_log.
  apply for_each_nothing. intros sec Hin s0.
  apply in_map_iff in Hin as ([sd its] & <- & Hin).
  rewrite Forall_forall in Hsecs. specialize (Hsecs _ Hin). cbn [fst] in Hsecs.
  unfold enc_sectionB. cbn [fst snd].
  rewrite !(get_skip "items"), !get_get_str by reflexivity.
  rewrite !bind_lift_ok.
  rewrite (get_absent "categories" _ sd Hsecs).
  reflexivity.
Qed.

(** markets_baku.py on sections with categories and no embedded items:
    nothing to walk, whatever the pool. *)
Lemma baku_skips_index (pool : list entry) (secs : list sectionA)
    (extra v : dict) (s : state E) :
  Forall (fun sec => lookup "items" (fst sec) = None) secs ->
  MarketsBaku.extract_items_from_venue (documentA pool secs extra) (VDict v) s
  = (Ok [], s).
Proof.
  intros Hsecs.
  unfold MarketsBaku.extract_items_from_venue, documentA.
  change (negb (truthy (VDict (("items", VList (map enc_entry pool))
            :: ("sections", VList (map enc_sectionA secs)) :: extra))))
    with false.
  cbv iota.
  rewrite (get_skip "items") by reflexivity.
  rewrite get_head, bind_lift_ok.
  destruct secs as [|sec secs]; [reflexivity|].
  remember (sec :: secs) as l eqn:Hl.
  assert (Ht : negb (truthy (VList (map enc_sectionA l))) = false)
    by (subst l; reflexivity).
  rewrite Ht. clear Ht Hl sec secs.
  change (iter (VList (map enc_sectionA l))) with (Ok (map enc_sectionA l)).
  rewrite bind_lift_ok, bind_then_log.
  apply for_each_nothing. intros sec Hin s0.
  apply in_map_iff in Hin as ([sd cats] & <- & Hin).
  rewrite Forall_forall in Hsecs. specialize (Hsecs _ Hin). cbn [fst] in Hsecs.
  unfold enc_sectionA. cbn [fst snd].
  rewrite !(get_skip "categories"), !get_get_str by reflexivity.
  rewrite !bind_lift_ok.
  rewrite (get_absent "items" _ sd Hsecs).
  reflexivity.
Qed.

End Shapes.

(** *** What the lookup table resolves an id to *)

Lemma ident_eqb_spec (i j : ident) : reflect (i = j) (ident_eqb i j).
Proof.
  destruct i as [a|a], j as [b|b]; simpl; try (constructor; discriminate).
  - destruct (String.eqb_spec a b); constructor; congruence.
  - destruct (Z.eqb_spec a b); constructor; congruence.
Qed.

Lemma key_eqb_enc (i j : ident) :
  key_eqb (enc_ident i) (enc_ident j) = ident_eqb i j.
Proof.
  destruct i as [a|a], j as [b|b]; reflexivity.
Qed.

Lemma kdict_lookup_enc (i : ident) (t : list (ident * value)) :
  Markets.kdict_lookup (enc_ident i) (enc_table t) = table_lookup i t.
Proof.
  induction t as [|[j v] t IH]; simpl; [reflexivity|].
  rewrite key_eqb_enc, IH. reflexivity.
Qed.

Lemma kdict_set_enc (i : ident) (v : value) (t : list (ident * value)) :
  Markets.kdict_set (enc_ident i) v (enc_table t) = enc_table (table_set i v t).
Proof.
  induction t as [|[j w] t IH]; simpl; [reflexivity|].
  rewrite key_eqb_enc. destruct (ident_eqb i j); simpl; [reflexivity|].
  rewrite IH. reflexivity.
Qed.

Lemma table_lookup_set (i j : ident) (v : value) (t : list (ident * value)) :
  table_lookup i (table_set j v t)
  = if ident_eqb i j then Some v else table_lookup i t.
Proof.
  induction t as [|[k w] t IH]; simpl; [reflexivity|].
  destruct (ident_eqb_spec j k) as [->|Hjk]; simpl.
  - destruct (ident_eqb i k); reflexivity.
  - rewrite IH. destruct (ident_eqb_spec i k) as [->|Hik]; [|reflexivity].
    destruct (ident_eqb_spec k j) as [->|_]; [contradiction | reflexivity].
Qed.

Lemma find_snoc {A} (f : A -> bool) (l : list A) (a : A) :
  find f (l ++ [a])
  = match find f l with
    | Some x => Some x
    | None => if f a then Some a else None
    end.
Proof.
  induction l as [|b l IH]; simpl; [reflexivity|].
  destruct (f b); [reflexivity | exact IH].
Qed.

Lemma index_from_lookup (i : ident) (pool : list entry) :
  forall t,
  Markets.kdict_lookup (enc_ident i) (index_from pool (enc_table t))
  = match find (fun e => ident_eqb i (fst e)) (rev pool) with
    | Some e => Some (enc_entry e)
    | None => table_lookup i t
    end.
Proof.
  induction pool as [|e pool IH]; intros t; simpl.
  - apply kdict_lookup_enc.
  - rewrite kdict_set_enc, IH, find_snoc, table_lookup_set.
    match goal with
    | |- context [find ?f (rev pool)] => destruct (find f (rev pool))
    end; [reflexivity|].
    destruct (ident_eqb i (fst e)); reflexivity.
Qed.

(** An id resolves to the last pool entry that carries it. *)
Lemma index_resolves_last (i : ident) (pool : list entry) :
  Markets.kdict_lookup (enc_ident i) (index pool)
  = option_map enc_entry (find (fun e => ident_eqb i (fst e)) (rev pool)).
Proof.
  unfold index. change (index_from pool []) with (index_from pool (enc_table [])).
  rewrite (index_from_lookup i pool []).
  match goal with
  | |- context [find ?f (rev pool)] => destruct (find f (rev pool))
  end; reflexivity.
Qed.

(** C1, as the code has it.  Neither script detects the shape: each
    applies its one walk to every document.  markets.py builds the
    id-to-item table of the pool once and returns the products of the
    item ids of the categories of the sections, in order, ids without a
    match left out; markets_baku.py returns the products of the items
    embedded in the sections, in order, whatever else the document holds.
    In both cases the result is that flat sequence of product records,
    and a document of the other shape gives no product: markets.py
    returns none when there is no pool and no section has categories,
    markets_baku.py none when no section embeds items. *)
Theorem each_script_walks_one_shape (E : Env) (v extra : dict) (s : state E) :
  (forall pool secs,
     Markets.extract_items_from_venue (documentA pool secs extra) (VDict v) s
     = for_each (resolved_items (index pool) secs) (fun t =>
         bind (Markets.item_record (VDict v)
                 (get_str "id" (snd (fst t)))
                 (get_str "name" (fst (fst t))) (get_str "slug" (fst (fst t)))
                 (snd t))
              (fun item => ret [item])) s)
  /\ (forall secs,
        MarketsBaku.extract_items_from_venue (documentB secs extra) (VDict v) s
        = for_each (inline_items secs) (fun si =>
            bind (MarketsBaku.item_record (VDict v)
                    (get_str "name" (fst si)) (get_str "slug" (fst si)) (snd si))
                 (fun item => ret [item])) s)
  /\ (forall secs,
        lookup "items" extra = None ->
        Forall (fun sec => lookup "categories" (fst sec) = None) secs ->
        Markets.extract_items_from_venue (documentB secs extra) (VDict v) s
        = (Ok [], s))
  /\ (forall pool secs,
        Forall (fun sec => lookup "items" (fst sec) = None) secs ->
        MarketsBaku.extract_items_from_venue (documentA pool secs extra)
          (VDict v) s
        = (Ok [], s)).
Proof.
  refine (conj _ (conj _ (conj _ _))); intros.
  - apply markets_walks_index.
  - apply baku_walks_inline.
  - apply markets_skips_inline; assumption.
  - apply baku_skips_index; assumption.
Qed.

Lemma each_script_walks_one_shape_witness :
  Markets.extract_items_from_venue (E := env down) (documentB sectionsB [])
    (VDict kiosk) (init (E := env down) 0%nat)
  = (Ok [], init (E := env down) 0%nat)
  /\ MarketsBaku.extract_items_from_venue (E := env down)
       (documentA poolA sectionsA []) (VDict kiosk)
       (init (E := env down) 0%nat)
     = (Ok [], init (E := env down) 0%nat).
Proof.
  destruct (each_script_walks_one_shape (env down) kiosk []
              (init (E := env down) 0%nat)) as (_ & _ & H3 & H4).
  split.
  - apply H3; [reflexivity | repeat constructor].
  - apply H4. repeat constructor.
Defined.

(** C1 as stated fails: markets.py returns no product for a Shape B
    document and markets_baku.py returns none for a Shape A document,
    while each one returns the product of the item on its own shape. *)
Lemma no_shape_detection :
  run_markets 0 docB = Ok []
  /\ run_baku 0 docA = Ok []
  /\ column "item_id" (run_markets 0 docA) = Ok [Some (VStr "i1")]
  /\ column "item_id" (run_baku 0 docB) = Ok [Some (VStr "i1")].
Proof. repeat split; vm_compute; reflexivity. Qed.

(** ** Documents with missing fields *)

Lemma eval_fields_total fs :
  Forall (fun kr : string * res value => exists v, snd kr = Ok v) fs ->
  exists d, eval_fields fs = Ok d.
Proof.
  induction 1 as [|[k r] fs (v & Hv) _ (d & Hd)]; simpl in *; [eauto|].
  rewrite Hv, Hd. simpl. eauto.
Qed.

Lemma get_missing_or (P : value -> Prop) (k : string) (d : dict) (dflt : value) :
  missing_or P k d -> P dflt ->
  exists x, get (VDict d) k dflt = Ok x /\ P x.
Proof.
  unfold missing_or, get. destruct (lookup k d); eauto.
Qed.

Lemma in_range_int (k z : Z) : Z.abs z <= 2 ^ k -> in_range k (VInt z).
Proof. intros H. exists (NInt z). auto. Qed.

Lemma numeric_zero : numeric (VInt 0).
Proof. apply in_range_int. vm_compute. discriminate. Qed.

Lemma in_range_weaken (k k' : Z) (v : value) :
  0 <= k <= k' -> in_range k v -> in_range k' v.
Proof.
  intros Hk (x & Hx & Hr). exists x. split; [exact Hx|].
  destruct x as [z|]; [|exact I].
  eapply Z.le_trans; [exact Hr|]. apply Z.pow_le_mono_r; lia.
Qed.

Lemma Qabs_inject_Z (z : Z) : Qabs (inject_Z z) = inject_Z (Z.abs z).
Proof. reflexivity. Qed.

Lemma Qabs_int_quotient (x y : Z) :
  y <> 0 -> (Qabs (inject_Z x / inject_Z y) <= inject_Z (Z.abs x))%Q.
Proof.
  intros Hy. destruct (Z.lt_trichotomy y 0) as [Hneg|[->|Hpos]]; [|lia|].
  - setoid_replace (inject_Z x / inject_Z y)%Q
      with (inject_Z (- x) / inject_Z (- y))%Q.
    + rewrite <- (Z.abs_opp x).
      apply Qabs_quotient_le; [lia|]. rewrite Z.abs_opp. nia.
    + rewrite !inject_Z_opp. field.
      intros H. apply (Qeq_bool_neq (inject_Z y) 0); [|exact H].
      unfold Qeq_bool, inject_Z. simpl. apply Z.eqb_neq. lia.
  - apply Qabs_quotient_le; [lia | nia].
Qed.

Lemma float_of_int_total (z k : Z) :
  0 <= k <= 1022 -> Z.abs z <= 2 ^ k ->
  float_of_int z = Ok (Finite (nearest (inject_Z z))).
Proof.
  intros Hk Hz. unfold float_of_int.
  destruct (b64_finite (inject_Z z) k Hk) as (-> & _); [|reflexivity].
  rewrite Qabs_inject_Z, (pow2_inject k) by lia. rewrite <- Zle_Qle. exact Hz.
Qed.

Lemma int_truediv_total (x y k : Z) :
  0 <= k <= 1022 -> Z.abs x <= 2 ^ k -> y <> 0 ->
  exists q, int_truediv x y = Ok (Finite q).
Proof.
  intros Hk Hx Hy. unfold int_truediv.
  destruct (Z.eqb_spec y 0) as [|_]; [contradiction|].
  destruct (b64_finite (inject_Z x / inject_Z y) k Hk) as (-> & _); [|eauto].
  eapply Qle_trans; [apply Qabs_int_quotient; exact Hy|].
  rewrite (pow2_inject k) by lia. rewrite <- Zle_Qle. exact Hx.
Qed.

Lemma round_half_even_ge_one (x : Q) : (1 <= x)%Q -> 1 <= round_half_even x.
Proof.
  intros H. unfold round_half_even.
  assert (Hf : 1 <= Qfloor x).
  { change 1 with (Qfloor 1). apply Qfloor_resp_le. exact H. }
  destruct (Qcompare _ _); [destruct (Z.even _)| |]; lia.
Qed.

(** A positive [int] does not convert to zero. *)
Lemma nearest_int_positive (z : Z) : 0 < z -> (0 < nearest (inject_Z z))%Q.
Proof.
  intros Hz. rewrite nearest_eq.
  set (e := last_place (inject_Z z)).
  pose proof (pow2_pos e) as HP.
  assert (He : e <= Z.log2 z).
  { unfold e, last_place, ilog2, inject_Z. cbn [Qnum Qden].
    change (Z.log2 1) with 0. rewrite Z.abs_eq by lia.
    pose proof (Z.log2_nonneg z).
    destruct (Qle_bool _ _); lia. }
  assert (Hle : (pow2 e <= inject_Z z)%Q).
  { eapply Qle_trans; [apply (pow2_le _ _ He)|].
    rewrite pow2_inject by apply Z.log2_nonneg.
    rewrite <- Zle_Qle. apply Z.log2_spec. exact Hz. }
  assert (H1 : 1 <= round_half_even (inject_Z z / pow2 e)).
  { apply round_half_even_ge_one. apply Qle_shift_div_l; [exact HP | lra]. }
  apply Qmult_lt_0_compat; [|exact HP].
  change 0%Q with (inject_Z 0). rewrite <- Zlt_Qlt. lia.
Qed.

Lemma Qeq_bool_positive (q : Q) : (0 < q)%Q -> Qeq_bool q 0 = false.
Proof.
  intros H. destruct (Qeq_bool q 0) eqn:He; [|reflexivity].
  apply Qeq_bool_iff in He. lra.
Qed.

(** [a / b] for a positive divisor, on numbers in range. *)
Lemma truediv_total (a b : value) :
  in_range 1001 a -> in_range 1001 b -> gt0 b = Ok true ->
  exists q, truediv a b = Ok q.
Proof.
  intros (x & Hx & Rx) (y & Hy & Ry). unfold gt0, truediv. rewrite Hx, Hy.
  assert (Hk : 0 <= 1001 <= 1022) by lia.
  destruct x as [x|fx], y as [y|fy].
  - intros H. injection H as H. apply Z.ltb_lt in H.
    destruct (int_truediv_total x y 1001 Hk Rx) as (q & ->); [lia | eauto].
  - intros H. cbn [to_float rbind]. rewrite (float_of_int_total x 1001 Hk Rx).
    cbn [rbind].
    assert (Hz : fzero fy = false).
    { destruct fy as [q| |]; try reflexivity.
      injection H as H. apply negb_true_iff in H. simpl.
      apply Qeq_bool_positive.
      destruct (Qlt_le_dec 0 q) as [|Hle]; [assumption|].
      apply Qle_bool_iff in Hle. congruence. }
    rewrite Hz. eauto.
  - intros H. injection H as H. apply Z.ltb_lt in H.
    cbn [to_float rbind]. rewrite (float_of_int_total y 1001 Hk Ry).
    cbn [rbind fzero].
    rewrite (Qeq_bool_positive _ (nearest_int_positive y H)). eauto.
  - intros H. cbn [to_float rbind].
    assert (Hz : fzero fy = false).
    { destruct fy as [q| |]; try reflexivity.
      injection H as H. apply negb_true_iff in H. simpl.
      apply Qeq_bool_positive.
      destruct (Qlt_le_dec 0 q) as [|Hle]; [assumption|].
      apply Qle_bool_iff in Hle. congruence. }
    rewrite Hz. eauto.
Qed.

Lemma truediv_100 (v : value) :
  in_range 1001 v -> exists q, truediv v (VInt 100) = Ok q.
Proof.
  intros H. apply truediv_total; [exact H | | reflexivity].
  apply in_range_int. vm_compute. discriminate.
Qed.

Lemma div100_total (v : value) : numeric v -> exists w, div100 v = Ok w.
Proof.
  intros H.
  destruct (truediv_100 v (in_range_weaken 1000 1001 v ltac:(lia) H))
    as (q & Hq).
  unfold div100. rewrite Hq. simpl. eauto.
Qed.

Lemma sub_numeric (a b : value) :
  numeric a -> numeric b -> exists v, sub a b = Ok v /\ in_range 1001 v.
Proof.
  intros (x & Hx & Rx) (y & Hy & Ry). unfold sub. rewrite Hx, Hy.
  assert (Hk : 0 <= 1000 <= 1022) by lia.
  destruct x as [x|fx], y as [y|fy]; cbn [to_float rbind].
  - eexists. split; [reflexivity|]. apply in_range_int.
    replace (2 ^ 1001) with (2 * 2 ^ 1000) by reflexivity. lia.
  - rewrite (float_of_int_total x 1000 Hk Rx). cbn [rbind].
    eexists. split; [reflexivity|]. eexists. split; [reflexivity | exact I].
  - rewrite (float_of_int_total y 1000 Hk Ry). cbn [rbind].
    eexists. split; [reflexivity|]. eexists. split; [reflexivity | exact I].
  - eexists. split; [reflexivity|]. eexists. split; [reflexivity | exact I].
Qed.

Lemma gt0_numeric (v : value) : numeric v -> exists b, gt0 v = Ok b.
Proof.
  intros (x & Hx & _). unfold gt0. rewrite Hx.
  destruct x as [z|[q| |]]; eauto.
Qed.

Section SparseFields.
Variable d : dict.
Hypothesis Hsparse : sparse_item d.

Lemma price_field_total : exists v, price_field (VDict d) = Ok v.
Proof.
  destruct (get_missing_or numeric "price" d (VInt 0)
              (sparse_price d Hsparse) numeric_zero) as (p & Hp & Hn).
  destruct (truediv_100 p (in_range_weaken 1000 1001 p ltac:(lia) Hn))
    as (q & Hq).
  unfold price_field. rewrite Hp. simpl. rewrite Hq. simpl. eauto.
Qed.

(** The original price, when it is there and truthy, is a number. *)
Lemma original_price_cases :
  (exists c, get1 (VDict d) "original_price" = Ok c /\ truthy c = false)
  \/ (exists c, lookup "original_price" d = Some c /\ truthy c = true
               /\ numeric c).
Proof.
  pose proof (sparse_original_price d Hsparse) as H.
  unfold missing_or, get1, get in *.
  destruct (lookup "original_price" d) as [c|]; [|left; eauto].
  destruct (truthy c) eqn:Ht; [|left; eauto].
  destruct H as [H|H]; [congruence|]. right. eauto.
Qed.

Lemma original_price_field_total :
  exists v, original_price_field (VDict d) = Ok v.
Proof.
  unfold original_price_field.
  destruct original_price_cases as [(c & Hc & Ht) | (c & Hc & Ht & Hn)].
  - rewrite Hc. simpl. rewrite Ht. eauto.
  - unfold get1, get. rewrite Hc. simpl. rewrite Ht.
    destruct (truediv_100 c (in_range_weaken 1000 1001 c ltac:(lia) Hn))
      as (q & Hq).
    rewrite Hq. simpl. eauto.
Qed.

Lemma discount_amount_field_total :
  exists v, discount_amount_field (VDict d) = Ok v.
Proof.
  unfold discount_amount_field.
  destruct original_price_cases as [(c & Hc & Ht) | (c & Hc & Ht & Hn)].
  - rewrite Hc. simpl. rewrite Ht. eauto.
  - destruct (get_missing_or numeric "price" d (VInt 0)
                (sparse_price d Hsparse) numeric_zero) as (p & Hp & Hpn).
    rewrite Hp. unfold get1, get. rewrite Hc. simpl. rewrite Ht.
    destruct (sub_numeric c p Hn Hpn) as (x & Hx & Hxn). rewrite Hx. simpl.
    destruct (truediv_100 x Hxn) as (q & Hq). rewrite Hq. simpl. eauto.
Qed.

Lemma discount_percentage_field_total :
  exists v, discount_percentage_field (VDict d) = Ok v.
Proof.
  unfold discount_percentage_field, original_price_positive.
  destruct original_price_cases as [(c & Hc & Ht) | (c & Hc & Ht & Hn)].
  - rewrite Hc. simpl. rewrite Ht. simpl. eauto.
  - destruct (get_missing_or numeric "price" d (VInt 0)
                (sparse_price d Hsparse) numeric_zero) as (p & Hp & Hpn).
    rewrite Hp. unfold get1, get. rewrite Hc. simpl. rewrite Ht.
    destruct (gt0_numeric c Hn) as ([|] & Hg); rewrite Hg; simpl; [|eauto].
    destruct (sub_numeric c p Hn Hpn) as (x & Hx & Hxn).
    rewrite Hx. simpl.
    destruct (truediv_total x c Hxn
                (in_range_weaken 1000 1001 c ltac:(lia) Hn) Hg) as (q & Hq).
    rewrite Hq. simpl. eauto.
Qed.

Lemma unit_price_cases :
  (exists c, get1 (VDict d) "unit_price" = Ok c /\ truthy c = false)
  \/ (exists u, lookup "unit_price" d = Some (VDict u)
               /\ truthy (VDict u) = true /\ missing_or numeric "price" u).
Proof.
  pose proof (sparse_unit_price d Hsparse) as H.
  unfold missing_or in H at 1. unfold get1, get.
  destruct (lookup "unit_price" d) as [c|]; [|left; eauto].
  destruct (truthy c) eqn:Ht; [|left; eauto].
  destruct H as [H | (u & -> & H)]; [congruence|]. right. eauto.
Qed.

Lemma unit_price_value_total :
  exists v, unit_price_field (VDict d) "price" (VInt 0) VNone div100 = Ok v.
Proof.
  unfold unit_price_field.
  destruct unit_price_cases as [(c & Hc & Ht) | (u & Hc & Ht & Hu)].
  - rewrite Hc. simpl. rewrite Ht. eauto.
  - unfold get1, get at 1 2. rewrite Hc. cbn [rbind]. rewrite Ht. cbn [rbind].
    destruct (get_missing_or numeric "price" u (VInt 0) Hu numeric_zero)
      as (p & Hp & Hpn).
    rewrite Hp. cbn [rbind]. apply div100_total. exact Hpn.
Qed.

Lemma unit_price_other_total (k : string) (dflt absent : value) :
  exists v, unit_price_field (VDict d) k dflt absent Ok = Ok v.
Proof.
  unfold unit_price_field.
  destruct unit_price_cases as [(c & Hc & Ht) | (u & Hc & Ht & Hu)].
  - rewrite Hc. simpl. rewrite Ht. eauto.
  - unfold get1, get at 1 2. rewrite Hc. cbn [rbind]. rewrite Ht.
    simpl. eauto.
Qed.

Lemma image_field_total (k : string) :
  exists v, image_field (VDict d) k = Ok v.
Proof.
  pose proof (sparse_images d Hsparse) as H.
  unfold image_field, missing_or, get1, get in *.
  destruct (lookup "images" d) as [c|]; simpl; [|eauto].
  destruct (truthy c) eqn:Ht; [|eauto].
  destruct H as [H | (e & l & ->)]; [congruence|]. simpl. eauto.
Qed.

End SparseFields.

Lemma all_strs_strings (l : list value) :
  Forall is_string l -> exists ss, all_strs l = Some ss.
Proof.
  induction 1 as [|o l (i & ->) _ (ss & Hss)]; simpl; [eauto|].
  rewrite Hss. simpl. eauto.
Qed.

Lemma join_comma_total (l : list value) :
  Forall is_string l -> exists v, join_comma (VList l) = Ok v.
Proof.
  intros H. destruct (all_strs_strings l H) as (ss & Hss).
  unfold join_comma. simpl. rewrite Hss. eauto.
Qed.

Lemma baku_join_tags_total {E : Env} (l : list value) :
  Forall label l -> exists v, MarketsBaku.join_tags (E := E) (VList l) = Ok v.
Proof.
  intros H. unfold MarketsBaku.join_tags. simpl.
  assert (Hm : exists l', map_res (fun tag => match tag with
                                    | VDict _ => get tag "id" (VStr "")
                                    | _ => Ok (VStr (str E tag))
                                    end) l = Ok l' /\ Forall is_string l').
  { induction H as [|o l Ho _ (l' & Hl' & Hs)]; simpl; [eauto|].
    destruct Ho as [(i & ->) | (d & -> & Hd)].
    - rewrite Hl'. simpl. eexists. split; [reflexivity|].
      constructor; [eexists; reflexivity | exact Hs].
    - destruct (get_missing_or is_string "id" d (VStr "") Hd
                  (ex_intro _ "" eq_refl)) as (x & Hx & Hxs).
      rewrite Hx, Hl'. simpl. eauto. }
  destruct Hm as (l' & -> & Hs). simpl. apply join_comma_total. exact Hs.
Qed.

Lemma baku_join_prefs_total (l : list value) :
  Forall label l -> exists v, MarketsBaku.join_prefs (VList l) = Ok v.
Proof.
  intros H. unfold MarketsBaku.join_prefs. simpl.
  assert (Hm : exists l', map_res (fun pref => match pref with
                                    | VStr _ => Ok pref
                                    | _ => get pref "id" (VStr "")
                                    end) l = Ok l' /\ Forall is_string l').
  { induction H as [|o l Ho _ (l' & Hl' & Hs)]; simpl; [eauto|].
    destruct Ho as [(i & ->) | (d & -> & Hd)].
    - rewrite Hl'. simpl. eexists. split; [reflexivity|].
      constructor; [eexists; reflexivity | exact Hs].
    - destruct (get_missing_or is_string "id" d (VStr "") Hd
                  (ex_intro _ "" eq_refl)) as (x & Hx & Hxs).
      rewrite Hx, Hl'. simpl. eauto. }
  destruct Hm as (l' & -> & Hs). simpl. apply join_comma_total. exact Hs.
Qed.

Lemma list_field_total (P : value -> Prop) (join : value -> res value)
    (k : string) (d : dict) :
  (forall l, Forall P l -> exists v, join (VList l) = Ok v) ->
  missing_or (fun v => exists l, v = VList l /\ Forall P l) k d ->
  exists v, join (match lookup k d with Some x => x | None => VList [] end)
            = Ok v.
Proof.
  intros Hjoin Hm. unfold missing_or in Hm.
  destruct (lookup k d) as [x|].
  - destruct Hm as (l & -> & Hl). apply Hjoin. exact Hl.
  - apply Hjoin. constructor.
Qed.

Ltac field_total :=
  first
    [ solve [eexists; reflexivity]
    | solve [eauto using price_field_total, original_price_field_total,
               discount_amount_field_total, discount_percentage_field_total,
               unit_price_value_total, unit_price_other_total,
               image_field_total] ].

Lemma baku_item_fields_total {E : Env} (d v : dict) (sn ss : value) :
  sparse_item d -> label_lists d ->
  exists r, eval_fields (item_fields None MarketsBaku.join_prefs
                           (MarketsBaku.join_tags (E := E))
                           (VDict v) sn ss (VDict d)) = Ok r.
Proof.
  intros Hs [Ht Hp]. apply eval_fields_total. unfold item_fields. simpl app.
  repeat (apply Forall_cons; [cbn [snd]; try field_total |]);
    [ | | apply Forall_nil].
  - apply (list_field_total label); [apply baku_join_prefs_total | exact Hp].
  - apply (list_field_total label); [apply baku_join_tags_total | exact Ht].
Qed.

Lemma markets_item_fields_total (d v : dict) (cid sn ss : value) :
  sparse_item d -> string_lists d ->
  exists r, eval_fields (item_fields (Some cid) join_comma join_comma
                           (VDict v) sn ss (VDict d)) = Ok r.
Proof.
  intros Hs [Ht Hp]. apply eval_fields_total. unfold item_fields. simpl app.
  repeat (apply Forall_cons; [cbn [snd]; try field_total |]);
    [ | | apply Forall_nil].
  - apply (list_field_total is_string); [apply join_comma_total | exact Hp].
  - apply (list_field_total is_string); [apply join_comma_total | exact Ht].
Qed.

Section Totality.
Context {E : Env}.

Lemma stamped_total fs (s : state E) :
  (exists d, eval_fields fs = Ok d) ->
  exists p s', bind (stamped fs) (fun item => ret [item]) s = (Ok [p], s').
Proof.
  intros (d & Hd). unfold stamped, bind, lift, isoformat_now, ret.
  rewrite Hd. destruct (now E (world s)) as [t w]. eauto.
Qed.

Lemma for_each_ok {A B} (P : A -> Prop) (body : A -> M E (list B))
    (l : list A) :
  (forall a, P a -> forall s, exists bs s', body a s = (Ok bs, s')) ->
  Forall P l ->
  forall s, exists bs s', for_each l body s = (Ok bs, s').
Proof.
  intros Hbody H. induction H as [|a l Ha _ IH]; intros s; simpl.
  - unfold ret. eauto.
  - unfold bind. destruct (Hbody a Ha s) as (b & s1 & ->).
    destruct (IH s1) as (bs & s2 & ->). unfold ret. eauto.
Qed.

End Totality.

Lemma get_list_of (P : value -> Prop) (k : string) (d : dict) :
  missing_or (list_of P) k d ->
  exists l, get (VDict d) k (VList []) = Ok (VList l) /\ Forall P l.
Proof.
  unfold missing_or, get. destruct (lookup k d) as [x|].
  - intros (l & -> & Hl). eauto.
  - intros _. exists []. auto.
Qed.

(** *** The id-to-item table of a pool whose entries carry an id *)

Lemma kdict_set_values (P : value -> Prop) (k v : value) (acc : Markets.kdict) :
  P v -> Forall (fun kv => P (snd kv)) acc ->
  Forall (fun kv => P (snd kv)) (Markets.kdict_set k v acc).
Proof.
  intros Hv H. induction H as [|[k' v'] acc Hk Hacc IH]; simpl.
  - repeat constructor. exact Hv.
  - destruct (key_eqb k k'); constructor; auto.
Qed.

Lemma kdict_lookup_values (P : value -> Prop) (k v : value)
    (acc : Markets.kdict) :
  Forall (fun kv => P (snd kv)) acc ->
  Markets.kdict_lookup k acc = Some v -> P v.
Proof.
  intros H. induction H as [|[k' v'] acc Hk _ IH]; simpl; [discriminate|].
  destruct (key_eqb k k'); [|exact IH].
  intros E. injection E as <-. exact Hk.
Qed.

Lemma items_dict_from_total (l : list value) :
  Forall markets_item l ->
  forall acc, Forall (fun kv => markets_item (snd kv)) acc ->
  exists idx, Markets.items_dict_from l acc = Ok idx
              /\ Forall (fun kv => markets_item (snd kv)) idx.
Proof.
  intros H. induction H as [|item l Hitem _ IH]; intros acc Hacc; simpl.
  - eauto.
  - pose proof Hitem as (d & -> & (i & Hi & Hh) & _).
    unfold getitem_str. rewrite Hi. cbn [rbind]. rewrite Hh.
    apply IH. apply kdict_set_values; assumption.
Qed.

Section Catalogs.
Context {E : Env}.

Lemma markets_catalog_total (doc v : dict) (s : state E) :
  markets_catalog doc ->
  exists ps s',
    Markets.extract_items_from_venue (VDict doc) (VDict v) s = (Ok ps, s').
Proof.
  intros [Hsec Hpool]. unfold Markets.extract_items_from_venue.
  destruct (truthy (VDict doc)); cbn [negb]; [|unfold ret; eauto].
  destruct (get_list_of _ _ _ Hsec) as (secs & Hs & Hsecs).
  destruct (get_list_of _ _ _ Hpool) as (pool & Hp & Hitems).
  rewrite Hs, bind_lift_ok, Hp, bind_lift_ok.
  unfold Markets.build_items_dict. cbn [iter rbind].
  destruct (items_dict_from_total pool Hitems [] (Forall_nil _))
    as (idx & Hidx & Hgood).
  rewrite Hidx, !bind_lift_ok, bind_then_log.
  eapply for_each_ok; [|exact Hsecs].
  intros sec (sd & -> & Hcats) s1. cbv beta.
  rewrite !get_get_str, !bind_lift_ok.
  destruct (get_list_of _ _ _ Hcats) as (cats & Hc & Hcats').
  rewrite Hc, bind_lift_ok. cbn [iter]. rewrite bind_lift_ok.
  eapply for_each_ok; [|exact Hcats'].
  intros cat (cd & -> & Hids) s2. cbv beta.
  rewrite !get_get_str, !bind_lift_ok.
  destruct (get_list_of _ _ _ Hids) as (ids & Hi & Hids').
  rewrite Hi, bind_lift_ok. cbn [iter]. rewrite bind_lift_ok.
  eapply for_each_ok; [|exact Hids'].
  intros i Hh s3. cbv beta. rewrite Hh.
  destruct (Markets.kdict_lookup i idx) as [item|] eqn:Hl;
    [|unfold ret; eauto].
  destruct (kdict_lookup_values _ _ _ _ Hgood Hl)
    as (d & -> & _ & Hsp & Hsl).
  destruct (stamped_total
              (item_fields (Some (get_str "id" cd)) join_comma join_comma
                 (VDict v) (get_str "name" sd) (get_str "slug" sd) (VDict d))
              s3 (markets_item_fields_total d v _ _ _ Hsp Hsl))
    as (p & s4 & Hst).
  unfold Markets.item_record. rewrite Hst. eauto.
Qed.

Lemma baku_catalog_total (doc v : dict) (s : state E) :
  baku_catalog doc ->
  exists ps s',
    MarketsBaku.extract_items_from_venue (VDict doc) (VDict v) s = (Ok ps, s').
Proof.
  intros Hsec. unfold MarketsBaku.extract_items_from_venue.
  destruct (truthy (VDict doc)); cbn [negb]; [|unfold ret; eauto].
  assert (Hs : exists sv, get (VDict doc) "sections" (VList []) = Ok sv
                          /\ (truthy sv = false
                              \/ list_of (object_with
                                   (missing_or (list_of baku_item) "items")) sv)).
  { unfold baku_catalog, missing_or in Hsec. unfold get.
    destruct (lookup "sections" doc) as [sv|]; eauto. }
  destruct Hs as (sv & Hs & Hsv). rewrite Hs, bind_lift_ok.
  destruct (truthy sv) eqn:Ht; cbn [negb]; [|unfold bind, lift, ret; simpl; eauto].
  destruct Hsv as [Hf | (secs & -> & Hsecs)]; [discriminate|].
  cbn [iter]. rewrite bind_lift_ok, bind_then_log.
  eapply for_each_ok; [|exact Hsecs].
  intros sec (sd & -> & Hitems) s1. cbv beta.
  rewrite !get_get_str, !bind_lift_ok.
  destruct (get_list_of _ _ _ Hitems) as (items & Hi & Hitems').
  rewrite Hi, bind_lift_ok. cbn [iter]. rewrite bind_lift_ok.
  eapply for_each_ok; [|exact Hitems'].
  intros item (d & -> & Hsp & Hl) s2. cbv beta.
  unfold MarketsBaku.item_record.
  destruct (stamped_total
              (item_fields None MarketsBaku.join_prefs
                 (MarketsBaku.join_tags (E := E))
                 (VDict v) (get_str "name" sd) (get_str "slug" sd) (VDict d))
              s2 (baku_item_fields_total d v _ _ Hsp Hl))
    as (p & s3 & Hst).
  rewrite Hst. eauto.
Qed.

End Catalogs.



(** Every field missing: the record of the defaults. *)
Example baku_defaults :
  run_baku 5 (docB_with (VDict []))
  = Ok [[ ("item_id", VStr ""); ("venue_id", VStr "v1");
          ("venue_name", VStr "Bazar"); ("venue_slug", VStr "bazar");
          ("city", VStr ""); ("city_slug", VStr "");
          ("section_name", VStr "Drinks"); ("section_slug", VStr "drinks");
          ("name", VStr ""); ("description", VStr "");
          ("price", VFloat (Finite 0)); ("original_price", VNone);
          ("discount_amount", VInt 0); ("discount_percentage", VInt 0);
          ("unit_info", VStr ""); ("unit_price_value", VNone);
          ("unit_price_base", VNone); ("unit_price_unit", VStr "");
          ("barcode_gtin", VStr ""); ("image_url", VStr "");
          ("image_blurhash", VStr ""); ("purchasable_balance", VNone);
          ("quantity_left", VNone); ("max_quantity_per_purchase", VNone);
          ("min_quantity_per_purchase", VNone);
          ("alcohol_permille", VInt 0); ("caffeine_info", VStr "");
          ("vat_percentage", VInt 0); ("dietary_preferences", VStr "");
          ("tags", VStr ""); ("is_available", VBool true);
          ("is_wolt_plus_only", VBool false); ("is_cutlery", VBool false);
          ("deposit", VNone); ("scraped_at", VStr "t5") ]].
Proof. vm_compute. reflexivity. Qed.

(** ** Python primitives on samples *)

Example round2_samples :
  round2 (Finite (1 # 8)) = b64 (12 # 100)
  /\ round2 (b64 (2675 # 1000)) = b64 (267 # 100)
  /\ round2 (b64 (-(1 # 3))) = b64 (-33 # 100)
  /\ round2 (Inf false) = Inf false /\ round2 NaN = NaN
  /\ int_truediv 1 3 = Ok (Finite (6004799503160661 # 18014398509481984))
  /\ int_truediv (10 ^ 400) 100 = Raise OverflowError
  /\ int_truediv 1 0 = Raise ZeroDivisionError
  /\ truediv (VInt (10 ^ 400)) (VFloat (Finite 0)) = Raise OverflowError
  /\ truediv (VFloat (Finite 1)) (VInt 0) = Raise ZeroDivisionError
  /\ sub (VFloat (Finite 1)) (VInt (10 ^ 400)) = Raise OverflowError
  /\ sub (VFloat (Inf false)) (VFloat (Inf false)) = Ok (VFloat NaN)
  /\ times100 (b64 (10 ^ 307)) = Inf false.
Proof. repeat split; vm_compute; reflexivity. Qed.

Example upper_samples :
  upper (env down) "Post" = "POST" /\ upper (env down) "get" = "GET"
  /\ MarketsBaku.capitalize (E := env down) "bAKU" = "Baku"
  /\ lower (env down) "Grocery, PET" = "grocery, pet".
Proof. repeat split. Qed.

(** Characters are counted and taken whole: U+015F is two bytes, a
    surrogate is three and does not encode. *)
Example character_samples :
  let s_cedilla := String (ascii_of_nat 197) (String (ascii_of_nat 159) "") in
  let surrogate := String (ascii_of_nat 237) (String (ascii_of_nat 160)
                     (String (ascii_of_nat 128) "")) in
  len (VStr (s_cedilla ++ "ek")) = Ok 3
  /\ getitem_idx (VStr ("a" ++ s_cedilla ++ "b")) 1 = Ok (VStr s_cedilla)
  /\ join_comma (VStr ("a" ++ s_cedilla)) = Ok (VStr ("a," ++ s_cedilla))
  /\ is_ascii s_cedilla = false
  /\ encodable (s_cedilla ++ "ek") = true
  /\ len (VStr surrogate) = Ok 1
  /\ encodable ("x" ++ surrogate) = false.
Proof. repeat split. Qed.

Example join_samples :
  join_comma (VList []) = Ok (VStr "")
  /\ join_comma (VList [VStr "a"]) = Ok (VStr "a")
  /\ join_comma (VStr "ab") = Ok (VStr "a,b")
  /\ join_comma (VList [VStr "a"; VInt 1]) = Raise TypeError
  /\ join_comma VNone = Raise TypeError.
Proof. repeat split. Qed.

Example truthy_samples :
  map truthy [VNone; VBool false; VInt 0; VFloat (Finite 0); VStr "";
              VList []; VDict []; VInt (-1); VStr "0"; VList [VNone];
              VDict [("k", VNone)]; VFloat NaN; VFloat (Inf true)]
  = [false; false; false; false; false; false; false; true; true; true; true;
     true; true].
Proof. reflexivity. Qed.

(** A whole run of markets.py against [shop]: the city list is down, the
    default city is crawled, both venues are recorded, and the Shape B
    catalog of the first yields no product. *)
Example scrape_all_markets_shop :
  let r := Markets.scrape_all_markets (E := env shop)
             (init (E := env shop) 0%nat) in
  fst r = Ok tt
  /\ map (lookup "venue_id") (self_markets (snd r))
     = [Some (VStr "v1"); Some (VStr "v2")]
  /\ self_items (snd r) = [].
Proof. vm_compute. repeat split. Qed.

(** ** Discovery *)

Lemma lookup_dict_set_same (k : string) (v : value) (d : dict) :
  lookup k (dict_set k v d) = Some v.
Proof.
  induction d as [|[k' x] d IH]; simpl.
  - rewrite String.eqb_refl. reflexivity.
  - destruct (String.eqb k k') eqn:Hk; simpl.
    + rewrite String.eqb_refl. reflexivity.
    + rewrite Hk. exact IH.
Qed.

Lemma lookup_dict_set_other (k k' : string) (v : value) (d : dict) :
  k <> k' -> lookup k (dict_set k' v d) = lookup k d.
Proof.
  intros Hne. induction d as [|[k0 x] d IH]; simpl.
  - destruct (String.eqb_spec k k'); [contradiction | reflexivity].
  - destruct (String.eqb_spec k' k0) as [<-|Hk]; simpl.
    + destruct (String.eqb_spec k k'); [contradiction | reflexivity].
    + rewrite IH. reflexivity.
Qed.

Section Discovery.
Context {E : Env}.

Lemma for_each_Forall {A B} (P : B -> Prop) (body : A -> M E (list B))
    (l : list A) :
  (forall a s bs s', body a s = (Ok bs, s') -> Forall P bs) ->
  forall s bs s', for_each l body s = (Ok bs, s') -> Forall P bs.
Proof.
  intros Hbody. induction l as [|a l IH]; intros s bs s' H; simpl in H.
  - injection H as <- _. constructor.
  - unfold bind in H. destruct (body a s) as [[b1|e] s1] eqn:Hb; [|discriminate].
    destruct (for_each l body s1) as [[b2|e] s2] eqn:Hl; [|discriminate].
    injection H as <- _. apply Forall_app. eauto.
Qed.

(** X3.  Whatever the listing document, every venue discovery returns is
    a dict that carries the city slug handed in under [city_slug] and one
    and the same city name under [city_name]. *)
Theorem discovered_venues_stamped (lat lon city_slug : value) (s s' : state E)
    (markets : list value) :
  fetch_retail_markets lat lon city_slug s = (Ok markets, s') ->
  exists city,
    Forall (fun venue => exists m, venue = VDict m
                         /\ lookup "city_slug" m = Some city_slug
                         /\ lookup "city_name" m = Some city) markets.
Proof.
  unfold fetch_retail_markets. unfold bind at 1.
  destruct (make_request _ "GET" s) as [[data|e] s1]; [|discriminate].
  destruct (negb (truthy data)).
  { intros H. injection H as <- _. exists VNone. constructor. }
  destruct data as [| | | | | |dd]; try discriminate.
  unfold bind at 1, lift at 1.
  destruct (get (VDict dd) "sections" (VList [])) as [sections|e]; [|discriminate].
  unfold bind at 1, lift at 1.
  destruct (iter sections) as [secs|e]; [|discriminate].
  destruct (get (VDict dd) "city" (VStr "")) as [city|e] eqn:Hcity;
    [|discriminate].
  exists city. revert s1 markets s' H. apply for_each_Forall.
  intros section s0 bs s0'.
  unfold bind at 1, lift at 1.
  destruct (get section "items" (VList [])) as [items|e]; [|discriminate].
  unfold bind at 1, lift at 1.
  destruct (iter items) as [its|e]; [|discriminate].
  apply for_each_Forall. clear. intros item s bs s'.
  unfold bind, lift, ret.
  destruct (contains_str "venue" item) as [[|]|e]; try discriminate.
  - destruct (getitem_str item "venue") as [venue|e]; [|discriminate].
    destruct venue as [| | | | | |m]; cbn [setitem_str]; try discriminate.
    intros H. injection H as <- _. constructor; [|constructor].
    eexists. split; [reflexivity|]. split.
    + rewrite lookup_dict_set_other by discriminate.
      apply lookup_dict_set_same.
    + apply lookup_dict_set_same.
  - intros H. injection H as <- _. constructor.
Qed.

End Discovery.


(** * Further properties of the code *)

(** ** The gateway and the fetchers *)

(** X1.  A method other than GET and POST makes [make_request] raise
    [ValueError]: the handlers do not catch it, no request is issued and
    nothing changes. *)
Theorem make_request_unsupported_method (E : Env) (url method : string)
    (s : state E) :
  upper E method <> "GET" -> upper E method <> "POST" ->
  make_request url method s = (Raise ValueError, s).
Proof.
  intros Hg Hp. unfold make_request, try_except, bind.
  destruct (String.eqb_spec (upper E method) "GET"); [contradiction|].
  destruct (String.eqb_spec (upper E method) "POST"); [contradiction|].
  reflexivity.
Qed.

Lemma make_request_unsupported_method_witness :
  upper (env shop) "put" <> "GET" /\ upper (env shop) "put" <> "POST"
  /\ make_request (E := env shop) "https://consumer-api.wolt.com/x" "put"
       (init (E := env shop) 0%nat)
     = (Raise ValueError, init (E := env shop) 0%nat).
Proof.
  split; [discriminate | split; [discriminate|]].
  apply (make_request_unsupported_method (env shop)); discriminate.
Defined.

Lemma has_nonempty_sized (m : dict) (k : string) :
  missing_or sized k m -> exists b, MarketsBaku.has_nonempty (VDict m) k = Ok b.
Proof.
  unfold missing_or, MarketsBaku.has_nonempty, contains_str, get.
  destruct (lookup k m) as [v|]; simpl; [|eauto].
  intros (n & Hn). rewrite Hn. simpl. eauto.
Qed.

(** X2.  The debug logging of markets_baku.py's [fetch_venue_details]
    never changes what is returned: whenever it returns, markets.py's
    returns the same document in the same state; and on an absent
    document, or a dict whose ['items'] and ['sections'], when there,
    have a length, the two methods agree altogether. *)
Theorem fetch_venue_details_agree (E : Env) (venue_slug : value) (s : state E) :
  (forall d s', MarketsBaku.fetch_venue_details venue_slug s = (Ok d, s') ->
                Markets.fetch_venue_details venue_slug s = (Ok d, s'))
  /\ (forall d s', Markets.fetch_venue_details venue_slug s = (Ok d, s') ->
        (truthy d = false
         \/ exists m, d = VDict m /\ missing_or sized "items" m
                      /\ missing_or sized "sections" m) ->
        MarketsBaku.fetch_venue_details venue_slug s = (Ok d, s')).
Proof.
  unfold MarketsBaku.fetch_venue_details, Markets.fetch_venue_details.
  unfold bind, lift, ret.
  destruct (make_request (venue_content_url E venue_slug) "GET" s)
    as [[data|e] s1]; [|split; intros; discriminate].
  split.
  - intros d s'. destruct (truthy data); [|auto].
    destruct (MarketsBaku.has_nonempty data "items") as [hi|e]; [|discriminate].
    destruct (MarketsBaku.has_nonempty data "sections") as [hs|e];
      [|discriminate].
    destruct hi; [|auto].
    destruct (get data "items" (VList [])) as [v|e]; [|discriminate].
    destruct (len v); [auto | discriminate].
  - intros d s' H. injection H as -> ->. intros [Hf | (m & -> & Hi & Hs)].
    + rewrite Hf. reflexivity.
    + destruct (truthy (VDict m)); [|reflexivity].
      destruct (has_nonempty_sized m "items" Hi) as (hi & Hhi).
      destruct (has_nonempty_sized m "sections" Hs) as (hs & Hhs).
      rewrite Hhi, Hhs.
      destruct hi; [|reflexivity].
      unfold missing_or, get in *. destruct (lookup "items" m) as [v|].
      * destruct Hi as (n & ->). reflexivity.
      * reflexivity.
Qed.

(** The debug logging can raise where markets.py returns the document. *)
Example fetch_venue_details_debug_raises :
  let E := env (fun _ => Ok (mkResponse 200 (Ok unsized_items_doc))) in
  fst (Markets.fetch_venue_details (E := E) (VStr "bazar") (init (E := E) 0%nat))
  = Ok unsized_items_doc
  /\ fst (MarketsBaku.fetch_venue_details (E := E) (VStr "bazar")
            (init (E := E) 0%nat))
     = Raise TypeError.
Proof. split; reflexivity. Qed.

Lemma fetch_venue_details_agree_witness :
  Markets.fetch_venue_details (E := env shop) (VStr "bazar")
    (init (E := env shop) 0%nat)
  = (Ok docB, init (E := env shop) 0%nat).
Proof.
  apply (proj1 (fetch_venue_details_agree (env shop) (VStr "bazar")
                  (init (E := env shop) 0%nat))).
  reflexivity.
Defined.

Lemma discovered_venues_stamped_witness :
  exists city,
    Forall (fun venue => exists m, venue = VDict m
                         /\ lookup "city_slug" m = Some (VStr "baku")
                         /\ lookup "city_name" m = Some city) shop_venues.
Proof.
  apply (discovered_venues_stamped (E := env shop) DEFAULT_LAT DEFAULT_LON
           (VStr "baku") (init (E := env shop) 0%nat) (snd shop_discovery)
           shop_venues).
  reflexivity.
Defined.

Section WorldOnly.
Context {E : Env}.

Lemma world_only_ret {A} (a : A) : world_only (E := E) (ret a).
Proof. intros s. reflexivity. Qed.

Lemma world_only_raise {A} (e : exn) : world_only (E := E) (raise (A := A) e).
Proof. intros s. reflexivity. Qed.

Lemma world_only_lift {A} (r : res A) : world_only (E := E) (lift r).
Proof. intros s. reflexivity. Qed.

Lemma world_only_bind {A B} (m : M E A) (k : A -> M E B) :
  world_only m -> (forall a, world_only (k a)) -> world_only (bind m k).
Proof.
  intros Hm Hk s. unfold bind. specialize (Hm s).
  destruct (m s) as [[a|e] s1]; simpl in *; [|exact Hm].
  rewrite (Hk a s1). exact Hm.
Qed.

Lemma world_only_now : world_only (E := E) isoformat_now.
Proof.
  intros s. unfold isoformat_now. destruct (now E (world s)). reflexivity.
Qed.

Lemma world_only_http f url : world_only (E := E) (http f url).
Proof. intros s. unfold http. destruct (f url (world s)). reflexivity. Qed.

Lemma world_only_try {A} (m : M E A) h dflt :
  world_only m -> world_only (try_except m h dflt).
Proof.
  intros Hm s. unfold try_except. specialize (Hm s).
  destruct (m s) as [[a|e] s1]; simpl in *; [exact Hm|].
  destruct (h e); exact Hm.
Qed.

Lemma world_only_for_each {A B} (body : A -> M E (list B)) (l : list A) :
  (forall a, world_only (body a)) -> world_only (for_each l body).
Proof.
  intros H. induction l as [|a l IH]; simpl; [apply world_only_ret|].
  apply world_only_bind; [apply H|]. intros bs.
  apply world_only_bind; [exact IH|]. intros rest. apply world_only_ret.
Qed.

Lemma world_only_if {A} (b : bool) (m1 m2 : M E A) :
  world_only m1 -> world_only m2 -> world_only (if b then m1 else m2).
Proof. destruct b; auto. Qed.

End WorldOnly.

Ltac world_only :=
  repeat first
    [ apply world_only_ret | apply world_only_raise | apply world_only_lift
    | apply world_only_now | apply world_only_http
    | apply world_only_try | apply world_only_if
    | apply world_only_for_each; intros ?
    | apply world_only_bind; [|intros ?] ].

Section WorldOnlyMethods.
Context {E : Env}.

Lemma world_only_make_request url method :
  world_only (E := E) (make_request url method).
Proof.
  unfold make_request, raise_for_status. world_only.
Qed.

Lemma world_only_stamped fs : world_only (E := E) (stamped fs).
Proof. unfold stamped. world_only. Qed.

Lemma world_only_fetch_retail_markets lat lon city_slug :
  world_only (E := E) (fetch_retail_markets lat lon city_slug).
Proof.
  unfold fetch_retail_markets.
  apply world_only_bind; [apply world_only_make_request|]. intros data.
  world_only.
Qed.

Lemma world_only_markets_details slug :
  world_only (E := E) (Markets.fetch_venue_details slug).
Proof. apply world_only_make_request. Qed.

Lemma world_only_baku_details slug :
  world_only (E := E) (MarketsBaku.fetch_venue_details slug).
Proof.
  unfold MarketsBaku.fetch_venue_details.
  apply world_only_bind; [apply world_only_make_request|]. intros data.
  world_only.
Qed.

Lemma world_only_markets_extract d v :
  world_only (E := E) (Markets.extract_items_from_venue d v).
Proof.
  unfold Markets.extract_items_from_venue, Markets.item_record.
  apply world_only_if; [apply world_only_ret|].
  world_only.
  match goal with |- context [Markets.kdict_lookup ?i ?d] =>
    destruct (Markets.kdict_lookup i d) end;
    [|apply world_only_ret].
  apply world_only_bind; [apply world_only_stamped|]. intros ?.
  apply world_only_ret.
Qed.

Lemma world_only_baku_extract d v :
  world_only (E := E) (MarketsBaku.extract_items_from_venue d v).
Proof.
  unfold MarketsBaku.extract_items_from_venue, MarketsBaku.item_record.
  apply world_only_if; [apply world_only_ret|].
  apply world_only_bind; [apply world_only_lift|]. intros secs.
  apply world_only_if; world_only.
Qed.

End WorldOnlyMethods.

Lemma for_each_pure {E : Env} {A B} (g : A -> list B)
    (body : A -> M E (list B)) (l : list A) :
  (forall a, In a l -> forall s, body a s = (Ok (g a), s)) ->
  forall s, for_each l body s = (Ok (flat_map g l), s).
Proof.
  induction l as [|a l IH]; intros H s; simpl; [reflexivity|].
  unfold bind. rewrite (H a (or_introl eq_refl)).
  rewrite IH by (intros; apply H; right; assumption).
  reflexivity.
Qed.

Lemma map_flat_map {A B C} (f : B -> C) (g : A -> list B) (l : list A) :
  map f (flat_map g l) = flat_map (fun a => map f (g a)) l.
Proof.
  induction l as [|a l IH]; simpl; [reflexivity|].
  rewrite map_app, IH. reflexivity.
Qed.

(** X4.  When the gateway returns a listing, discovery returns the venues
    of the wrapper items that carry a ['venue'], in the order of the
    listing, each stamped with the city slug and the listing's city
    name; wrapper items without a venue are skipped and the scraper is
    left as the gateway left it. *)
Theorem discovery_keeps_venue_wrappers (E : Env) (lat lon city_slug : value)
    (secs : list listing_section) (extra : dict) (s s1 : state E) :
  Forall (fun sec => Forall plain_wrapper (snd sec)) secs ->
  make_request (retail_url E lat lon) "GET" s = (Ok (listing_doc secs extra), s1) ->
  fetch_retail_markets lat lon city_slug s
  = (Ok (map (stamp city_slug (get_str "city" extra)) (listed_venues secs)), s1).
Proof.
  intros Hplain Hreq. unfold fetch_retail_markets. fold (retail_url E lat lon).
  unfold bind at 1. rewrite Hreq. unfold listing_doc.
  change (negb (truthy (VDict (("sections", VList (map enc_listing_section secs))
                               :: extra)))) with false.
  cbv iota. rewrite get_head, bind_lift_ok.
  change (iter (VList (map enc_listing_section secs)))
    with (Ok (map enc_listing_section secs)).
  rewrite bind_lift_ok, for_each_map.
  unfold listed_venues. rewrite map_flat_map.
  apply for_each_pure. intros [sd xs] Hin s0.
  rewrite Forall_forall in Hplain. specialize (Hplain _ Hin).
  unfold enc_listing_section. cbn [fst snd] in *.
  rewrite get_head, bind_lift_ok.
  change (iter (VList (map enc_wrapper xs))) with (Ok (map enc_wrapper xs)).
  rewrite bind_lift_ok, for_each_map, map_flat_map.
  apply for_each_pure. intros x Hx s2.
  rewrite Forall_forall in Hplain. specialize (Hplain _ Hx).
  destruct x as [venue rest | d]; simpl in *.
  - reflexivity.
  - unfold bind, lift. simpl. rewrite Hplain. reflexivity.
Qed.

Lemma discovery_keeps_venue_wrappers_witness :
  fetch_retail_markets (E := env listing_only) DEFAULT_LAT DEFAULT_LON
    (VStr "baku") (init (E := env listing_only) 0%nat)
  = (Ok (map (stamp (VStr "baku") (VStr "Baku")) (listed_venues shop_listing)),
     init (E := env listing_only) 0%nat).
Proof.
  apply (discovery_keeps_venue_wrappers (env listing_only) DEFAULT_LAT
           DEFAULT_LON (VStr "baku") shop_listing [("city", VStr "Baku")]).
  - repeat constructor.
  - reflexivity.
Defined.

Lemma fetch_cities_effect (E : Env) (s s' : state E) (cities : value) :
  Markets.fetch_cities s = (Ok cities, s') ->
  self_markets s' = self_markets s
  /\ self_items s' = self_items s
  /\ ((cities = VList [] /\ self_cities s' = self_cities s)
      \/ (self_cities s' = cities /\ sized cities)).
Proof.
  unfold Markets.fetch_cities. unfold bind at 1.
  pose proof (world_only_make_request (E := E) (BASE_URL ++ "/v1/cities") "GET" s)
    as Hw.
  destruct (make_request (BASE_URL ++ "/v1/cities") "GET" s) as [[data|e] s1];
    [|discriminate].
  unfold self_part in Hw. simpl in Hw. injection Hw as Hc Hm Hi.
  unfold bind at 1.
  destruct ((if truthy data then lift (contains_str "results" data)
             else ret false) s1) as [[b|e] s2] eqn:Hb; [|discriminate].
  assert (s2 = s1) as ->.
  { destruct (truthy data); unfold lift, ret in Hb; congruence. }
  destruct b.
  - unfold bind, lift, ret.
    destruct (getitem_str data "results") as [c|e]; [|discriminate].
    destruct (len c) as [n|e] eqn:Hn; [|discriminate].
    intros H. injection H as <- <-. simpl.
    repeat split; auto. right. split; [reflexivity | exists n; exact Hn].
  - unfold ret. intros H. injection H as <- <-. auto.
Qed.

(** X5.  [fetch_cities] leaves the collected markets and items alone, and
    returns either the empty list, with [self.cities] untouched, or the
    value it has just stored in [self.cities], which then has a
    length. *)
Theorem fetch_cities_outcome (E : Env) (s s' : state E) (cities : value) :
  Markets.fetch_cities s = (Ok cities, s') ->
  self_markets s' = self_markets s
  /\ self_items s' = self_items s
  /\ ((cities = VList [] /\ self_cities s' = self_cities s)
      \/ (self_cities s' = cities /\ sized cities)).
Proof. apply fetch_cities_effect. Qed.

Lemma fetch_cities_outcome_witness :
  let r := Markets.fetch_cities (E := env shop) (init (E := env shop) 0%nat) in
  self_markets (snd r) = []
  /\ self_items (snd r) = []
  /\ ((VList [] = VList [] /\ self_cities (snd r) = VNone)
      \/ (self_cities (snd r) = VList [] /\ sized (VList []))).
Proof.
  apply (fetch_cities_outcome (env shop) (init (E := env shop) 0%nat)
           (snd (Markets.fetch_cities (E := env shop)
                   (init (E := env shop) 0%nat)))
           (VList [])).
  reflexivity.
Defined.

(** ** What the normalizers return *)

Section Inversion.
Context {E : Env}.

Lemma bind_inv {A B} (m : M E A) (k : A -> M E B) (s s' : state E) (b : B) :
  bind m k s = (Ok b, s') ->
  exists a s1, m s = (Ok a, s1) /\ k a s1 = (Ok b, s').
Proof.
  unfold bind. destruct (m s) as [[a|e] s1]; [eauto | discriminate].
Qed.

Lemma bind_lift_inv {A B} (r : res A) (k : A -> M E B) (s s' : state E) (b : B) :
  bind (lift r) k s = (Ok b, s') -> exists a, r = Ok a /\ k a s = (Ok b, s').
Proof.
  unfold bind, lift. destruct r as [a|e]; [eauto | discriminate].
Qed.

Lemma bind_log_inv {A B} (m : M E A) (r : res B) (s s' : state E) (a : A) :
  bind m (fun items => bind (lift r) (fun _ => ret items)) s = (Ok a, s') ->
  m s = (Ok a, s').
Proof.
  intros H. apply bind_inv in H as (x & s1 & Hm & H).
  apply bind_lift_inv in H as (_ & _ & H). injection H as <- <-. exact Hm.
Qed.

(** A loop whose body appends one record per element. *)
Lemma for_each_records {A B} (f : A -> M E B) (l : list A) :
  forall s s' bs,
  for_each l (fun a => bind (f a) (fun b => ret [b])) s = (Ok bs, s') ->
  Forall2 (fun a b => exists s0 s1, f a s0 = (Ok b, s1)) l bs.
Proof.
  induction l as [|a l IH]; intros s s' bs H; simpl in H.
  - injection H as <- _. constructor.
  - apply bind_inv in H as (b1 & s1 & Hb & H).
    apply bind_inv in Hb as (b & s0 & Hf & Hb). injection Hb as <- <-.
    apply bind_inv in H as (rest & s2 & Hl & H). injection H as <- _.
    simpl. constructor; [eauto | eapply IH; eauto].
Qed.

End Inversion.

Lemma eval_fields_keys fs : forall d,
  eval_fields fs = Ok d -> map fst d = map fst fs.
Proof.
  induction fs as [|[k r] fs IH]; intros d H; simpl in H.
  - injection H as <-. reflexivity.
  - apply rbind_ok in H as (v & _ & H). apply rbind_ok in H as (d' & Hd & H).
    injection H as <-. simpl. rewrite (IH d' Hd). reflexivity.
Qed.

(** A record of a dict display: its keys are those of the display, and
    each entry holds what its expression evaluates to. *)
Lemma stamped_record {E : Env} fs (s s' : state E) (p : dict) :
  stamped fs s = (Ok p, s') ->
  map fst p = (map fst fs ++ ["scraped_at"])%list
  /\ forall k r, field k fs = Some r ->
       exists v, r = Ok v /\ lookup k p = Some v.
Proof.
  intros H. apply stamped_inv in H as (d & Hd & -> & _). split.
  - rewrite map_app, (eval_fields_keys fs d Hd). reflexivity.
  - intros k r Hk. destruct (eval_fields_field fs d k r Hd Hk) as (v & Hv & Hl).
    exists v. split; [exact Hv | apply lookup_app_some; exact Hl].
Qed.

Section Schema.
Context {E : Env}.

Lemma markets_record_schema (vm : dict) (cid sn ss item : value)
    (s s' : state E) (p : dict) :
  Markets.item_record (VDict vm) cid sn ss item s = (Ok p, s') ->
  map fst p = markets_item_columns
  /\ lookup "venue_id" p = Some (get_str "id" vm)
  /\ lookup "category_id" p = Some cid
  /\ lookup "section_name" p = Some sn
  /\ lookup "section_slug" p = Some ss
  /\ get item "id" (VStr "") = Ok (match lookup "item_id" p with
                                   | Some x => x
                                   | None => VNone
                                   end).
Proof.
  intros H. apply stamped_record in H as [Hk Hf].
  split; [exact Hk|].
  destruct (Hf "venue_id" _ eq_refl) as (v1 & H1 & ->).
  destruct (Hf "category_id" _ eq_refl) as (v2 & H2 & ->).
  destruct (Hf "section_name" _ eq_refl) as (v3 & H3 & ->).
  destruct (Hf "section_slug" _ eq_refl) as (v4 & H4 & ->).
  destruct (Hf "item_id" _ eq_refl) as (v5 & H5 & ->).
  simpl in H1. injection H1 as <-. injection H2 as <-.
  injection H3 as <-. injection H4 as <-. auto.
Qed.

Lemma baku_record_schema (vm : dict) (sn ss item : value)
    (s s' : state E) (p : dict) :
  MarketsBaku.item_record (VDict vm) sn ss item s = (Ok p, s') ->
  map fst p = baku_item_columns
  /\ lookup "venue_id" p = Some (get_str "id" vm)
  /\ lookup "section_name" p = Some sn
  /\ lookup "section_slug" p = Some ss
  /\ get item "id" (VStr "") = Ok (match lookup "item_id" p with
                                   | Some x => x
                                   | None => VNone
                                   end).
Proof.
  intros H. apply stamped_record in H as [Hk Hf].
  split; [exact Hk|].
  destruct (Hf "venue_id" _ eq_refl) as (v1 & H1 & ->).
  destruct (Hf "section_name" _ eq_refl) as (v3 & H3 & ->).
  destruct (Hf "section_slug" _ eq_refl) as (v4 & H4 & ->).
  destruct (Hf "item_id" _ eq_refl) as (v5 & H5 & ->).
  simpl in H1. injection H1 as <-.
  injection H3 as <-. injection H4 as <-. auto.
Qed.

(** Every product of markets.py, whatever the document. *)
Lemma markets_products_schema (d : value) (vm : dict) (s s' : state E)
    (ps : list dict) :
  Markets.extract_items_from_venue d (VDict vm) s = (Ok ps, s') ->
  Forall (fun p => map fst p = markets_item_columns
                   /\ lookup "venue_id" p = Some (get_str "id" vm)) ps.
Proof.
  unfold Markets.extract_items_from_venue.
  destruct (negb (truthy d)).
  { intros H. injection H as <- _. constructor. }
  intros H.
  repeat (apply bind_lift_inv in H as (? & _ & H)).
  apply bind_log_inv in H. revert s ps s' H.
  apply for_each_Forall. intros section s ps s' H.
  repeat (apply bind_lift_inv in H as (? & _ & H)).
  revert s ps s' H. apply for_each_Forall. intros cat s ps s' H.
  repeat (apply bind_lift_inv in H as (? & _ & H)).
  revert s ps s' H. apply for_each_Forall. intros i s ps s' H.
  destruct (hashable i); [|discriminate].
  match type of H with context [Markets.kdict_lookup ?a ?b] =>
    destruct (Markets.kdict_lookup a b) end.
  - apply bind_inv in H as (p & s1 & Hp & H). injection H as <- _.
    apply markets_record_schema in Hp as (Hk & Hv & _).
    repeat constructor; assumption.
  - injection H as <- _. constructor.
Qed.

Lemma baku_products_schema (d : value) (vm : dict) (s s' : state E)
    (ps : list dict) :
  MarketsBaku.extract_items_from_venue d (VDict vm) s = (Ok ps, s') ->
  Forall (fun p => map fst p = baku_item_columns
                   /\ lookup "venue_id" p = Some (get_str "id" vm)) ps.
Proof.
  unfold MarketsBaku.extract_items_from_venue.
  destruct (negb (truthy d)).
  { intros H. injection H as <- _. constructor. }
  intros H. apply bind_lift_inv in H as (secs & _ & H).
  destruct (negb (truthy secs)).
  { apply bind_lift_inv in H as (? & _ & H). injection H as <- _. constructor. }
  apply bind_lift_inv in H as (? & _ & H).
  apply bind_log_inv in H. revert s ps s' H.
  apply for_each_Forall. intros section s ps s' H.
  repeat (apply bind_lift_inv in H as (? & _ & H)).
  revert s ps s' H. apply for_each_Forall. intros item s ps s' H.
  apply bind_inv in H as (p & s1 & Hp & H). injection H as <- _.
  apply baku_record_schema in Hp as (Hk & Hv & _).
  repeat constructor; assumption.
Qed.

End Schema.

(** X6.  Whatever the catalog document, every product a normalizer
    returns for a venue has the same columns in the same order (36 in
    markets.py, the same without [category_id] in markets_baku.py) and
    carries the venue's id under [venue_id]. *)
Theorem products_schema (E : Env) (d : value) (vm : dict) (s s' : state E)
    (ps : list dict) :
  (Markets.extract_items_from_venue d (VDict vm) s = (Ok ps, s') ->
   Forall (fun p => map fst p = markets_item_columns
                    /\ lookup "venue_id" p = Some (get_str "id" vm)) ps)
  /\ (MarketsBaku.extract_items_from_venue d (VDict vm) s = (Ok ps, s') ->
      Forall (fun p => map fst p = baku_item_columns
                       /\ lookup "venue_id" p = Some (get_str "id" vm)) ps).
Proof.
  split; [apply markets_products_schema | apply baku_products_schema].
Qed.

Lemma products_schema_witness :
  Forall (fun p => map fst p = markets_item_columns
                   /\ lookup "venue_id" p = Some (VStr "v2"))
    (products_of (fst kiosk_A)).
Proof.
  apply (proj1 (products_schema (env down) docA kiosk
                  (init (E := env down) 0%nat) (snd kiosk_A)
                  (products_of (fst kiosk_A)))).
  reflexivity.
Defined.

(** X7.  On a Shape B document markets_baku.py returns one product per
    embedded item, in the order of the document, each under the name and
    the slug of the section it is embedded in. *)
Theorem inline_items_attributed (E : Env) (secs : list sectionB)
    (extra vm : dict) (s s' : state E) (ps : list dict) :
  MarketsBaku.extract_items_from_venue (documentB secs extra) (VDict vm) s
  = (Ok ps, s') ->
  map (lookup "section_name") ps
  = map (fun si => Some (get_str "name" (fst si))) (inline_items secs)
  /\ map (lookup "section_slug") ps
     = map (fun si => Some (get_str "slug" (fst si))) (inline_items secs).
Proof.
  rewrite baku_walks_inline. intros H.
  apply (for_each_records
           (fun si => MarketsBaku.item_record (VDict vm)
                        (get_str "name" (fst si)) (get_str "slug" (fst si))
                        (snd si))) in H.
  induction H as [|si p l ps' (s0 & s1 & Hp) _ [IH1 IH2]]; simpl;
    [split; reflexivity|].
  apply baku_record_schema in Hp as (_ & _ & Hn & Hs & _).
  rewrite Hn, Hs, IH1, IH2. split; reflexivity.
Qed.

Lemma inline_items_attributed_witness :
  map (lookup "section_name") (products_of (fst kiosk_B))
  = map (fun si => Some (get_str "name" (fst si))) (inline_items sectionsB)
  /\ map (lookup "section_slug") (products_of (fst kiosk_B))
     = map (fun si => Some (get_str "slug" (fst si))) (inline_items sectionsB).
Proof.
  apply (inline_items_attributed (env down) sectionsB [] kiosk
           (init (E := env down) 0%nat) (snd kiosk_B)
           (products_of (fst kiosk_B))).
  reflexivity.
Defined.

Lemma find_none_existsb (i : ident) (pool : list entry) :
  find (fun e : entry => ident_eqb i (fst e)) (rev pool) = None ->
  existsb (ident_eqb i) (map fst pool) = false.
Proof.
  intros H. destruct (existsb (ident_eqb i) (map fst pool)) eqn:Hex;
    [|reflexivity].
  apply existsb_exists in Hex as (j & Hin & Hj).
  apply in_map_iff in Hin as (e & <- & Hin).
  apply in_rev in Hin.
  pose proof (find_none _ _ H e Hin) as Hn. simpl in Hn. congruence.
Qed.

Lemma find_some_existsb (i : ident) (pool : list entry) (e : entry) :
  find (fun e : entry => ident_eqb i (fst e)) (rev pool) = Some e ->
  fst e = i /\ existsb (ident_eqb i) (map fst pool) = true.
Proof.
  intros H. apply find_some in H as [Hin Hi].
  destruct (ident_eqb_spec i (fst e)) as [->|]; [|discriminate].
  split; [reflexivity|]. apply existsb_exists. exists (fst e). split.
  - apply in_map. apply in_rev. exact Hin.
  - destruct (ident_eqb_spec (fst e) (fst e)); [reflexivity | contradiction].
Qed.

(** The ids of the pool entries the walk resolves. *)
Lemma resolved_items_ids (pool : list entry) (secs : list sectionA) :
  map (fun t => get (snd t) "id" (VStr "")) (resolved_items (index pool) secs)
  = map (fun i => Ok (enc_ident i))
      (filter (fun i => existsb (ident_eqb i) (map fst pool)) (listed_ids secs)).
Proof.
  unfold resolved_items, listed_ids.
  induction secs as [|[sd cats] secs IH]; simpl; [reflexivity|].
  rewrite map_app, filter_app, map_app, IH. f_equal. clear IH.
  induction cats as [|[cd ids] cats IH]; simpl; [reflexivity|].
  rewrite map_app, filter_app, map_app, IH. f_equal. clear IH.
  induction ids as [|i ids IH]; simpl; [reflexivity|].
  rewrite map_app, IH, index_resolves_last.
  match goal with |- context [find ?f (rev pool)] =>
    destruct (find f (rev pool)) as [e|] eqn:Hf end.
  - apply find_some_existsb in Hf as [<- ->]. reflexivity.
  - apply find_none_existsb in Hf. rewrite Hf. reflexivity.
Qed.

(** X8.  On a Shape A document the products of markets.py are, in the
    order the categories list them, those of the listed item ids that
    the pool holds: an id without a pool entry gives no product, a pool
    entry no category lists gives none either, and an id listed twice
    gives two. *)
Theorem listed_ids_resolved (E : Env) (pool : list entry)
    (secs : list sectionA) (extra vm : dict) (s s' : state E) (ps : list dict) :
  Markets.extract_items_from_venue (documentA pool secs extra) (VDict vm) s
  = (Ok ps, s') ->
  map (lookup "item_id") ps
  = map (fun i => Some (enc_ident i))
      (filter (fun i => existsb (ident_eqb i) (map fst pool)) (listed_ids secs)).
Proof.
  rewrite markets_walks_index. intros H.
  apply (for_each_records
           (fun t : dict * dict * value =>
              Markets.item_record (VDict vm) (get_str "id" (snd (fst t)))
                (get_str "name" (fst (fst t))) (get_str "slug" (fst (fst t)))
                (snd t))) in H.
  rewrite <- (map_map enc_ident Some).
  assert (Hids : map (fun p => Ok (match lookup "item_id" p with
                                   | Some x => x
                                   | None => VNone
                                   end)) ps
                 = map (fun t => get (snd t) "id" (VStr ""))
                     (resolved_items (index pool) secs)
                 /\ Forall (fun p => lookup "item_id" p <> None) ps).
  { induction H as [|t p l ps' (s0 & s1 & Hp) _ [IH1 IH2]]; simpl;
      [split; [reflexivity | constructor]|].
    pose proof Hp as Hq.
    apply markets_record_schema in Hp as (_ & _ & _ & _ & _ & Hid).
    apply stamped_record in Hq as [_ Hf].
    destruct (Hf "item_id" _ eq_refl) as (v & _ & Hv).
    rewrite Hid, IH1. split; [reflexivity|].
    constructor; [congruence | exact IH2]. }
  destruct Hids as [Hids Hsome]. rewrite resolved_items_ids in Hids.
  clear H. revert Hids Hsome.
  generalize (filter (fun i => existsb (ident_eqb i) (map fst pool))
                (listed_ids secs)) as ids.
  induction ps as [|p ps IH]; intros [|i ids] Hids Hsome; simpl in *;
    try discriminate; [reflexivity|].
  injection Hids as Hp Hids. inversion Hsome as [|? ? Hne Hrest]; subst.
  destruct (lookup "item_id" p) as [x|]; [|contradiction].
  rewrite Hp. f_equal. apply IH; assumption.
Qed.

Lemma listed_ids_resolved_witness :
  map (lookup "item_id") (products_of (fst kiosk_A))
  = map (fun i => Some (enc_ident i))
      (filter (fun i => existsb (ident_eqb i) (map fst poolA))
         (listed_ids sectionsA)).
Proof.
  apply (listed_ids_resolved (env down) poolA sectionsA [] kiosk
           (init (E := env down) 0%nat) (snd kiosk_A)
           (products_of (fst kiosk_A))).
  reflexivity.
Defined.

(** ** What a crawl adds to the scraper *)

Lemma self_part_eq {E : Env} (s s' : state E) :
  self_part s' = self_part s ->
  self_cities s' = self_cities s /\ self_markets s' = self_markets s
  /\ self_items s' = self_items s.
Proof. unfold self_part. intros H. injection H as -> -> ->. auto. Qed.

Lemma references_weaken (recs recs' : list dict) (p : dict) :
  (forall rec, In rec recs -> In rec recs') ->
  references recs p -> references recs' p.
Proof. intros H (rec & Hin & Heq). exists rec. split; auto. Qed.

Section Crawl.
Context {E : Env}.
Variable fetch : value -> M E value.
Variable extract : value -> value -> M E (list dict).
Variable cols : list string.
Hypothesis Hfetch : forall v, world_only (fetch v).
Hypothesis Hextract : forall d m, world_only (extract d m).
Hypothesis Hschema : forall d vm s ps s',
  extract d (VDict vm) s = (Ok ps, s') ->
  Forall (fun p => map fst p = cols
                   /\ lookup "venue_id" p = Some (get_str "id" vm)) ps.

Lemma process_market_effect (cn cs market : value) (s s' : state E)
    (r : res unit) :
  process_market fetch extract cn cs market s = (r, s') ->
  self_cities s' = self_cities s
  /\ ((r <> Ok tt /\ self_markets s' = self_markets s
       /\ self_items s' = self_items s)
      \/ exists rec items,
           recorded market rec
           /\ self_markets s' = (self_markets s ++ [rec])%list
           /\ self_items s' = (self_items s ++ items)%list
           /\ Forall (fun p => map fst p = cols /\ references [rec] p) items).
Proof.
  unfold process_market. intros H.
  destruct market as [| | | | | |vm];
    try (injection H as <- <-;
         split; [reflexivity | left; split; [discriminate | split; reflexivity]]).
  rewrite !get_get_str, !bind_lift_ok in H. unfold bind in H.
  pose proof (world_only_stamped
                (market_fields cn cs (VDict vm) (get_str "name" vm)
                   (get_str "slug" vm)) s) as Hw.
  destruct (stamped _ s) as [[rec|e] s1] eqn:Hrec; simpl in Hw;
    apply self_part_eq in Hw as (Hc1 & Hm1 & Hi1).
  2: { injection H as <- <-.
       split; [exact Hc1 | left; split; [discriminate | split; assumption]]. }
  assert (Hrecorded : recorded (VDict vm) rec).
  { apply stamped_record in Hrec as [Hk Hf].
    destruct (Hf "venue_id" _ eq_refl) as (v & Hv & Hl).
    exists vm. repeat split; [exact Hk|]. simpl in Hv. injection Hv as <-.
    exact Hl. }
  unfold append_market in H. cbv beta iota in H.
  set (s2 := mkState (world s1) (self_cities s1)
               (self_markets s1 ++ [rec])%list (self_items s1)) in H.
  pose proof (Hfetch (get_str "slug" vm) s2) as Hw.
  destruct (fetch (get_str "slug" vm) s2) as [[vd|e] s3];
    simpl in Hw; apply self_part_eq in Hw as (Hc3 & Hm3 & Hi3);
    subst s2; simpl in Hc3, Hm3, Hi3.
  2: { injection H as <- <-. split; [congruence|]. right. exists rec, [].
       rewrite app_nil_r. repeat split; [exact Hrecorded | congruence..|].
       constructor. }
  destruct (truthy vd).
  2: { unfold ret in H. injection H as <- <-.
       split; [congruence|]. right. exists rec, [].
       rewrite app_nil_r. repeat split; [exact Hrecorded | congruence..|].
       constructor. }
  pose proof (Hextract vd (VDict vm) s3) as Hw.
  destruct (extract vd (VDict vm) s3) as [[ps|e] s4] eqn:Hps;
    simpl in Hw; apply self_part_eq in Hw as (Hc4 & Hm4 & Hi4).
  2: { injection H as <- <-. split; [congruence|]. right. exists rec, [].
       rewrite app_nil_r. repeat split; [exact Hrecorded | congruence..|].
       constructor. }
  unfold extend_items in H. injection H as <- <-. simpl.
  split; [congruence|]. right. exists rec, ps.
  repeat split; [exact Hrecorded | congruence | congruence |].
  apply Hschema in Hps. destruct Hrecorded as (vm' & Hvm & _ & Hid).
  injection Hvm as <-.
  eapply Forall_impl; [|exact Hps]. intros p [Hk Hv]. split; [exact Hk|].
  exists rec. split; [left; reflexivity|]. split; congruence.
Qed.

Lemma loop_effect (cn cs : value) (markets : list value) :
  forall s,
  crawl_effect cols markets
    (fst (for_loop markets (process_market fetch extract cn cs) s)) s
    (snd (for_loop markets (process_market fetch extract cn cs) s)).
Proof.
  induction markets as [|market markets IH]; intros s.
  - simpl. split; [reflexivity|]. exists [], [], [], [].
    rewrite !app_nil_r. repeat split; constructor.
  - simpl. unfold bind.
    destruct (process_market fetch extract cn cs market s) as [r1 s1] eqn:Hpm.
    apply process_market_effect in Hpm as [Hc Hp].
    destruct Hp as [(Hr & Hm & Hi) | (rec & items & Hrec & Hm & Hi & Hitems)].
    + destruct r1 as [[]|e]; [contradiction|]. simpl.
      split; [exact Hc|]. exists [], [], [], (market :: markets).
      rewrite !app_nil_r. repeat split; try assumption; try constructor.
      discriminate.
    + destruct r1 as [[]|e].
      * specialize (IH s1). destruct IH as [Hc' IH].
        destruct IH as (recs & items' & done & rest & Hm' & Hi' & Hsplit & Hdone
                        & Hitems' & Hok).
        split; [congruence|].
        exists (rec :: recs), (items ++ items')%list, (market :: done), rest.
        repeat split.
        -- rewrite Hm', Hm, <- app_assoc. reflexivity.
        -- rewrite Hi', Hi, <- app_assoc. reflexivity.
        -- rewrite Hsplit. reflexivity.
        -- constructor; assumption.
        -- apply Forall_app. split.
           ++ eapply Forall_impl; [|exact Hitems]. intros p [Hk Hr].
              split; [exact Hk|]. eapply references_weaken; [|exact Hr].
              intros x [<-|[]]. left. reflexivity.
           ++ eapply Forall_impl; [|exact Hitems']. intros p [Hk Hr].
              split; [exact Hk|]. eapply references_weaken; [|exact Hr].
              intros x Hx. right. exact Hx.
        -- exact Hok.
      * simpl. split; [exact Hc|].
        exists [rec], items, [market], markets. repeat split; try assumption.
        -- constructor; [exact Hrec | constructor].
        -- discriminate.
Qed.

End Crawl.

Lemma markets_crawl_effect {E : Env} (cn cs : value) (markets : list value)
    (s : state E) :
  crawl_effect markets_item_columns markets
    (fst (Markets.scrape_city_markets cn cs markets s)) s
    (snd (Markets.scrape_city_markets cn cs markets s)).
Proof.
  apply loop_effect.
  - intros v. apply world_only_markets_details.
  - intros d m. apply world_only_markets_extract.
  - intros d vm s0 ps s'. apply markets_products_schema.
Qed.

Lemma baku_crawl_effect {E : Env} (cn cs : value) (markets : list value)
    (s : state E) :
  crawl_effect baku_item_columns markets
    (fst (MarketsBaku.scrape_market_list cn cs markets s)) s
    (snd (MarketsBaku.scrape_market_list cn cs markets s)).
Proof.
  apply loop_effect.
  - intros v. apply world_only_baku_details.
  - intros d m. apply world_only_baku_extract.
  - intros d vm s0 ps s'. apply baku_products_schema.
Qed.

(** X9.  A crawl only appends: however it ends, with an exception too,
    the records and products collected before are still there, in front
    of at most one new venue record per venue, and [self.cities] is as it
    was. *)
Theorem crawl_appends_only (E : Env) (cn cs : value) (markets : list value)
    (s : state E) :
  (let s' := snd (Markets.scrape_city_markets cn cs markets s) in
   self_cities s' = self_cities s
   /\ exists recs items,
        self_markets s' = (self_markets s ++ recs)%list
        /\ self_items s' = (self_items s ++ items)%list
        /\ (List.length recs <= List.length markets)%nat)
  /\ (let s' := snd (MarketsBaku.scrape_market_list cn cs markets s) in
      self_cities s' = self_cities s
      /\ exists recs items,
           self_markets s' = (self_markets s ++ recs)%list
           /\ self_items s' = (self_items s ++ items)%list
           /\ (List.length recs <= List.length markets)%nat).
Proof.
  assert (Hgen : forall cols r (s' : state E),
            crawl_effect cols markets r s s' ->
            self_cities s' = self_cities s
            /\ exists recs items,
                 self_markets s' = (self_markets s ++ recs)%list
                 /\ self_items s' = (self_items s ++ items)%list
                 /\ (List.length recs <= List.length markets)%nat).
  { intros cols r s' [Hc (recs & items & done & rest & Hm & Hi & Hsplit & Hdone
                           & _)].
    split; [exact Hc|]. exists recs, items. repeat split; try assumption.
    rewrite Hsplit, length_app, (Forall2_length Hdone). lia. }
  split; cbv zeta; eapply Hgen;
    [apply markets_crawl_effect | apply baku_crawl_effect].
Qed.

(** X10.  A crawl that completes has appended exactly one record per
    discovered venue, in the order of discovery, each with the venue
    columns and the venue's id. *)
Theorem completed_crawl_records_every_venue (E : Env) (cn cs : value)
    (markets : list value) (s s' : state E) :
  (Markets.scrape_city_markets cn cs markets s = (Ok tt, s')
   \/ MarketsBaku.scrape_market_list cn cs markets s = (Ok tt, s')) ->
  exists recs,
    self_markets s' = (self_markets s ++ recs)%list
    /\ Forall2 recorded markets recs.
Proof.
  intros H.
  assert (Hce : exists cols, crawl_effect cols markets (Ok tt) s s').
  { destruct H as [H|H].
    - exists markets_item_columns.
      pose proof (markets_crawl_effect cn cs markets s) as Hc.
      rewrite H in Hc. exact Hc.
    - exists baku_item_columns.
      pose proof (baku_crawl_effect cn cs markets s) as Hc.
      rewrite H in Hc. exact Hc. }
  destruct Hce as (cols & _ & recs & items & done & rest & Hm & _ & Hsplit
                   & Hdone & _ & Hok).
  rewrite (Hok eq_refl), app_nil_r in Hsplit. subst done. eauto.
Qed.

Lemma completed_crawl_records_every_venue_witness :
  exists recs,
    self_markets (snd shop_crawl_baku) = ([] ++ recs)%list
    /\ Forall2 recorded shop_venues recs.
Proof.
  apply (completed_crawl_records_every_venue (env shop) (VStr "Baku")
           (VStr "baku") shop_venues (init (E := env shop) 0%nat)
           (snd shop_crawl_baku)).
  right. reflexivity.
Defined.

(** X11.  Every product a crawl appends has the product columns of its
    script and names, under [venue_id], a venue whose record the same
    crawl appended: no product is left without its venue, also when the
    crawl ends with an exception. *)
Theorem crawl_products_reference_venues (E : Env) (cn cs : value)
    (markets : list value) (s : state E) :
  (let s' := snd (Markets.scrape_city_markets cn cs markets s) in
   exists recs items,
     self_markets s' = (self_markets s ++ recs)%list
     /\ self_items s' = (self_items s ++ items)%list
     /\ Forall (fun p => map fst p = markets_item_columns
                         /\ references recs p) items)
  /\ (let s' := snd (MarketsBaku.scrape_market_list cn cs markets s) in
      exists recs items,
        self_markets s' = (self_markets s ++ recs)%list
        /\ self_items s' = (self_items s ++ items)%list
        /\ Forall (fun p => map fst p = baku_item_columns
                            /\ references recs p) items).
Proof.
  split; cbv zeta.
  - destruct (markets_crawl_effect cn cs markets s)
      as [_ (recs & items & done & rest & Hm & Hi & _ & _ & Hitems & _)].
    eauto.
  - destruct (baku_crawl_effect cn cs markets s)
      as [_ (recs & items & done & rest & Hm & Hi & _ & _ & Hitems & _)].
    eauto.
Qed.

(** X12.  A venue whose ['location'] list has fewer than two entries
    stops the crawl with [IndexError] at its latitude, before the venue
    is recorded, the clock read or its catalog requested: nothing
    changes, and the venues after it are not visited. *)
Theorem short_location_stops_crawl (E : Env) (cn cs : value) (vm : dict)
    (l : list value) (rest : list value) (s : state E) :
  lookup "location" vm = Some (VList l) -> (List.length l < 2)%nat ->
  Markets.scrape_city_markets cn cs (VDict vm :: rest) s = (Raise IndexError, s)
  /\ MarketsBaku.scrape_market_list cn cs (VDict vm :: rest) s
     = (Raise IndexError, s).
Proof.
  intros Hloc Hlen.
  assert (Hrec : forall name slug,
            stamped (market_fields cn cs (VDict vm) name slug) s
            = (Raise IndexError, s)).
  { intros name slug. unfold stamped, bind, lift, market_fields. simpl.
    rewrite Hloc.
    destruct l as [|x [|y l']]; [reflexivity | reflexivity | simpl in Hlen; lia]. }
  unfold Markets.scrape_city_markets, MarketsBaku.scrape_market_list.
  split; cbn [for_loop]; unfold bind at 1, process_market;
    rewrite !get_get_str, !bind_lift_ok; unfold bind at 1;
    rewrite Hrec; reflexivity.
Qed.

Lemma short_location_stops_crawl_witness :
  Markets.scrape_city_markets (E := env shop) (VStr "Baku") (VStr "baku")
    [VDict lost_venue; VDict kiosk] (init (E := env shop) 0%nat)
  = (Raise IndexError, init (E := env shop) 0%nat)
  /\ MarketsBaku.scrape_market_list (E := env shop) (VStr "Baku") (VStr "baku")
       [VDict lost_venue; VDict kiosk] (init (E := env shop) 0%nat)
     = (Raise IndexError, init (E := env shop) 0%nat).
Proof.
  apply (short_location_stops_crawl (env shop) (VStr "Baku") (VStr "baku")
           lost_venue [VFloat (b64 (4984 # 100))] [VDict kiosk]);
    [reflexivity | simpl; lia].
Defined.

(** ** Discovery that finds nothing *)

Lemma make_request_outage {E : Env} (url : string) (s : state E) :
  outage E ->
  exists w', make_request url "GET" s = (Ok VNone, set_world w' s).
Proof.
  intros Hout. destruct (Hout url (world s)) as (e & w' & Hget & He).
  exists w'. rewrite (make_request_run url "GET" s (or_introl eq_refl)).
  unfold session_call. simpl. rewrite Hget. simpl. rewrite He. reflexivity.
Qed.

Lemma fetch_retail_markets_outage {E : Env} (lat lon city_slug : value)
    (s : state E) :
  outage E ->
  exists w', fetch_retail_markets lat lon city_slug s = (Ok [], set_world w' s).
Proof.
  intros Hout. unfold fetch_retail_markets, bind.
  destruct (make_request_outage
              (CONSUMER_API_URL ++ "/v1/pages/retail?lat=" ++ str E lat
               ++ "&lon=" ++ str E lon) s Hout) as (w' & ->).
  exists w'. reflexivity.
Qed.

Lemma fetch_cities_outage {E : Env} (s : state E) :
  outage E ->
  exists w', Markets.fetch_cities s = (Ok (VList []), set_world w' s).
Proof.
  intros Hout. unfold Markets.fetch_cities. unfold bind at 1.
  destruct (make_request_outage (BASE_URL ++ "/v1/cities") s Hout) as (w1 & ->).
  exists w1. reflexivity.
Qed.

Lemma bind_ret_tt {E : Env} (m : M E unit) (s : state E) :
  bind m (fun _ => ret tt) s = m s.
Proof. unfold bind, ret. destruct (m s) as [[[]|e] s1]; reflexivity. Qed.

Lemma scrape_all_markets_fallback {E : Env} (s s1 : state E) (cities : value) :
  Markets.fetch_cities s = (Ok cities, s1) -> truthy cities = false ->
  Markets.scrape_all_markets s
  = bind (fetch_retail_markets DEFAULT_LAT DEFAULT_LON (VStr "baku"))
         (Markets.scrape_city_markets (VStr "Baku") (VStr "baku")) s1.
Proof.
  intros Hc Hf. unfold Markets.scrape_all_markets. unfold bind at 1.
  rewrite Hc. cbv zeta. rewrite Hf.
  change (iter (VList [Markets.default_city])) with (Ok [Markets.default_city]).
  rewrite bind_lift_ok. cbn [for_loop].
  rewrite bind_ret_tt. unfold Markets.default_city.
  rewrite !(get_head "slug"), bind_lift_ok.
  rewrite (get_skip "slug"), (get_head "name"), bind_lift_ok by reflexivity.
  rewrite !(get_skip "slug"), !(get_skip "name"), (get_head "location"),
    bind_lift_ok by reflexivity.
  rewrite get_head, bind_lift_ok.
  cbn [getitem_idx nth_error]. rewrite !bind_lift_ok. reflexivity.
Qed.

(** X13.  When every request fails, both orchestrators return normally
    and leave the scraper as it was: markets_baku.py stops after the
    empty discovery, markets.py after the empty discovery of the default
    city it falls back to. *)
Theorem outage_ends_quietly (E : Env) (target_city : string) (s : state E) :
  outage E ->
  (exists s', MarketsBaku.scrape_markets target_city s = (Ok tt, s')
              /\ self_part s' = self_part s)
  /\ (exists s', Markets.scrape_all_markets s = (Ok tt, s')
                 /\ self_part s' = self_part s).
Proof.
  intros Hout. split.
  - unfold MarketsBaku.scrape_markets, bind.
    destruct (fetch_retail_markets_outage DEFAULT_LAT DEFAULT_LON
                (VStr target_city) s Hout) as (w' & ->).
    eexists. split; reflexivity.
  - destruct (fetch_cities_outage s Hout) as (w1 & Hc).
    rewrite (scrape_all_markets_fallback s _ _ Hc eq_refl).
    unfold bind.
    destruct (fetch_retail_markets_outage DEFAULT_LAT DEFAULT_LON (VStr "baku")
                (set_world w1 s) Hout) as (w2 & ->).
    eexists. split; reflexivity.
Qed.

Lemma outage_ends_quietly_witness :
  (exists s', MarketsBaku.scrape_markets (E := env down) "baku"
                (init (E := env down) 0%nat) = (Ok tt, s')
              /\ self_part s' = self_part (init (E := env down) 0%nat))
  /\ (exists s', Markets.scrape_all_markets (E := env down)
                   (init (E := env down) 0%nat) = (Ok tt, s')
                 /\ self_part s' = self_part (init (E := env down) 0%nat)).
Proof.
  apply (outage_ends_quietly (env down) "baku" (init (E := env down) 0%nat)).
  intros url w. exists ConnectionError, w. split; reflexivity.
Defined.

(** X14.  When [fetch_cities] comes back empty, [scrape_all_markets]
    crawls the one default city: it discovers at the default latitude
    and longitude with the slug "baku" and crawls what it finds under
    the city name "Baku", which is the request markets_baku.py makes for
    its default target. *)
Theorem empty_city_list_falls_back (E : Env) (s s1 : state E) (cities : value) :
  Markets.fetch_cities s = (Ok cities, s1) -> truthy cities = false ->
  Markets.scrape_all_markets s
  = bind (fetch_retail_markets DEFAULT_LAT DEFAULT_LON (VStr "baku"))
         (Markets.scrape_city_markets (VStr "Baku") (VStr "baku")) s1.
Proof. apply scrape_all_markets_fallback. Qed.

Lemma empty_city_list_falls_back_witness :
  Markets.scrape_all_markets (E := env shop) (init (E := env shop) 0%nat)
  = bind (fetch_retail_markets DEFAULT_LAT DEFAULT_LON (VStr "baku"))
         (Markets.scrape_city_markets (VStr "Baku") (VStr "baku"))
         (init (E := env shop) 0%nat).
Proof.
  apply (empty_city_list_falls_back (env shop) (init (E := env shop) 0%nat)
           (init (E := env shop) 0%nat) (VList []));
    reflexivity.
Defined.

(** ** Saving *)

Import Persist.

Lemma read_store_same (path : string) (f : file) (fs : disk) :
  read path (store path f fs) = Some f.
Proof.
  induction fs as [|[p g] fs IH]; simpl.
  - rewrite String.eqb_refl. reflexivity.
  - destruct (String.eqb path p) eqn:Hp; simpl.
    + rewrite Hp. reflexivity.
    + rewrite Hp. exact IH.
Qed.

Lemma read_store_other (path q : string) (f : file) (fs : disk) :
  path <> q -> read path (store q f fs) = read path fs.
Proof.
  intros Hne. induction fs as [|[p g] fs IH]; simpl.
  - destruct (String.eqb_spec path q); [contradiction | reflexivity].
  - destruct (String.eqb_spec q p) as [<-|Hq]; simpl.
    + destruct (String.eqb_spec path q); [contradiction | reflexivity].
    + rewrite IH. reflexivity.
Qed.

Lemma store_store (path : string) (f g : file) (fs : disk) :
  store path g (store path f fs) = store path g fs.
Proof.
  induction fs as [|[p h] fs IH]; simpl.
  - rewrite String.eqb_refl. reflexivity.
  - destruct (String.eqb path p) eqn:Hp; simpl; rewrite Hp; [reflexivity|].
    rewrite IH. reflexivity.
Qed.

Lemma wrong_fields_same (cols : list string) (r : dict) :
  map fst r = cols -> wrong_fields cols r = [].
Proof.
  intros <-. unfold wrong_fields.
  assert (H : forall l, (forall k, In k l -> In k (map fst r)) ->
            filter (fun k => negb (existsb (String.eqb k) (map fst r))) l = []).
  { induction l as [|k l IH]; intros Hl; simpl; [reflexivity|].
    assert (Hk : existsb (String.eqb k) (map fst r) = true).
    { apply existsb_exists. exists k. split; [apply Hl; left; reflexivity|].
      apply String.eqb_refl. }
    rewrite Hk. simpl. apply IH. intros k' Hk'. apply Hl. right. exact Hk'. }
  apply H. auto.
Qed.

Lemma lookup_nodup (k : string) (v : value) (r : dict) :
  ~ In k (map fst r) -> forall k', In k' (map fst r) ->
  lookup k' ((k, v) :: r) = lookup k' r.
Proof.
  intros Hk k' Hk'. simpl.
  destruct (String.eqb_spec k' k) as [->|_]; [contradiction | reflexivity].
Qed.

(** The cells of a row are the values of the record, in its own order. *)
Lemma cells_of_record (r : dict) :
  NoDup (map fst r) ->
  map (fun k => match lookup k r with Some v => v | None => VStr "" end)
    (map fst r)
  = map snd r.
Proof.
  induction r as [|[k v] r IH]; intros Hnd; [reflexivity|].
  inversion Hnd as [|? ? Hk Hnd']; subst.
  cbn [map fst snd]. f_equal.
  - simpl. rewrite String.eqb_refl. reflexivity.
  - rewrite <- (IH Hnd'). apply map_ext_in. intros k' Hk'.
    rewrite (lookup_nodup k v r Hk k' Hk'). reflexivity.
Qed.

Lemma dict_to_list_same (cols : list string) (r : dict) :
  map fst r = cols -> NoDup cols -> dict_to_list cols r = Ok (map snd r).
Proof.
  intros Hk Hnd. unfold dict_to_list. rewrite (wrong_fields_same cols r Hk).
  subst cols. rewrite (cells_of_record r Hnd). reflexivity.
Qed.

Section Writing.
Context {E : Env}.

Lemma append_run (path : string) (x : chunk) (f : file) (s : state E)
    (fs : disk) :
  encodes x = true ->
  append path x (s, store path f fs)
  = (Ok tt, (s, store path (f ++ [x])%list fs)).
Proof.
  intros Hx. unfold append. rewrite Hx. simpl.
  rewrite read_store_same, store_store. reflexivity.
Qed.

Lemma write_lines_run (path : string) (lines : list string) :
  encodes_all (map Text lines) ->
  forall (f : file) (s : state E) (fs : disk),
  write_lines path lines (s, store path f fs)
  = (Ok tt, (s, store path (f ++ map Text lines)%list fs)).
Proof.
  induction lines as [|l lines IH]; intros Hl f s fs; simpl.
  - rewrite app_nil_r. reflexivity.
  - inversion Hl as [|? ? Hx Hrest]; subst.
    unfold io_bind. rewrite (append_run _ _ _ _ _ Hx), (IH Hrest), <- app_assoc.
    reflexivity.
Qed.

Lemma writerows_run (path : string) (cols : list string) (rows : list dict) :
  NoDup cols -> Forall (fun r => map fst r = cols) rows ->
  encodes_all (map (fun r : dict => Row (map snd r)) rows) ->
  forall (f : file) (s : state E) (fs : disk),
  writerows path cols rows (s, store path f fs)
  = (Ok tt, (s, store path (f ++ map (fun r : dict => Row (map snd r)) rows)%list
                   fs)).
Proof.
  intros Hnd Hrows. induction Hrows as [|r rows Hr _ IH]; intros He f s fs;
    simpl.
  - rewrite app_nil_r. reflexivity.
  - inversion_clear He as [|? ? Hx Hrest].
    unfold io_bind, io_res. rewrite (dict_to_list_same cols r Hr Hnd).
    rewrite (append_run _ _ _ _ _ Hx), (IH Hrest), <- app_assoc. reflexivity.
Qed.

(** What [if records: ... writer.writerows(records)] leaves on disk. *)
Lemma write_table_run (path : string) (cols : list string)
    (records : list dict) (s : state E) (fs : disk) :
  NoDup cols -> Forall (fun r => map fst r = cols) records ->
  writable E path = true -> encodes_all (table cols records) ->
  exists fs',
    match records with
    | [] => io_ret tt
    | _ => write_csv path records
    end (s, fs) = (Ok tt, (s, fs'))
    /\ read path fs' = saved cols records (read path fs)
    /\ forall q, q <> path -> read q fs' = read q fs.
Proof.
  intros Hnd Hrows Hw He. destruct records as [|first rest].
  - exists fs. repeat split.
  - inversion Hrows as [|? ? Hfirst Hrest]; subst.
    inversion He as [|? ? Hhead Hbody]; subst.
    exists (store path (table (map fst first) (first :: rest)) fs).
    split; [|split].
    + unfold write_csv, io_bind, open_w, writeheader. rewrite Hw.
      cbn [fst snd].
      rewrite (append_run _ _ _ _ _ Hhead). cbn [app].
      rewrite (writerows_run path (map fst first) (first :: rest) Hnd Hrows
                 Hbody).
      reflexivity.
    + rewrite read_store_same. reflexivity.
    + intros q Hq. apply read_store_other. exact Hq.
Qed.

(** *** Which files an action can touch *)

Lemma confined_weaken {A} (ps qs : list string) (m : IO E A) :
  incl ps qs -> confined ps m -> confined qs m.
Proof. intros Hi Hm sd q Hq. apply Hm. intros H. apply Hq, Hi, H. Qed.

Lemma confined_ret {A} (ps : list string) (a : A) :
  confined (E := E) ps (io_ret a).
Proof. intros sd q _. reflexivity. Qed.

Lemma confined_res {A} (ps : list string) (r : res A) :
  confined (E := E) ps (io_res r).
Proof. intros sd q _. reflexivity. Qed.

Lemma confined_self (ps : list string) : confined (E := E) ps self.
Proof. intros sd q _. reflexivity. Qed.

Lemma confined_lift {A} (ps : list string) (m : M E A) :
  confined ps (io_lift m).
Proof. intros sd q _. unfold io_lift. destruct (m (fst sd)). reflexivity. Qed.

Lemma confined_bind {A B} (ps : list string) (m : IO E A) (k : A -> IO E B) :
  confined ps m -> (forall a, confined ps (k a)) -> confined ps (io_bind m k).
Proof.
  intros Hm Hk sd q Hq. unfold io_bind. specialize (Hm sd q Hq).
  destruct (m sd) as [[a|e] sd1]; simpl in *; [|exact Hm].
  rewrite (Hk a sd1 q Hq). exact Hm.
Qed.

Lemma confined_open (path : string) : confined (E := E) [path] (open_w path).
Proof.
  intros [s fs] q Hq. unfold open_w. destruct (writable E path); simpl;
    [|reflexivity].
  apply read_store_other. intros ->. apply Hq. left. reflexivity.
Qed.

Lemma confined_append (path : string) (x : chunk) :
  confined (E := E) [path] (append path x).
Proof.
  intros [s fs] q Hq. unfold append. destruct (encodes x); simpl;
    [|reflexivity].
  apply read_store_other. intros ->. apply Hq. left. reflexivity.
Qed.

Lemma confined_write_lines (path : string) (lines : list string) :
  confined (E := E) [path] (write_lines path lines).
Proof.
  induction lines as [|l lines IH]; simpl; [apply confined_ret|].
  apply confined_bind; [apply confined_append | intros _; exact IH].
Qed.

Lemma confined_writerows (path : string) (cols : list string)
    (rows : list dict) :
  confined (E := E) [path] (writerows path cols rows).
Proof.
  induction rows as [|r rows IH]; simpl; [apply confined_ret|].
  apply confined_bind; [apply confined_res | intros cells].
  apply confined_bind; [apply confined_append | intros _; exact IH].
Qed.

Lemma confined_write_csv (path : string) (records : list dict) :
  confined (E := E) [path] (write_csv path records).
Proof.
  destruct records as [|first rest]; unfold write_csv; [apply confined_ret|].
  apply confined_bind; [apply confined_open | intros _].
  apply confined_bind; [apply confined_append | intros _].
  apply (confined_writerows path (map fst first) (first :: rest)).
Qed.

End Writing.

Lemma append_inj (pre x y : string) : (pre ++ x = pre ++ y)%string -> x = y.
Proof.
  induction pre as [|c pre IH]; simpl; [auto|].
  intros H. injection H as H. auto.
Qed.

Lemma append_assoc (a b c : string) :
  ((a ++ b) ++ c = a ++ b ++ c)%string.
Proof. induction a as [|x a IH]; simpl; [|rewrite IH]; reflexivity. Qed.

(** A relative name is joined after a prefix that only depends on the
    directory. *)
Lemma path_join_relative (dir : string) :
  exists pre, forall b, prefix "/" b = false ->
                        path_join dir b = (pre ++ b)%string.
Proof.
  unfold path_join.
  destruct (String.eqb dir "" || ends_with_slash dir).
  - exists dir. intros b ->. reflexivity.
  - exists (dir ++ "/")%string. intros b ->. rewrite append_assoc. reflexivity.
Qed.

Lemma baku_paths_distinct (dir t : string) :
  MarketsBaku.markets_file dir t <> MarketsBaku.items_file dir t
  /\ MarketsBaku.markets_file dir t <> MarketsBaku.summary_file dir t
  /\ MarketsBaku.items_file dir t <> MarketsBaku.summary_file dir t.
Proof.
  unfold MarketsBaku.markets_file, MarketsBaku.items_file,
    MarketsBaku.summary_file.
  destruct (path_join_relative dir) as (pre & Hpre).
  rewrite !Hpre by reflexivity.
  repeat split; intros H; apply append_inj in H; discriminate.
Qed.

Lemma markets_paths_distinct (dir : string) :
  path_join dir "markets.csv" <> path_join dir "items.csv"
  /\ path_join dir "markets.csv" <> path_join dir "scrape_summary.txt"
  /\ path_join dir "items.csv" <> path_join dir "scrape_summary.txt".
Proof.
  destruct (path_join_relative dir) as (pre & Hpre).
  rewrite !Hpre by reflexivity.
  repeat split; intros H; apply append_inj in H; discriminate.
Qed.

Lemma NoDup_market_columns : NoDup market_columns.
Proof.
  assert (H : nodup string_dec market_columns = market_columns)
    by (vm_compute; reflexivity).
  rewrite <- H. apply NoDup_nodup.
Qed.

Lemma NoDup_markets_item_columns : NoDup markets_item_columns.
Proof.
  assert (H : nodup string_dec markets_item_columns = markets_item_columns)
    by (vm_compute; reflexivity).
  rewrite <- H. apply NoDup_nodup.
Qed.

Lemma NoDup_baku_item_columns : NoDup baku_item_columns.
Proof.
  assert (H : nodup string_dec baku_item_columns = baku_item_columns)
    by (vm_compute; reflexivity).
  rewrite <- H. apply NoDup_nodup.
Qed.

Lemma acceptedb_accepted (E : Env) (out : list (string * file)) :
  acceptedb E out = true -> accepted E out.
Proof.
  unfold acceptedb, accepted, encodes_all. intros H.
  apply Forall_forall. intros pf Hpf.
  rewrite forallb_forall in H. specialize (H pf Hpf).
  apply andb_true_iff in H as [Hw He]. split; [exact Hw|].
  apply Forall_forall. rewrite forallb_forall in He. exact He.
Qed.

Ltac split_lines H :=
  repeat match type of H with
         | Forall _ (_ :: _) =>
             let Hx := fresh "Hline" in
             let Hr := fresh "Hrest" in
             inversion H as [|? ? Hx Hr]; subst; clear H; rename Hr into H
         end.

Section Save.
Context {E : Env}.

Lemma baku_save_run (dir t : string) (s : state E) (fs : disk) :
  tidy baku_item_columns s -> accepted E (baku_output dir t s) ->
  exists fs',
    MarketsBaku.save_to_csv dir t (s, fs)
    = (Ok tt, (set_world (snd (now E (world s))) s, fs'))
    /\ read (MarketsBaku.markets_file dir t) fs'
       = saved market_columns (self_markets s)
           (read (MarketsBaku.markets_file dir t) fs)
    /\ read (MarketsBaku.items_file dir t) fs'
       = saved baku_item_columns (self_items s)
           (read (MarketsBaku.items_file dir t) fs)
    /\ read (MarketsBaku.summary_file dir t) fs'
       = Some (baku_summary E dir t (fst (now E (world s)))
                 (self_markets s) (self_items s))
    /\ forall q, q <> MarketsBaku.markets_file dir t ->
                 q <> MarketsBaku.items_file dir t ->
                 q <> MarketsBaku.summary_file dir t ->
                 read q fs' = read q fs.
Proof.
  intros [Hm Hi] Hacc.
  unfold accepted, baku_output in Hacc.
  inversion Hacc as [|? ? [Hw1 He1] Hacc2]; subst. cbn [fst snd] in Hw1, He1.
  inversion Hacc2 as [|? ? [Hw2 He2] Hacc3]; subst. cbn [fst snd] in Hw2, He2.
  inversion Hacc3 as [|? ? [Hw3 He3] _]; subst. cbn [fst snd] in Hw3, He3.
  clear Hacc Hacc2 Hacc3.
  destruct (baku_paths_distinct dir t) as (Hmi & Hms & His).
  destruct (write_table_run (MarketsBaku.markets_file dir t) market_columns
              (self_markets s) s fs NoDup_market_columns Hm Hw1 He1)
    as (fs1 & H1 & Hr1 & Ho1).
  destruct (write_table_run (MarketsBaku.items_file dir t) baku_item_columns
              (self_items s) s fs1 NoDup_baku_item_columns Hi Hw2 He2)
    as (fs2 & H2 & Hr2 & Ho2).
  unfold MarketsBaku.save_to_csv.
  unfold io_bind at 1, self at 1. cbn [fst snd].
  unfold io_bind at 1. rewrite H1.
  unfold io_bind at 1. rewrite H2.
  unfold io_bind at 1, open_w at 1. rewrite Hw3. cbn [fst snd].
  unfold baku_summary in He3. unfold encodes_all in He3. cbn [map] in He3.
  destruct (now E (world s)) as [ts w] eqn:Hnow. cbn [fst snd] in He3.
  split_lines He3.
  unfold io_bind at 1.
  rewrite write_lines_run by (repeat constructor; assumption).
  unfold io_bind at 1, io_lift, isoformat_now. cbn [fst snd].
  rewrite Hnow. cbn [fst snd].
  rewrite write_lines_run by (repeat constructor; assumption).
  eexists. split; [reflexivity|]. split; [|split; [|split]].
  - rewrite read_store_other by exact Hms.
    rewrite Ho2 by exact Hmi. exact Hr1.
  - rewrite read_store_other by exact His.
    rewrite Hr2, Ho1 by (intros H; apply Hmi; symmetry; exact H).
    reflexivity.
  - rewrite read_store_same. reflexivity.
  - intros q Hq1 Hq2 Hq3. rewrite read_store_other by exact Hq3.
    rewrite Ho2 by exact Hq2. apply Ho1. exact Hq1.
Qed.

Lemma markets_save_run (dir : string) (s : state E) (fs : disk) (n : Z) :
  tidy markets_item_columns s -> len (self_cities s) = Ok n ->
  accepted E (markets_output dir n s) ->
  exists fs',
    Markets.save_to_csv dir (s, fs)
    = (Ok tt, (set_world (snd (now E (world s))) s, fs'))
    /\ read (path_join dir "markets.csv") fs'
       = saved market_columns (self_markets s)
           (read (path_join dir "markets.csv") fs)
    /\ read (path_join dir "items.csv") fs'
       = saved markets_item_columns (self_items s)
           (read (path_join dir "items.csv") fs)
    /\ read (path_join dir "scrape_summary.txt") fs'
       = Some (markets_summary E dir (fst (now E (world s))) n
                 (self_markets s) (self_items s))
    /\ forall q, q <> path_join dir "markets.csv" ->
                 q <> path_join dir "items.csv" ->
                 q <> path_join dir "scrape_summary.txt" ->
                 read q fs' = read q fs.
Proof.
  intros [Hm Hi] Hn Hacc.
  unfold accepted, markets_output in Hacc.
  inversion Hacc as [|? ? [Hw1 He1] Hacc2]; subst. cbn [fst snd] in Hw1, He1.
  inversion Hacc2 as [|? ? [Hw2 He2] Hacc3]; subst. cbn [fst snd] in Hw2, He2.
  inversion Hacc3 as [|? ? [Hw3 He3] _]; subst. cbn [fst snd] in Hw3, He3.
  clear Hacc Hacc2 Hacc3.
  destruct (markets_paths_distinct dir) as (Hmi & Hms & His).
  destruct (write_table_run (path_join dir "markets.csv") market_columns
              (self_markets s) s fs NoDup_market_columns Hm Hw1 He1)
    as (fs1 & H1 & Hr1 & Ho1).
  destruct (write_table_run (path_join dir "items.csv") markets_item_columns
              (self_items s) s fs1 NoDup_markets_item_columns Hi Hw2 He2)
    as (fs2 & H2 & Hr2 & Ho2).
  unfold Markets.save_to_csv.
  unfold io_bind at 1, self at 1. cbn [fst snd].
  unfold io_bind at 1. rewrite H1.
  unfold io_bind at 1. rewrite H2.
  cbv zeta.
  unfold io_bind at 1, open_w at 1. rewrite Hw3. cbn [fst snd].
  unfold markets_summary in He3. unfold encodes_all in He3. cbn [map] in He3.
  destruct (now E (world s)) as [ts w] eqn:Hnow. cbn [fst snd] in He3.
  split_lines He3.
  unfold io_bind at 1.
  rewrite write_lines_run by (repeat constructor; assumption).
  unfold io_bind at 1, io_lift, isoformat_now. cbn [fst snd].
  rewrite Hnow. cbn [fst snd].
  unfold io_bind at 1.
  rewrite write_lines_run by (repeat constructor; assumption).
  unfold io_bind at 1, io_res. rewrite Hn.
  rewrite write_lines_run by (repeat constructor; assumption).
  eexists. split; [reflexivity|]. split; [|split; [|split]].
  - rewrite read_store_other by exact Hms.
    rewrite Ho2 by exact Hmi. exact Hr1.
  - rewrite read_store_other by exact His.
    rewrite Hr2, Ho1 by (intros H; apply Hmi; symmetry; exact H).
    reflexivity.
  - rewrite read_store_same. reflexivity.
  - intros q Hq1 Hq2 Hq3. rewrite read_store_other by exact Hq3.
    rewrite Ho2 by exact Hq2. apply Ho1. exact Hq1.
Qed.

(** With nothing collected, only the summary can be touched. *)
Lemma markets_save_empty_confined (dir : string) (s : state E) (fs : disk) :
  self_markets s = [] -> self_items s = [] ->
  forall q, q <> path_join dir "scrape_summary.txt" ->
  read q (snd (snd (Markets.save_to_csv dir (s, fs)))) = read q fs.
Proof.
  intros Hm Hi q Hq.
  unfold Markets.save_to_csv.
  unfold io_bind at 1, self at 1. cbn [fst snd]. rewrite Hm, Hi.
  unfold io_bind at 1 2, io_ret at 1 2. cbv zeta.
  match goal with
  | |- read q (snd (snd (?m (s, fs)))) = _ =>
      assert (Hc : confined [path_join dir "scrape_summary.txt"] m)
  end.
  { apply confined_bind; [apply confined_open | intros _].
    apply confined_bind; [apply confined_write_lines | intros _].
    apply confined_bind; [apply confined_lift | intros t].
    apply confined_bind; [apply confined_write_lines | intros _].
    apply confined_bind; [apply confined_res | intros n].
    apply confined_write_lines. }
  apply (Hc (s, fs) q). intros [H|[]]. apply Hq. symmetry. exact H.
Qed.

Lemma baku_save_empty_confined (dir t : string) (s : state E) (fs : disk) :
  self_markets s = [] -> self_items s = [] ->
  forall q, q <> MarketsBaku.summary_file dir t ->
  read q (snd (snd (MarketsBaku.save_to_csv dir t (s, fs)))) = read q fs.
Proof.
  intros Hm Hi q Hq.
  unfold MarketsBaku.save_to_csv.
  unfold io_bind at 1, self at 1. cbn [fst snd]. rewrite Hm, Hi.
  unfold io_bind at 1 2, io_ret at 1 2.
  match goal with
  | |- read q (snd (snd (?m (s, fs)))) = _ =>
      assert (Hc : confined [MarketsBaku.summary_file dir t] m)
  end.
  { apply confined_bind; [apply confined_open | intros _].
    apply confined_bind; [apply confined_write_lines | intros _].
    apply confined_bind; [apply confined_lift | intros ts].
    apply confined_write_lines. }
  apply (Hc (s, fs) q). intros [H|[]]. apply Hq. symmetry. exact H.
Qed.

End Save.

(** X15.  When the collected records have the columns of their record
    set (and, in markets.py, [self.cities] has a length), the system lets
    the three files be opened and every text to write encodes as UTF-8,
    [save_to_csv] raises nothing: each table with records is replaced by
    its header row followed by one row per record, the cells being the
    record's values in column order, and the summary file holds the nine
    summary lines with the two counts. *)
Theorem save_writes_tables (E : Env) (dir t : string) (sm sb : state E)
    (fs : disk) (n : Z) :
  (tidy markets_item_columns sm -> len (self_cities sm) = Ok n ->
   accepted E (markets_output dir n sm) ->
   exists s' fs',
     Markets.save_to_csv dir (sm, fs) = (Ok tt, (s', fs'))
     /\ read (path_join dir "markets.csv") fs'
        = saved market_columns (self_markets sm)
            (read (path_join dir "markets.csv") fs)
     /\ read (path_join dir "items.csv") fs'
        = saved markets_item_columns (self_items sm)
            (read (path_join dir "items.csv") fs)
     /\ read (path_join dir "scrape_summary.txt") fs'
        = Some (markets_summary E dir (fst (now E (world sm))) n
                  (self_markets sm) (self_items sm)))
  /\ (tidy baku_item_columns sb -> accepted E (baku_output dir t sb) ->
      exists s' fs',
        MarketsBaku.save_to_csv dir t (sb, fs) = (Ok tt, (s', fs'))
        /\ read (MarketsBaku.markets_file dir t) fs'
           = saved market_columns (self_markets sb)
               (read (MarketsBaku.markets_file dir t) fs)
        /\ read (MarketsBaku.items_file dir t) fs'
           = saved baku_item_columns (self_items sb)
               (read (MarketsBaku.items_file dir t) fs)
        /\ read (MarketsBaku.summary_file dir t) fs'
           = Some (baku_summary E dir t (fst (now E (world sb)))
                     (self_markets sb) (self_items sb))).
Proof.
  split.
  - intros Hm Hn Ha.
    destruct (markets_save_run dir sm fs n Hm Hn Ha)
      as (fs' & Hrun & H1 & H2 & H3 & _).
    eauto 10.
  - intros Hb Ha.
    destruct (baku_save_run dir t sb fs Hb Ha)
      as (fs' & Hrun & H1 & H2 & H3 & _).
    eauto 10.
Qed.

Lemma save_writes_tables_witness :
  exists s' fs',
    MarketsBaku.save_to_csv (E := env shop) "data" "baku" (shop_state, old_disk)
    = (Ok tt, (s', fs'))
    /\ read (MarketsBaku.markets_file "data" "baku") fs'
       = saved market_columns (self_markets shop_state)
           (read (MarketsBaku.markets_file "data" "baku") old_disk)
    /\ read (MarketsBaku.items_file "data" "baku") fs'
       = saved baku_item_columns (self_items shop_state)
           (read (MarketsBaku.items_file "data" "baku") old_disk)
    /\ read (MarketsBaku.summary_file "data" "baku") fs'
       = Some (baku_summary (env shop) "data" "baku"
                 (fst (now (env shop) (world shop_state)))
                 (self_markets shop_state) (self_items shop_state)).
Proof.
  refine (proj2 (save_writes_tables (env shop) "data" "baku"
                   (Markets.new (E := env shop) 0%nat) shop_state old_disk 0)
            _ _).
  - vm_compute. split; repeat constructor.
  - apply acceptedb_accepted. vm_compute. reflexivity.
Defined.

(** Text with a surrogate stops the save: the rows before it are on
    disk, the exception is a [UnicodeEncodeError]. *)
Example surrogate_stops_writerows :
  let surrogate := String (ascii_of_nat 237) (String (ascii_of_nat 160)
                     (String (ascii_of_nat 128) "")) in
  write_csv (E := env down) "t.csv"
    [ [("a", VStr "x")]; [("a", VStr surrogate)]; [("a", VStr "z")] ]
    (init (E := env down) 0%nat, [])
  = (Raise UnicodeEncodeError,
     (init (E := env down) 0%nat,
      [("t.csv", [Row [VStr "a"]; Row [VStr "x"]])])).
Proof. reflexivity. Qed.



Lemma tidy_crawl {E : Env} (cols : list string) (markets : list value)
    (r : res unit) (s s' : state E) :
  tidy cols s -> crawl_effect cols markets r s s' -> tidy cols s'.
Proof.
  intros [Hm Hi] [_ (recs & items & done & rest & Hm' & Hi' & _ & Hdone
                     & Hitems & _)].
  unfold tidy. rewrite Hm', Hi'. split; apply Forall_app; split; auto.
  - clear - Hdone. induction Hdone as [|m rec ? ? (vm & _ & Hk & _) _ IH];
      constructor; assumption.
  - eapply Forall_impl; [|exact Hitems]. intros p [Hk _]. exact Hk.
Qed.

Lemma tidy_self_part {E : Env} (cols : list string) (s s' : state E) :
  self_part s' = self_part s -> tidy cols s -> tidy cols s'.
Proof.
  intros H. apply self_part_eq in H as (_ & Hm & Hi).
  unfold tidy. rewrite Hm, Hi. auto.
Qed.

Section Runs.
Context {E : Env}.

Lemma for_loop_ok_invariant {A} (Inv : state E -> Prop)
    (body : A -> M E unit) (l : list A) :
  (forall a s s', Inv s -> body a s = (Ok tt, s') -> Inv s') ->
  forall s s', Inv s -> for_loop l body s = (Ok tt, s') -> Inv s'.
Proof.
  intros Hbody. induction l as [|a l IH]; intros s s' Hs; simpl.
  - unfold ret. intros H. injection H as <-. exact Hs.
  - intros H. apply bind_inv in H as ([] & s1 & Ha & Hl).
    eapply IH; [|exact Hl]. eapply Hbody; eassumption.
Qed.

Lemma baku_scrape_tidy (t : string) (s : state E) :
  tidy baku_item_columns s ->
  tidy baku_item_columns (snd (MarketsBaku.scrape_markets t s)).
Proof.
  intros Hs. unfold MarketsBaku.scrape_markets, bind.
  pose proof (world_only_fetch_retail_markets (E := E) DEFAULT_LAT DEFAULT_LON
                (VStr t) s) as Hw.
  destruct (fetch_retail_markets DEFAULT_LAT DEFAULT_LON (VStr t) s)
    as [[markets|e] s1]; simpl in Hw;
    pose proof (tidy_self_part _ _ _ Hw Hs) as Hs1; [|exact Hs1].
  destruct markets as [|m ms]; [exact Hs1|].
  eapply tidy_crawl; [exact Hs1 | apply baku_crawl_effect].
Qed.

(** What markets.py needs to save: tidy records and a sized city list. *)
Lemma markets_scrape_tidy (s s' : state E) :
  Markets.scrape_all_markets s = (Ok tt, s') ->
  tidy markets_item_columns s -> sized (self_cities s) ->
  tidy markets_item_columns s' /\ sized (self_cities s').
Proof.
  unfold Markets.scrape_all_markets. intros H Hs Hc.
  apply bind_inv in H as (cities & s1 & Hf & H).
  apply fetch_cities_effect in Hf as (Hm & Hi & Hcs).
  assert (Inv1 : tidy markets_item_columns s1 /\ sized (self_cities s1)).
  { split.
    - unfold tidy. rewrite Hm, Hi. exact Hs.
    - destruct Hcs as [[_ ->]|[-> Hsz]]; assumption. }
  cbv zeta in H. apply bind_lift_inv in H as (l & _ & H).
  revert H.
  apply (for_loop_ok_invariant
           (fun s => tidy markets_item_columns s /\ sized (self_cities s)));
    [|exact Inv1].
  clear. intros city s s' [Hs Hc] H.
  apply bind_lift_inv in H as (city_slug & _ & H).
  apply bind_lift_inv in H as (city_name & _ & H).
  apply bind_lift_inv in H as (location & _ & H).
  apply bind_lift_inv in H as (coords & _ & H).
  apply bind_lift_inv in H as (lon & _ & H).
  apply bind_lift_inv in H as (lat & _ & H).
  apply bind_inv in H as (markets & s1 & Hf & H).
  pose proof (world_only_fetch_retail_markets (E := E) lat lon city_slug s)
    as Hw.
  rewrite Hf in Hw. simpl in Hw.
  pose proof (markets_crawl_effect city_name city_slug markets s1) as Hcrawl.
  rewrite H in Hcrawl. simpl in Hcrawl.
  pose proof (tidy_self_part _ _ _ Hw Hs) as Hs1.
  split; [eapply tidy_crawl; eassumption|].
  destruct Hcrawl as [-> _].
  apply self_part_eq in Hw as (-> & _). exact Hc.
Qed.

Lemma markets_run_raises (dir : string) (s s' : state E) (fs : disk) (e : exn) :
  Markets.scrape_all_markets s = (Raise e, s') ->
  Markets.run dir (s, fs) = (Raise e, (s', fs)).
Proof.
  intros H. unfold Markets.run, io_bind, io_lift. simpl. rewrite H. reflexivity.
Qed.

Lemma baku_run_raises (dir t : string) (s s' : state E) (fs : disk) (e : exn) :
  MarketsBaku.scrape_markets t s = (Raise e, s') ->
  MarketsBaku.run dir t (s, fs) = (Raise e, (s', fs)).
Proof.
  intros H. unfold MarketsBaku.run, io_bind, io_lift. simpl. rewrite H.
  reflexivity.
Qed.

Lemma markets_run_ok (dir : string) (s s' : state E) (fs : disk) :
  Markets.scrape_all_markets s = (Ok tt, s') ->
  Markets.run dir (s, fs) = Markets.save_to_csv dir (s', fs).
Proof.
  intros H. unfold Markets.run, io_bind, io_lift. simpl. rewrite H. reflexivity.
Qed.

Lemma baku_run_ok (dir t : string) (s s' : state E) (fs : disk) :
  MarketsBaku.scrape_markets t s = (Ok tt, s') ->
  MarketsBaku.run dir t (s, fs) = MarketsBaku.save_to_csv dir t (s', fs).
Proof.
  intros H. unfold MarketsBaku.run, io_bind, io_lift. simpl. rewrite H.
  reflexivity.
Qed.

End Runs.

(** X17.  A run of a fresh scraper whose crawl completes saves what the
    crawl collected whenever the system takes it (the three files open
    and every text encodes): [save_to_csv] then raises nothing, [run]
    returns normally, and the two tables and the summary hold the
    collected records and their counts (for markets.py the city count is
    the length of [self.cities], which the crawl leaves sized). *)
Theorem run_saves_completed_crawl (E : Env) (dir t : string) (w : World E)
    (fs : disk) :
  (forall s, Markets.scrape_all_markets (Markets.new w) = (Ok tt, s) ->
     exists n,
       len (self_cities s) = Ok n
       /\ (accepted E (markets_output dir n s) ->
           exists s' fs',
             Markets.run dir (Markets.new w, fs) = (Ok tt, (s', fs'))
             /\ read (path_join dir "markets.csv") fs'
                = saved market_columns (self_markets s)
                    (read (path_join dir "markets.csv") fs)
             /\ read (path_join dir "items.csv") fs'
                = saved markets_item_columns (self_items s)
                    (read (path_join dir "items.csv") fs)
             /\ read (path_join dir "scrape_summary.txt") fs'
                = Some (markets_summary E dir (fst (now E (world s))) n
                          (self_markets s) (self_items s))))
  /\ (forall s, MarketsBaku.scrape_markets t (MarketsBaku.new w) = (Ok tt, s) ->
        accepted E (baku_output dir t s) ->
        exists s' fs',
          MarketsBaku.run dir t (MarketsBaku.new w, fs) = (Ok tt, (s', fs'))
          /\ read (MarketsBaku.markets_file dir t) fs'
             = saved market_columns (self_markets s)
                 (read (MarketsBaku.markets_file dir t) fs)
          /\ read (MarketsBaku.items_file dir t) fs'
             = saved baku_item_columns (self_items s)
                 (read (MarketsBaku.items_file dir t) fs)
          /\ read (MarketsBaku.summary_file dir t) fs'
             = Some (baku_summary E dir t (fst (now E (world s)))
                       (self_markets s) (self_items s))).
Proof.
  split; intros s Hcrawl.
  - assert (Hnew : tidy markets_item_columns (Markets.new w)
                   /\ sized (self_cities (Markets.new w))).
    { split; [split; constructor | exists 0; reflexivity]. }
    destruct (markets_scrape_tidy _ _ Hcrawl (proj1 Hnew) (proj2 Hnew))
      as [Htidy [n Hn]].
    exists n. split; [exact Hn|]. intros Ha.
    destruct (markets_save_run dir s fs n Htidy Hn Ha)
      as (fs' & Hrun & H1 & H2 & H3 & _).
    exists (set_world (snd (now E (world s))) s), fs'.
    rewrite (markets_run_ok dir _ _ fs Hcrawl). auto.
  - intros Ha.
    assert (Htidy : tidy baku_item_columns s).
    { pose proof (baku_scrape_tidy t (MarketsBaku.new w)) as H.
      rewrite Hcrawl in H. apply H. split; constructor. }
    destruct (baku_save_run dir t s fs Htidy Ha)
      as (fs' & Hrun & H1 & H2 & H3 & _).
    exists (set_world (snd (now E (world s))) s), fs'.
    rewrite (baku_run_ok dir t _ _ fs Hcrawl). auto.
Qed.

Lemma run_saves_completed_crawl_witness :
  exists s' fs',
    MarketsBaku.run (E := env shop) "data" "baku"
      (MarketsBaku.new (E := env shop) 0%nat, old_disk) = (Ok tt, (s', fs'))
    /\ read (MarketsBaku.markets_file "data" "baku") fs'
       = saved market_columns (self_markets shop_run)
           (read (MarketsBaku.markets_file "data" "baku") old_disk)
    /\ read (MarketsBaku.items_file "data" "baku") fs'
       = saved baku_item_columns (self_items shop_run)
           (read (MarketsBaku.items_file "data" "baku") old_disk)
    /\ read (MarketsBaku.summary_file "data" "baku") fs'
       = Some (baku_summary (env shop) "data" "baku"
                 (fst (now (env shop) (world shop_run)))
                 (self_markets shop_run) (self_items shop_run)).
Proof.
  apply (proj2 (run_saves_completed_crawl (env shop) "data" "baku" 0%nat
                  old_disk) shop_run).
  - vm_compute. reflexivity.
  - apply acceptedb_accepted. vm_compute. reflexivity.
Defined.

(** X18.  When the crawl ends with an exception, [run] ends with the
    same exception and nothing is written: the disk is as before, and the
    records the crawl had collected up to then stay in memory only. *)
Theorem failed_crawl_saves_nothing (E : Env) (dir t : string) (s s' : state E)
    (fs : disk) (e : exn) :
  (Markets.scrape_all_markets s = (Raise e, s') ->
   Markets.run dir (s, fs) = (Raise e, (s', fs)))
  /\ (MarketsBaku.scrape_markets t s = (Raise e, s') ->
      MarketsBaku.run dir t (s, fs) = (Raise e, (s', fs))).
Proof.
  split; [apply markets_run_raises | apply baku_run_raises].
Qed.

Lemma failed_crawl_saves_nothing_witness :
  Markets.run (E := env lost_shop) "data"
    (Markets.new (E := env lost_shop) 0%nat, old_disk)
  = (Raise IndexError,
     (snd (Markets.scrape_all_markets (E := env lost_shop)
             (Markets.new (E := env lost_shop) 0%nat)), old_disk))
  /\ List.length
       (self_markets (snd (Markets.scrape_all_markets (E := env lost_shop)
                             (Markets.new (E := env lost_shop) 0%nat)))) = 1%nat.
Proof.
  split.
  - apply (proj1 (failed_crawl_saves_nothing (env lost_shop) "data" "baku"
                    (Markets.new (E := env lost_shop) 0%nat)
                    (snd (Markets.scrape_all_markets (E := env lost_shop)
                            (Markets.new (E := env lost_shop) 0%nat)))
                    old_disk IndexError)).
    vm_compute. reflexivity.
  - vm_compute. reflexivity.
Defined.

(** ** The two market categorizers of generate_charts.py *)

(** X19.  The categorizer of [analyze_price_by_category] is the one of
    [analyze_market_categories] without the keywords piv, cicek, vape,
    smoke, tobacco, baby, toy, phone, mobile, telekom and aksesuar: on
    tags whose lower-cased text contains none of them, and on a missing
    cell, the two give the same category. *)
Theorem categorizers_agree (E : Env) (lower : string -> string) (tags : value) :
  extra_keyword (lower (str E tags)) = false ->
  Charts.AnalyzeMarketCategories.categorize_market (E := E) lower tags
  = Charts.AnalyzePriceByCategory.categorize_market (E := E) lower tags.
Proof.
  unfold extra_keyword, Charts.AnalyzeMarketCategories.categorize_market,
    Charts.AnalyzePriceByCategory.categorize_market.
  intros H. destruct tags; try reflexivity; cbv zeta;
    match goal with
    | H : context [lower ?x] |- _ => generalize dependent (lower x)
    end;
    intros t H;
    repeat (apply orb_false_elim in H; destruct H as [H ?]);
    repeat match goal with
           | Hk : is_substring _ t = false |- _ => rewrite Hk; clear Hk
           end;
    rewrite ?orb_false_r; reflexivity.
Qed.

Lemma categorizers_agree_witness :
  Charts.AnalyzeMarketCategories.categorize_market (E := env down)
    (lower (env down)) (VStr "Grocery, Pet")
  = Charts.AnalyzePriceByCategory.categorize_market (E := env down)
      (lower (env down)) (VStr "Grocery, Pet").
Proof.
  apply (categorizers_agree (env down) (lower (env down)) (VStr "Grocery, Pet")).
  vm_compute. reflexivity.
Defined.

(** With one of those keywords the two can part, and not only towards
    "Other". *)
Example categorizers_part :
  Charts.AnalyzeMarketCategories.categorize_market (E := env down)
    (lower (env down)) (VStr "Pivo, Zoo") = "Alcohol & Beverages"
  /\ Charts.AnalyzePriceByCategory.categorize_market (E := env down)
       (lower (env down)) (VStr "Pivo, Zoo") = "Pet Supplies".
Proof. split; vm_compute; reflexivity. Qed.
